(** * The campaign-planner workflow: six agent Lambdas driven by a
      Step Functions state machine

    The repository deploys six Python Lambda handlers (Agent0 .. Agent5,
    [agent0_code] .. [agent5_code] in Readme.md) and a state machine,
    written in the Amazon States Language, that invokes them in a row
    and ends in one of two SNS-publishing states, [NotifySuccess] and
    [FailureNotify].

    The development has four layers:
    - JSON values and the few Python operations the handlers apply to them;
    - the world the handlers act on (the DynamoDB table, the S3 objects,
      the SNS topic, the log) with a small state-and-exception monad;
    - the six handlers, line by line;
    - the state machine built by the notebook's loop and an interpreter
      of the States Language constructs it uses (Task, Parameters, Retry,
      Catch, Next, End).

    Everything outside the repository that answers a call (Bedrock,
    Kendra, the AWS endpoints, the Lambda service itself) is driven by a
    script of replies carried in the world, so that every behaviour of
    those services is the run on some script. *)

From stdpp Require Import base strings list gmap pretty sorting.
From Stdlib Require Import Ascii QArith.

(** ** JSON values *)

#[warnings="-register-all"]
Inductive Json :=
| JNull
| JBool (b : bool)
| JNum (n : Z)
| JStr (s : string)
| JList (l : list Json)
| JObj (fields : list (string * Json)).

(** A Python dict with string keys: the first binding of a key wins. *)
Abbreviation Dict := (list (string * Json)).

Fixpoint dict_lookup (k : string) (d : Dict) : option Json :=
  match d with
  | [] => None
  | (k', v) :: d' => if String.eqb k k' then Some v else dict_lookup k d'
  end.

(** [d[k] = v] *)
Fixpoint dict_set (k : string) (v : Json) (d : Dict) : Dict :=
  match d with
  | [] => [(k, v)]
  | (k', v') :: d' =>
      if String.eqb k k' then (k, v) :: d' else (k', v') :: dict_set k v d'
  end.

(** [d.get(k, default)] on a dict. *)
Definition dict_get (k : string) (default : Json) (d : Dict) : Json :=
  match dict_lookup k d with
  | Some v => v
  | None => default
  end.

(** Python truth value of a JSON value ([if x:], [x or y]). *)
Definition truthy (v : Json) : bool :=
  match v with
  | JNull => false
  | JBool b => b
  | JNum n => negb (Z.eqb n 0)
  | JStr s => negb (String.eqb s "")
  | JList l => match l with [] => false | _ => true end
  | JObj d => match d with [] => false | _ => true end
  end.

(** [needle in hay] on strings. *)
Fixpoint is_substring (needle hay : string) : bool :=
  String.prefix needle hay ||
  match hay with
  | EmptyString => false
  | String _ hay' => is_substring needle hay'
  end.

(** The parts of Python's standard library the handlers call on values
    whose shape this development does not fix: [json.loads],
    [json.dumps], and [str] of a value that is not a string. *)
Class PyJson := {
  json_loads : string -> option Json;
  json_dumps : Json -> string;
  py_repr : Json -> string
}.

(** [str(v)], which is also how an f-string renders [{v}]. *)
Definition py_str `{PyJson} (v : Json) : string :=
  match v with
  | JStr s => s
  | _ => py_repr v
  end.

(** ** Results of Python code: a value or a raised exception *)

Inductive Res (A : Type) :=
| Val (a : A)
| Exc (etype emsg : string).
Arguments Val {A} a.
Arguments Exc {A} etype emsg.

(** ** The world *)

(** One answer of a service to one call: the response body, or the
    exception the client raises. *)
Inductive Reply :=
| Ok (body : string)
| Err (etype emsg : string).

(** An item of the table created in section 1.2/1.3: hash key
    [campaign_id], range key [step], and the [data] attribute. *)
Record Item := {
  item_campaign_id : string;
  item_step : string;
  item_data : string
}.

Record S3Object := {
  obj_bucket : string;
  obj_key : string;
  obj_body : string
}.

Record Message := {
  msg_subject : string;
  msg_text : string
}.

Record World := {
  table : list Item;          (* the DynamoDB table DYNAMO_TABLE *)
  objects : list S3Object;    (* the S3 buckets *)
  topic : list Message;       (* messages published to SNS_TOPIC, oldest first *)
  logs : list string;         (* lines written through logging *)
  script : list Reply         (* what the services will answer, in order *)
}.

Definition set_table (t : list Item) (w : World) : World :=
  {| table := t; objects := objects w; topic := topic w;
     logs := logs w; script := script w |}.

Definition set_objects (o : list S3Object) (w : World) : World :=
  {| table := table w; objects := o; topic := topic w;
     logs := logs w; script := script w |}.

Definition set_topic (m : list Message) (w : World) : World :=
  {| table := table w; objects := objects w; topic := m;
     logs := logs w; script := script w |}.

Definition set_logs (l : list string) (w : World) : World :=
  {| table := table w; objects := objects w; topic := topic w;
     logs := l; script := script w |}.

Definition set_script (s : list Reply) (w : World) : World :=
  {| table := table w; objects := objects w; topic := topic w;
     logs := logs w; script := s |}.

(** ** The monad of handler code: state plus exceptions *)

Definition Py (A : Type) : Type := World -> Res A * World.

Global Instance Py_ret : MRet Py := fun A a w => (Val a, w).

Global Instance Py_bind : MBind Py := fun A B f m w =>
  match m w with
  | (Val a, w') => f a w'
  | (Exc t e, w') => (Exc t e, w')
  end.

Global Instance Py_fmap : FMap Py := fun A B f m w =>
  match m w with
  | (Val a, w') => (Val (f a), w')
  | (Exc t e, w') => (Exc t e, w')
  end.

Definition raise {A} (etype emsg : string) : Py A :=
  fun w => (Exc etype emsg, w).

(** [try: body / except Exception as e: handler] *)
Definition try_except {A} (body : Py A) (handler : string -> string -> Py A)
  : Py A :=
  fun w =>
    match body w with
    | (Val a, w') => (Val a, w')
    | (Exc t e, w') => handler t e w'
    end.

Definition lift {A} (r : Res A) : Py A := fun w => (r, w).

Definition get_world : Py World := fun w => (Val w, w).

Definition modify (f : World -> World) : Py unit := fun w => (Val tt, f w).

(** [logging.error(msg)] / [logging.warning(msg)] *)
Definition log (line : string) : Py unit :=
  modify (fun w => set_logs (logs w ++ [line]) w).

(** The next reply of the script.  A script that has run out answers
    every further call with success and an empty JSON object as body. *)
Definition next_reply : Py Reply :=
  fun w =>
    match script w with
    | [] => (Val (Ok "{}"), w)
    | r :: rs => (Val r, set_script rs w)
    end.

(** A call that goes over the network: the body comes back, or the
    client raises. *)
Definition aws_call : Py string :=
  r ← next_reply;
  match r with
  | Ok body => mret body
  | Err t e => raise t e
  end.

(** boto3 checks parameter types before it sends anything. *)
Definition param_str (v : Json) : Py string :=
  match v with
  | JStr s => mret s
  | _ => raise "ParamValidationError" "Parameter validation failed"
  end.

(** *** DynamoDB *)

Definition has_key (c s : string) (it : Item) : bool :=
  String.eqb (item_campaign_id it) c && String.eqb (item_step it) s.

Definition table_get (c s : string) (t : list Item) : option Item :=
  List.find (has_key c s) t.

(** PutItem replaces the item that has the same primary key. *)
Definition table_put (it : Item) (t : list Item) : list Item :=
  List.filter (fun x => negb (has_key (item_campaign_id it) (item_step it) x)) t
  ++ [it].

(** [dynamodb.get_item(TableName=..., Key={campaign_id: {S: c}, step: {S: s}})];
    the answer holds ['Item'] exactly when the result is [Some]. *)
Definition dynamodb_get_item (campaign_id : Json) (step : string)
  : Py (option Item) :=
  c ← param_str campaign_id;
  aws_call;;
  w ← get_world;
  mret (table_get c step (table w)).

(** [dynamodb.put_item(TableName=..., Item={campaign_id, step, data})] *)
Definition dynamodb_put_item (campaign_id : Json) (step : string) (data : Json)
  : Py unit :=
  c ← param_str campaign_id;
  d ← param_str data;
  aws_call;;
  modify (fun w =>
    set_table
      (table_put {| item_campaign_id := c; item_step := step; item_data := d |}
                 (table w)) w).

(** *** S3 *)

Definition s3_find (b k : string) (os : list S3Object) : option S3Object :=
  List.find (fun o => String.eqb (obj_bucket o) b && String.eqb (obj_key o) k) os.

Definition s3_store (o : S3Object) (os : list S3Object) : list S3Object :=
  List.filter
    (fun x => negb (String.eqb (obj_bucket x) (obj_bucket o)
                    && String.eqb (obj_key x) (obj_key o))) os
  ++ [o].

(** [s3.get_object(Bucket=b, Key=k)['Body'].read().decode('utf-8')].
    boto3 matches the bucket name against a pattern before it validates
    the parameters, and that match raises TypeError on a bucket that is
    not a string. *)
Definition s3_get_object (bucket key : Json) : Py string :=
  b ← match bucket with
      | JStr s => mret s
      | _ => raise "TypeError" "expected string or bytes-like object"
      end;
  k ← param_str key;
  aws_call;;
  w ← get_world;
  match s3_find b k (objects w) with
  | Some o => mret (obj_body o)
  | None => raise "NoSuchKey" "The specified key does not exist."
  end.

(** [s3.put_object(Bucket=b, Key=k, Body=body)] *)
Definition s3_put_object (bucket key : string) (body : Json) : Py unit :=
  d ← param_str body;
  aws_call;;
  modify (fun w =>
    set_objects
      (s3_store {| obj_bucket := bucket; obj_key := key; obj_body := d |}
                (objects w)) w).

(** *** SNS *)

(** [sns.publish(TopicArn=SNS_TOPIC, Message=m, Subject=s)] *)
Definition sns_publish (message subject : string) : Py string :=
  message_id ← aws_call;
  modify (fun w =>
    set_topic
      (topic w ++ [{| msg_subject := subject; msg_text := message |}]) w);;
  mret message_id.

(** *** Bedrock and Kendra *)

(** [json.loads(text)] *)
Definition py_json_loads `{PyJson} (text : string) : Py Json :=
  match json_loads text with
  | Some v => mret v
  | None => raise "JSONDecodeError" "Expecting value"
  end.

(** [json.loads(bedrock.invoke_model(modelId=..., body=...)['body'].read())].
    The prompt is not an argument: the script already ranges over every
    answer the model can give. *)
Definition bedrock_invoke_and_load `{PyJson} : Py Json :=
  body ← aws_call;
  py_json_loads body.

(** [kendra.query(IndexId=..., QueryText=...)] and the reading of its
    first excerpt, all of which sits inside one [try].  The excerpt only
    feeds the prompt; an [Err] reply stands for any exception raised
    inside that [try]. *)
Definition kendra_query : Py unit := aws_call;; mret tt.

(** ** Python operations that can raise *)

(** [v.get(k, default)]: only a dict has [get]. *)
Definition py_get (v : Json) (k : string) (default : Json) : Py Json :=
  match v with
  | JObj d => mret (dict_get k default d)
  | _ => raise "AttributeError" "object has no attribute 'get'"
  end.

(** [v.lower()]: only a str has [lower].  The lowered text itself is
    used in prompts only. *)
Definition py_lower (v : Json) : Py unit :=
  match v with
  | JStr _ => mret tt
  | _ => raise "AttributeError" "object has no attribute 'lower'"
  end.

(** [k in v] for a string [k]. *)
Definition py_in (k : string) (v : Json) : Py bool :=
  match v with
  | JObj d => mret (bool_decide (is_Some (dict_lookup k d)))
  | JList l =>
      mret (existsb (fun x => match x with
                              | JStr s => String.eqb s k
                              | _ => false
                              end) l)
  | JStr s => mret (is_substring k s)
  | _ => raise "TypeError" "argument is not iterable"
  end.

(** [v[0]] *)
Definition py_index0 (v : Json) : Py Json :=
  match v with
  | JList (x :: _) => mret x
  | JList [] => raise "IndexError" "list index out of range"
  | JStr (String a _) => mret (JStr (String a EmptyString))
  | JStr EmptyString => raise "IndexError" "string index out of range"
  | JObj _ => raise "KeyError" "0"
  | _ => raise "TypeError" "object is not subscriptable"
  end.

(** [result.get('results', [{}])[0].get('outputText', '')
       if 'results' in result else str(result)] *)
Definition output_text `{PyJson} (result : Json) : Py Json :=
  b ← py_in "results" result;
  if b : bool then
    rs ← py_get result "results" (JList [JObj []]);
    r0 ← py_index0 rs;
    py_get r0 "outputText" (JStr "")
  else mret (JStr (py_str result)).

(** [resp.get('Item', {}).get('data', {}).get('S', '')] on the answer of
    [get_item]: the stored text, or the empty string when there is no
    item. *)
Definition item_text (resp : option Item) : Json :=
  match resp with
  | Some it => JStr (item_data it)
  | None => JStr ""
  end.

(** [brief_data = {}; if 'Item' in resp: brief_data = json.loads(resp['Item']['data']['S'])] *)
Definition load_brief_data `{PyJson} (resp : option Item) : Py Json :=
  match resp with
  | Some it => py_json_loads (item_data it)
  | None => mret (JObj [])
  end.

(** [x.get(k1, '') or x.get(k2, '')] *)
Definition get_or (x : Json) (k1 k2 : string) : Py Json :=
  a ← py_get x k1 (JStr "");
  if truthy a then mret a else py_get x k2 (JStr "").

(** A text is held as its UTF-8 bytes.  A byte [10xxxxxx] continues the
    character begun before it; every other byte begins one. *)
Definition utf8_continuation (a : Ascii.ascii) : bool :=
  let n := Ascii.nat_of_ascii a in
  (128 <=? n)%nat && (n <? 192)%nat.

(** [len(text)]: the number of characters. *)
Fixpoint utf8_chars (s : string) : nat :=
  match s with
  | EmptyString => 0
  | String a s' =>
      if utf8_continuation a then utf8_chars s' else S (utf8_chars s')
  end.

(** [text[:n]]: the first [n] characters, each with all of its bytes. *)
Fixpoint str_take (n : nat) (s : string) : string :=
  match s with
  | EmptyString => EmptyString
  | String a s' =>
      if utf8_continuation a then String a (str_take n s')
      else match n with
           | O => EmptyString
           | S n' => String a (str_take n' s')
           end
  end.

(** A set display [{e}] hashes its element, and a dict or a list cannot
    be hashed. *)
Definition py_set_display (e : Json) : Py unit :=
  match e with
  | JObj _ | JList _ => raise "TypeError" "unhashable type: 'dict'"
  | _ => mret tt
  end.

(** The white space of [str.strip()], which is that of [str.isspace()]:
    U+0009..U+000D, U+001C..U+0020, U+0085, U+00A0, U+1680,
    U+2000..U+200A, U+2028, U+2029, U+202F, U+205F and U+3000, in UTF-8
    one, two or three bytes long. *)
Definition is_space (a : Ascii.ascii) : bool :=
  let n := Ascii.nat_of_ascii a in
  (n =? 32)%nat || ((9 <=? n)%nat && (n <=? 13)%nat)
  || ((28 <=? n)%nat && (n <=? 31)%nat).

Definition is_space2 (a b : Ascii.ascii) : bool :=
  let n := Ascii.nat_of_ascii a in
  let m := Ascii.nat_of_ascii b in
  (n =? 194)%nat && ((m =? 133)%nat || (m =? 160)%nat).

Definition is_space3 (a b c : Ascii.ascii) : bool :=
  let n := Ascii.nat_of_ascii a in
  let m := Ascii.nat_of_ascii b in
  let k := Ascii.nat_of_ascii c in
  ((n =? 225)%nat && (m =? 154)%nat && (k =? 128)%nat)
  || ((n =? 226)%nat && (m =? 128)%nat
      && (((128 <=? k)%nat && (k <=? 138)%nat)
          || (k =? 168)%nat || (k =? 169)%nat || (k =? 175)%nat))
  || ((n =? 226)%nat && (m =? 129)%nat && (k =? 159)%nat)
  || ((n =? 227)%nat && (m =? 128)%nat && (k =? 128)%nat).

(** [text.strip().startswith('{')] *)
Fixpoint strip_startswith_brace (s : string) : bool :=
  match s with
  | EmptyString => false
  | String a s1 =>
      let brace := (Ascii.nat_of_ascii a =? 123)%nat in
      if is_space a then strip_startswith_brace s1
      else
        match s1 with
        | String b s2 =>
            if is_space2 a b then strip_startswith_brace s2
            else
              match s2 with
              | String c s3 =>
                  if is_space3 a b c then strip_startswith_brace s3
                  else brace
              | EmptyString => brace
              end
        | EmptyString => brace
        end
  end.

(** ** The six handlers

    Each [agentN_lambda_handler] is [lambda_handler(event, context)] of
    [agentN_code].  The event is the JSON object the state machine
    passes; the environment variables DYNAMO_TABLE, SNS_TOPIC and
    KENDRA_INDEX name the one table, topic and index of the world. *)

Definition ASSETS_BUCKET : string := "ai-campaign-assets".

(** The event of a Lambda invocation and the handler run on it. *)
Abbreviation Event := (list (string * Json)).
Abbreviation Handler := (Event -> Py Json).

Section Agents.
Context `{PyJson}.

(** Agent 0, the input extractor.  [agent0_code] is a raw string on
    which only [.replace("{claude_model}", ...)] is applied, so its
    doubled braces reach the deployed file as they are: [{{ ... }}] is a
    set display around a dict display, and [{{e}}] inside the f-string
    of the log line is the literal text [{e}]. *)
Definition agent0_lambda_handler : Handler := fun event =>
  try_except
    (let bucket := dict_get "brief_bucket" JNull event in
     let key := dict_get "brief_key" JNull event in
     brief ← (if truthy bucket && truthy key then
                brief_text ← s3_get_object bucket key;
                if strip_startswith_brace brief_text
                then py_json_loads brief_text
                else mret (JObj [("raw_text", JStr brief_text)])
              else mret (dict_get "brief" (JObj []) event));
     campaign_id ← py_get brief "campaign_id" (JStr "UNKNOWN");
     (* payload = {{ "inputText": prompt,
                     "textGenerationConfig": {{"maxTokenCount": 500}} }} *)
     py_set_display (JObj [("maxTokenCount", JNum 500)]);;
     result ← bedrock_invoke_and_load;
     (* Item={{ "campaign_id": {{ "S": campaign_id }}, ... }} *)
     py_set_display (JObj [("S", campaign_id)]);;
     dynamodb_put_item campaign_id "input_extracted" (JStr (json_dumps result));;
     (* return {{ "campaign_id": campaign_id, "extracted": result }} *)
     py_set_display (JObj [("campaign_id", campaign_id); ("extracted", result)]);;
     mret (JObj [("campaign_id", campaign_id); ("extracted", result)]))
    (fun etype emsg =>
       log "Error in Agent0 extraction: {e}";;
       raise etype emsg).

(** Agent 1, the business interpreter. *)
Definition agent1_lambda_handler : Handler := fun event =>
  try_except
    (let campaign_id := dict_get "campaign_id" JNull event in
     resp ← dynamodb_get_item campaign_id "input_extracted";
     brief_data ← load_brief_data resp;
     audience ← get_or brief_data "target_audience" "target_segment";
     (if truthy audience then
        try_except kendra_query
          (fun _ ke => log ("Kendra query failed: " +:+ ke))
      else mret tt);;
     interpretation ← bedrock_invoke_and_load;
     interpretation_text ←
       (match interpretation with
        | JObj d =>
            match dict_lookup "results" d with
            | Some rs =>
                r0 ← py_index0 rs;
                py_get r0 "outputText" (JStr "")
            | None => mret (JStr (py_str interpretation))
            end
        | _ => mret (JStr (py_str interpretation))
        end);
     dynamodb_put_item campaign_id "business_context" interpretation_text;;
     mret (JObj [("campaign_id", campaign_id);
                 ("interpretation", interpretation_text)]))
    (fun etype emsg =>
       log ("Error in Agent1 interpretation: " +:+ emsg);;
       raise etype emsg).

(** Agent 2, the campaign planner. *)
Definition agent2_lambda_handler : Handler := fun event =>
  try_except
    (let campaign_id := dict_get "campaign_id" JNull event in
     interp_resp ← dynamodb_get_item campaign_id "business_context";
     brief_resp ← dynamodb_get_item campaign_id "input_extracted";
     let interpretation := item_text interp_resp in
     brief_data ← load_brief_data brief_resp;
     audience ← get_or brief_data "target_audience" "target_segment";
     (* goal = ... if audience and audience.lower().startswith("gen") else ... *)
     (if truthy audience then py_lower audience else mret tt);;
     result ← bedrock_invoke_and_load;
     plan_text ← output_text result;
     dynamodb_put_item campaign_id "campaign_plan" plan_text;;
     mret (JObj [("campaign_id", campaign_id); ("plan", plan_text)]))
    (fun etype emsg =>
       log ("Error in Agent2 planning: " +:+ emsg);;
       raise etype emsg).

(** Agent 3, the content generator: first the lines that produce
    [content], then the handler around them. *)
Definition agent3_generate (campaign_id : Json) : Py Json :=
  plan_resp ← dynamodb_get_item campaign_id "campaign_plan";
  brief_resp ← dynamodb_get_item campaign_id "input_extracted";
  let plan_text := item_text plan_resp in
  brief_data ← load_brief_data brief_resp;
  (* audience = brief_data.get('target_audience', '').lower() *)
  a ← py_get brief_data "target_audience" (JStr "");
  py_lower a;;
  result ← bedrock_invoke_and_load;
  output_text result.

Definition agent3_lambda_handler : Handler := fun event =>
  try_except
    (let campaign_id := dict_get "campaign_id" JNull event in
     content ← agent3_generate campaign_id;
     dynamodb_put_item campaign_id "content_samples" content;;
     s3_put_object ASSETS_BUCKET (py_str campaign_id +:+ "_content.txt") content;;
     mret (JObj [("campaign_id", campaign_id); ("content", content)]))
    (fun etype emsg =>
       log ("Error in Agent3 content generation: " +:+ emsg);;
       raise etype emsg).

(** Agent 4, the channel strategist. *)
Definition agent4_lambda_handler : Handler := fun event =>
  try_except
    (let campaign_id := dict_get "campaign_id" JNull event in
     plan_resp ← dynamodb_get_item campaign_id "campaign_plan";
     brief_resp ← dynamodb_get_item campaign_id "input_extracted";
     let plan := item_text plan_resp in
     brief_data ← load_brief_data brief_resp;
     audience ← py_get brief_data "target_audience" (JStr "");
     result ← bedrock_invoke_and_load;
     strategy ← output_text result;
     dynamodb_put_item campaign_id "channel_strategy" strategy;;
     mret (JObj [("campaign_id", campaign_id); ("strategy", strategy)]))
    (fun etype emsg =>
       log ("Error in Agent4 channel strategy: " +:+ emsg);;
       raise etype emsg).

(** Agent 5, the evaluator, which also publishes to SNS on both of its
    exits: first the lines that produce [evaluation], then the handler
    around them. *)
Definition agent5_evaluate (campaign_id : Json) : Py Json :=
  plan ← item_text <$> dynamodb_get_item campaign_id "campaign_plan";
  content ← item_text <$> dynamodb_get_item campaign_id "content_samples";
  strategy ← item_text <$> dynamodb_get_item campaign_id "channel_strategy";
  result ← bedrock_invoke_and_load;
  output_text result.

Definition agent5_lambda_handler : Handler := fun event =>
  let campaign_id := dict_get "campaign_id" JNull event in
  try_except
    (evaluation ← agent5_evaluate campaign_id;
     dynamodb_put_item campaign_id "evaluation" evaluation;;
     sns_publish
       ("Campaign " +:+ py_str campaign_id +:+ " planning complete. Summary: "
        +:+ str_take 200 (py_str evaluation) +:+ "...")
       "Campaign Plan Complete";;
     mret (JObj [("campaign_id", campaign_id); ("evaluation", evaluation)]))
    (fun etype emsg =>
       log ("Error in Agent5 evaluation: " +:+ emsg);;
       sns_publish
         ("Campaign " +:+ py_str campaign_id +:+ " failed at evaluation step: "
          +:+ emsg)
         "Campaign Plan Failed";;
       raise etype emsg).

(** [agent_codes], in deployment order: function [CampaignAgent{i}] runs
    the i-th handler. *)
Definition agent_codes : list Handler :=
  [agent0_lambda_handler; agent1_lambda_handler; agent2_lambda_handler;
   agent3_lambda_handler; agent4_lambda_handler; agent5_lambda_handler].

(** The step name under which each agent stores its record. *)
Definition step_names : list string :=
  ["input_extracted"; "business_context"; "campaign_plan";
   "content_samples"; "channel_strategy"; "evaluation"].

End Agents.

(** ** The state machine definition

    The notebook builds [states] as a dict of Task states and hands it,
    as JSON, to Step Functions.  Below are the constructs that
    definition uses. *)

Inductive Resource :=
| LambdaFunction (i : nat) (* arn:aws:lambda:...:function:CampaignAgent{i}-{suffix} *)
| SnsPublish.              (* arn:aws:states:::aws-sdk:sns:publish *)

(** The value of one field of [Parameters]. *)
Inductive ParamValue :=
| PConst (v : Json)                 (* "Key": value *)
| PPath (path : list string)        (* "Key.$": "$.a.b" *)
| PFormat (template : string) (args : list (list string)).
                                    (* "Key.$": "States.Format('...', $.a, $.b.c)" *)

Record Retrier := {
  retry_error_equals : list string;
  interval_seconds : Q;
  max_attempts : nat;
  backoff_rate : Q
}.

Record Catcher := {
  catch_error_equals : list string;
  result_path : string;             (* "$.field", kept as the field's name *)
  catch_next : string
}.

Inductive Transition :=
| Next (state : string)
| End.

Record State := {
  resource : Resource;
  parameters : list (string * ParamValue);
  retry : list Retrier;
  catch : list Catcher;
  transition : Transition
}.

Record Workflow := {
  StartAt : string;
  States : gmap string State
}.

(** The text of the two notification states.  The notebook and
    Readme.md build the same machine with different wording. *)
Record NotifyTexts := {
  success_template : string;
  success_subject : string;
  failure_template : string;
  failure_subject : string
}.

Definition notebook_texts : NotifyTexts := {|
  success_template := "Campaign {} completed.";
  success_subject := "Campaign Success";
  failure_template := "Campaign {} failed: {}";
  failure_subject := "Campaign Failed"
|}.

Definition readme_texts : NotifyTexts := {|
  success_template := "Campaign {} completed successfully.";
  success_subject := "Campaign Plan Successful";
  failure_template := "Campaign {} FAILED. Error: {}";
  failure_subject := "Campaign Plan Failed"
|}.

Definition topic_arn : string := "arn:aws:sns:CampaignCompletionTopic".

(** [f"Agent{i}Step"] *)
Definition state_name (i : nat) : string := "Agent" +:+ pretty i +:+ "Step".

Definition agent_retry : Retrier := {|
  retry_error_equals :=
    ["Lambda.ServiceException"; "Lambda.AWSLambdaException";
     "Lambda.SdkClientException"];
  interval_seconds := 2;
  max_attempts := 3;
  backoff_rate := 2
|}.

Definition agent_catch : Catcher := {|
  catch_error_equals := ["States.ALL"];
  result_path := "error";
  catch_next := "FailureNotify"
|}.

(** The body of the loop [for i in range(n)], with [n = 6] in the
    source: ["Next": f"Agent{i+1}Step" if i < 5 else "NotifySuccess"]. *)
Definition agent_state (n i : nat) : State := {|
  resource := LambdaFunction i;
  parameters := [("campaign_id", PPath ["campaign_id"])];
  retry := [agent_retry];
  catch := [agent_catch];
  transition :=
    Next (if (S i <? n)%nat then state_name (S i) else "NotifySuccess")
|}.

Definition notify_success_state (tx : NotifyTexts) : State := {|
  resource := SnsPublish;
  parameters :=
    [("TopicArn", PConst (JStr topic_arn));
     ("Message", PFormat (success_template tx) [["campaign_id"]]);
     ("Subject", PConst (JStr (success_subject tx)))];
  retry := [];
  catch := [];
  transition := End
|}.

Definition failure_notify_state (tx : NotifyTexts) : State := {|
  resource := SnsPublish;
  parameters :=
    [("TopicArn", PConst (JStr topic_arn));
     ("Message",
      PFormat (failure_template tx) [["campaign_id"]; ["error"; "Error"]]);
     ("Subject", PConst (JStr (failure_subject tx)))];
  retry := [];
  catch := [];
  transition := End
|}.

(** [states], for a pipeline of [n] agents. *)
Definition states_of (tx : NotifyTexts) (n : nat) : gmap string State :=
  <["FailureNotify" := failure_notify_state tx]>
    (<["NotifySuccess" := notify_success_state tx]>
       (foldl (fun m i => <[state_name i := agent_state n i]> m) ∅ (seq 0 n))).

Definition workflow_of (tx : NotifyTexts) (n : nat) : Workflow := {|
  StartAt := "Agent0Step";
  States := states_of tx n
|}.

(** The machine of the notebook and the machine of Readme.md. *)
Definition definition : Workflow := workflow_of notebook_texts 6.
Definition workflow_definition : Workflow := workflow_of readme_texts 6.

(** ** The interpreter of the state machine

    What Step Functions does with the definition above.  Only the
    constructs of that definition are interpreted: Task states with
    Parameters, Retry, Catch, Next and End, the error name [States.ALL],
    and the intrinsic [States.Format]. *)

(** *** Paths, Parameters and [States.Format] *)

Fixpoint path_lookup (p : list string) (v : Json) : option Json :=
  match p with
  | [] => Some v
  | k :: p' =>
      match v with
      | JObj d => dict_lookup k d ≫= path_lookup p'
      | _ => None
      end
  end.

(** An argument of [States.Format] must be a string, a number, a
    boolean or null. *)
Definition format_arg (v : Json) : option string :=
  match v with
  | JStr s => Some s
  | JNum n => Some (pretty n)
  | JBool true => Some "true"
  | JBool false => Some "false"
  | JNull => Some "null"
  | JList _ | JObj _ => None
  end.

(** Every [{}] of the template takes the next argument; their numbers
    must agree. *)
Fixpoint states_format (template : string) (args : list string)
  : option string :=
  match template with
  | EmptyString => match args with [] => Some EmptyString | _ => None end
  | String a rest =>
      match rest with
      | String b rest' =>
          if (Ascii.eqb a "{" && Ascii.eqb b "}")%char then
            match args with
            | x :: args' => (fun s => x +:+ s) <$> states_format rest' args'
            | [] => None
            end
          else String a <$> states_format rest args
      | EmptyString => String a <$> states_format rest args
      end
  end.

Definition eval_param (input : Json) (pv : ParamValue) : option Json :=
  match pv with
  | PConst v => Some v
  | PPath p => path_lookup p input
  | PFormat t args =>
      xs ← mapM (fun p => path_lookup p input ≫= format_arg) args;
      JStr <$> states_format t xs
  end.

(** The payload of a Task: [None] when a path is not found in the input
    or an intrinsic fails, which Step Functions reports as
    [States.Runtime]. *)
Definition eval_parameters (ps : list (string * ParamValue)) (input : Json)
  : option Dict :=
  mapM (fun kp => (fun v => (kp.1, v)) <$> eval_param input kp.2) ps.

(** *** One call of a Task's resource *)

Inductive TaskResult :=
| TaskOk (output : Json)
| TaskErr (error cause : string).

(** Invoking a function.  The Lambda service answers first: its own
    failures ([Lambda.ServiceException] and the like) never reach the
    handler.  An exception of the handler fails the Task under the
    exception's class name, with the message in the cause. *)
Definition run_handler (handler : Handler) (payload : Dict)
  : World -> TaskResult * World :=
  fun w =>
    match next_reply w with
    | (Val (Ok _), w1) =>
        match handler payload w1 with
        | (Val out, w2) => (TaskOk out, w2)
        | (Exc t e, w2) => (TaskErr t e, w2)
        end
    | (Val (Err t e), w1) => (TaskErr t e, w1)
    | (Exc t e, w1) => (TaskErr t e, w1)
    end.

Definition invoke_lambda (lambdas : list Handler) (i : nat) (payload : Dict)
  : World -> TaskResult * World :=
  match lambdas !! i with
  | Some handler => run_handler handler payload
  | None =>
      fun w =>
        (TaskErr "Lambda.ResourceNotFoundException" "Function not found", w)
  end.

(** The SDK integration [sns:publish]. *)
Definition sdk_sns_publish (payload : Dict) : World -> TaskResult * World :=
  fun w =>
    match dict_lookup "Message" payload, dict_lookup "Subject" payload with
    | Some (JStr m), Some (JStr s) =>
        match sns_publish m s w with
        | (Val message_id, w') =>
            (TaskOk (JObj [("MessageId", JStr message_id)]), w')
        | (Exc t e, w') => (TaskErr t e, w')
        end
    | _, _ => (TaskErr "Sns.InvalidParameterException" "Invalid parameter", w)
    end.

Definition call_resource (lambdas : list Handler) (r : Resource)
  (payload : Dict) : World -> TaskResult * World :=
  match r with
  | LambdaFunction i => invoke_lambda lambdas i payload
  | SnsPublish => sdk_sns_publish payload
  end.

(** *** Retry and Catch *)

(** [States.ALL] matches every error name a Task can fail with. *)
Definition error_matches (names : list string) (e : string) : bool :=
  existsb (fun n => String.eqb n "States.ALL" || String.eqb n e) names.

(** The first retrier that matches, with its position. *)
Fixpoint find_retrier (rs : list Retrier) (e : string) (k : nat)
  : option (nat * Retrier) :=
  match rs with
  | [] => None
  | r :: rs' =>
      if error_matches (retry_error_equals r) e then Some (k, r)
      else find_retrier rs' e (S k)
  end.

Definition find_catcher (cs : list Catcher) (e : string) : option Catcher :=
  List.find (fun c => error_matches (catch_error_equals c) e) cs.

(** The pause before retry number [made + 1] of a retrier:
    [IntervalSeconds * BackoffRate ^ made]. *)
Definition retry_delay (r : Retrier) (made : nat) : Q :=
  Qred (interval_seconds r * backoff_rate r ^ Z.of_nat made).

(** What the execution history records. *)
Inductive HistoryEvent :=
| Entered (state : string)
| Called (r : Resource) (payload : Dict) (result : TaskResult)
| Waited (seconds : Q).

(** A Task with its retries.  [made] counts, per retrier, the retries
    already spent; [MaxAttempts] bounds that count, so a retrier with
    [MaxAttempts = m] allows the first attempt and [m] more.  [budget]
    is the number of retries all retriers together may still make. *)
Fixpoint run_task (lambdas : list Handler) (st : State) (payload : Dict)
  (budget : nat) (made : list nat) (w : World)
  : TaskResult * list HistoryEvent * World :=
  let '(r, w1) := call_resource lambdas (resource st) payload w in
  let this := Called (resource st) payload r in
  match r with
  | TaskOk _ => (r, [this], w1)
  | TaskErr e _ =>
      match find_retrier (retry st) e 0, budget with
      | Some (k, rt), S budget' =>
          let m := default 0%nat (made !! k) in
          if (m <? max_attempts rt)%nat then
            let '(r', evs, w2) :=
              run_task lambdas st payload budget' (<[k := S m]> made) w1 in
            (r', this :: Waited (retry_delay rt m) :: evs, w2)
          else (r, [this], w1)
      | _, _ => (r, [this], w1)
      end
  end.

Definition retry_budget (st : State) : nat :=
  foldr (fun r acc => (max_attempts r + acc)%nat) 0%nat (retry st).

Definition run_task_state (lambdas : list Handler) (st : State)
  (payload : Dict) (w : World) : TaskResult * list HistoryEvent * World :=
  run_task lambdas st payload (retry_budget st)
           (replicate (length (retry st)) 0%nat) w.

(** The error a catcher stores under its ResultPath. *)
Definition error_output (e c : string) : Json :=
  JObj [("Error", JStr e); ("Cause", JStr c)].

(** ResultPath [$.field]: the state's input with [field] set. *)
Definition with_result (field : string) (v : Json) (input : Json)
  : option Json :=
  match input with
  | JObj d => Some (JObj (dict_set field v d))
  | _ => None
  end.

(** *** Executions *)

Inductive Status :=
| SUCCEEDED (output : Json)
| FAILED (error cause : string)
| RUNNING.

Record Execution := {
  status : Status;
  history : list HistoryEvent;
  final : World
}.

Definition stopped (s : Status) (w : World) : Execution :=
  {| status := s; history := []; final := w |}.

Definition after (evs : list HistoryEvent) (x : Execution) : Execution :=
  {| status := status x; history := evs ++ history x; final := final x |}.

(** The execution from state [cur] on.  A state machine may loop, so the
    interpreter counts the transitions it may still take; an execution
    that uses them up is left [RUNNING]. *)
Fixpoint exec (lambdas : list Handler) (sm : gmap string State) (fuel : nat)
  (cur : string) (input : Json) (w : World) : Execution :=
  match fuel with
  | O => stopped RUNNING w
  | S fuel' =>
      match sm !! cur with
      | None => stopped (FAILED "States.Runtime" "No such state") w
      | Some st =>
          after [Entered cur]
            match eval_parameters (parameters st) input with
            | None => stopped (FAILED "States.Runtime" "Invalid path") w
            | Some payload =>
                let '(r, evs, w1) := run_task_state lambdas st payload w in
                after evs
                  match r with
                  | TaskOk out =>
                      match transition st with
                      | End => stopped (SUCCEEDED out) w1
                      | Next nx => exec lambdas sm fuel' nx out w1
                      end
                  | TaskErr e c =>
                      match find_catcher (catch st) e with
                      | None => stopped (FAILED e c) w1
                      | Some ct =>
                          match with_result (result_path ct)
                                            (error_output e c) input with
                          | None =>
                              stopped (FAILED "States.Runtime"
                                              "Invalid ResultPath") w1
                          | Some input' =>
                              exec lambdas sm fuel' (catch_next ct) input' w1
                          end
                      end
                  end
            end
      end
  end.

(** [stepfunctions.start_execution(stateMachineArn=..., input=...)]
    followed to its end: a pipeline of [n] agents passes through at most
    [n + 1] states. *)
Definition start_execution (lambdas : list Handler) (tx : NotifyTexts)
  (input : Json) (w : World) : Execution :=
  let wf := workflow_of tx (length lambdas) in
  exec lambdas (States wf) (length lambdas + 1) (StartAt wf) input w.

(** ** Reading an execution *)

Definition is_ok (r : TaskResult) : bool :=
  match r with
  | TaskOk _ => true
  | TaskErr _ _ => false
  end.

(** The Lambda invocations of a history, oldest first: which agent, and
    how the attempt ended. *)
Definition lambda_calls (h : list HistoryEvent) : list (nat * TaskResult) :=
  omap (fun ev => match ev with
                  | Called (LambdaFunction i) _ r => Some (i, r)
                  | _ => None
                  end) h.

(** The agents invoked, one entry per attempt. *)
Definition invoked (h : list HistoryEvent) : list nat :=
  omap (fun ev => match ev with
                  | Called (LambdaFunction i) _ _ => Some i
                  | _ => None
                  end) h.

(** The agents whose invocation returned. *)
Definition completed (h : list HistoryEvent) : list nat :=
  omap (fun ev => match ev with
                  | Called (LambdaFunction i) _ (TaskOk _) => Some i
                  | _ => None
                  end) h.

(** The failed invocations: which agent, which error name. *)
Definition failures (h : list HistoryEvent) : list (nat * string) :=
  omap (fun ev => match ev with
                  | Called (LambdaFunction i) _ (TaskErr e _) => Some (i, e)
                  | _ => None
                  end) h.

(** The payloads the Lambdas were invoked with. *)
Definition lambda_payloads (h : list HistoryEvent) : list Dict :=
  omap (fun ev => match ev with
                  | Called (LambdaFunction _) p _ => Some p
                  | _ => None
                  end) h.

(** The SNS publish calls made by the state machine itself. *)
Definition notify_calls (h : list HistoryEvent) : list (Dict * TaskResult) :=
  omap (fun ev => match ev with
                  | Called SnsPublish p r => Some (p, r)
                  | _ => None
                  end) h.

Definition entered (h : list HistoryEvent) : list string :=
  omap (fun ev => match ev with
                  | Entered s => Some s
                  | _ => None
                  end) h.

Definition waits (h : list HistoryEvent) : list Q :=
  omap (fun ev => match ev with
                  | Waited q => Some q
                  | _ => None
                  end) h.

(** An error is transient for this workflow when the Retry block of the
    agent states names it. *)
Definition transient (e : string) : bool :=
  error_matches (retry_error_equals agent_retry) e.

Definition transient_failure (r : TaskResult) : bool :=
  match r with
  | TaskOk _ => false
  | TaskErr e _ => transient e
  end.

Definition fatal_failure (r : TaskResult) : bool :=
  match r with
  | TaskOk _ => false
  | TaskErr e _ => negb (transient e)
  end.

(** How many items of the table carry the key [(c, s)]. *)
Definition table_count (c s : string) (t : list Item) : nat :=
  length (List.filter (has_key c s) t).

(** The items of the table under every other key, in table order. *)
Definition others (c s : string) (t : list Item) : list Item :=
  List.filter (fun x => negb (has_key c s x)) t.

(** DynamoDB's own invariant: a primary key names at most one item. *)
Definition keys_unique (t : list Item) : Prop :=
  forall c s, (table_count c s t <= 1)%nat.

(** ** Data for the examples *)

(** A fragment of the JSON library, enough to run the handlers on the
    empty object: [json.loads("{}") = {}], [json.dumps({}) = "{}"],
    [str({}) = "{}"]. *)
Definition json_fragment : PyJson := {|
  json_loads s := if String.eqb s "{}" then Some (JObj []) else None;
  json_dumps _ := "{}";
  py_repr _ := "{}"
|}.

Definition empty_world : World :=
  {| table := []; objects := []; topic := []; logs := []; script := [] |}.

(** The input of the test execution of section 2. *)
Definition start_input (campaign_id briefs_bucket brief_key : string) : Json :=
  JObj [("campaign_id", JStr campaign_id);
        ("brief_bucket", JStr briefs_bucket);
        ("brief_key", JStr brief_key)].

Definition test_input : Json :=
  start_input "CAMPAIGN123" "ai-campaign-briefs" "sample_brief_genz.json".

(** The five agents behind the extractor, as a pipeline of their own. *)
Definition downstream_agents : list Handler :=
  tail (@agent_codes json_fragment).

(** The payload every agent state builds. *)
Definition campaign_event (c : string) : Event := [("campaign_id", JStr c)].

(** ** The outline of an execution

    The histories the machine can produce, as three relations that
    follow its structure: the attempts of one agent Task, the run of a
    notification state, and a pipeline from agent [i] on. *)

(** [Attempts i p made evs r]: with [made] retries already spent, the
    Task of agent [i] on payload [p] leaves the events [evs] and ends
    with [r].  A transient failure is retried after its pause until the
    retrier's [MaxAttempts] retries are spent. *)
Inductive Attempts (i : nat) (p : Dict)
  : nat -> list HistoryEvent -> TaskResult -> Prop :=
| attempts_last made r :
    (transient_failure r = true -> made = max_attempts agent_retry) ->
    Attempts i p made [Called (LambdaFunction i) p r] r
| attempts_retry made e c evs r :
    transient e = true ->
    (made < max_attempts agent_retry)%nat ->
    Attempts i p (S made) evs r ->
    Attempts i p made
      (Called (LambdaFunction i) p (TaskErr e c)
         :: Waited (retry_delay agent_retry made) :: evs) r.

(** A notification state publishes once, unless its Parameters cannot
    be evaluated; its call decides the status of the execution. *)
Inductive NotifyRun (name : string) : Status -> list HistoryEvent -> Prop :=
| notify_invalid :
    NotifyRun name (FAILED "States.Runtime" "Invalid path") [Entered name]
| notify_published p out :
    NotifyRun name (SUCCEEDED out)
      [Entered name; Called SnsPublish p (TaskOk out)]
| notify_failed p e c :
    NotifyRun name (FAILED e c)
      [Entered name; Called SnsPublish p (TaskErr e c)].

(** [PipelineRun n i s h]: status and history of an execution of the
    [n]-agent machine from [Agent{i}Step] on. *)
Inductive PipelineRun (n : nat) : nat -> Status -> list HistoryEvent -> Prop :=
| run_invalid i :
    PipelineRun n i (FAILED "States.Runtime" "Invalid path")
      [Entered (state_name i)]
| run_caught i p evs e c s h :
    Attempts i p 0 evs (TaskErr e c) ->
    NotifyRun "FailureNotify" s h ->
    PipelineRun n i s (Entered (state_name i) :: evs ++ h)
| run_last i p evs out s h :
    S i = n ->
    Attempts i p 0 evs (TaskOk out) ->
    NotifyRun "NotifySuccess" s h ->
    PipelineRun n i s (Entered (state_name i) :: evs ++ h)
| run_next i p evs out s h :
    (S i < n)%nat ->
    Attempts i p 0 evs (TaskOk out) ->
    PipelineRun n (S i) s h ->
    PipelineRun n i s (Entered (state_name i) :: evs ++ h).

(** The executions the examples run. *)


(** The same with the Lambda service failing four times in a row. *)
Definition lambda_outage : list Reply :=
  replicate 4 (Err "Lambda.ServiceException" "Service unavailable").

Definition outage_execution : Execution :=
  start_execution (@agent_codes json_fragment) notebook_texts test_input
                  (set_script lambda_outage empty_world).

(** The five downstream agents with one outage of the Lambda service at
    the very first call ... *)
Definition retried_execution : Execution :=
  start_execution downstream_agents notebook_texts test_input
    (set_script [Err "Lambda.SdkClientException" "Connection reset"]
                empty_world).

(** ... and with the 28th call, the publish of NotifySuccess, refused
    (27 calls are made by the five agents). *)
Definition publish_refused : list Reply :=
  replicate 27 (Ok "{}")
  ++ [Err "Sns.AuthorizationErrorException" "Not authorized to publish"].

Definition unnotified_execution : Execution :=
  start_execution downstream_agents notebook_texts test_input
                  (set_script publish_refused empty_world).

(** ** Relating the world before and after a piece of handler code *)

(** A relation between worlds that a run of handler code can be followed
    through: it composes, and it does not look at the script or at the
    log. *)
Class Frame (R : World -> World -> Prop) := {
  frame_refl w : R w w;
  frame_trans w1 w2 w3 : R w1 w2 -> R w2 w3 -> R w1 w3;
  frame_script s w : R w (set_script s w);
  frame_logs l w : R w (set_logs l w)
}.

(** [m] takes every world to a related one, whether it returns or
    raises. *)
Definition preserves {A} (R : World -> World -> Prop) (m : Py A) : Prop :=
  forall w, R w (m w).2.

(** Nothing stored has changed. *)
Definition same_stores (w w' : World) : Prop :=
  table w' = table w /\ objects w' = objects w /\ topic w' = topic w.

(** The table has changed under the key [(c, s)] at most: every other
    item is as it was, keys stay unique, and an item under [(c, s)] is
    not lost. *)
Definition confined (c s : string) (w w' : World) : Prop :=
  others c s (table w') = others c s (table w) /\
  (keys_unique (table w) -> keys_unique (table w')) /\
  ((1 <= table_count c s (table w))%nat ->
   (1 <= table_count c s (table w'))%nat).

(** When [m] returns, the table holds an item under [(c, s)]. *)
Definition stores {A} (c s : string) (m : Py A) : Prop :=
  forall w a, (m w).1 = Val a -> (1 <= table_count c s (table (m w).2))%nat.


(** A Task of the interpreter (function 1 of the six) whose first
    invocation meets an outage of the Lambda service. *)
Definition retried_task : TaskResult * list HistoryEvent * World :=
  run_task_state (@agent_codes json_fragment) (agent_state 6 1)
    (campaign_event "CAMPAIGN123")
    (set_script [Err "Lambda.ServiceException" "Service unavailable"]
                empty_world).

(** A world in which the content generator's calls are answered until
    the write to the assets bucket, which is denied. *)
Definition assets_denied : World :=
  set_script
    [Ok "{}"; Ok "{}"; Ok "{}"; Ok "{}"; Err "AccessDenied" "Access Denied"]
    empty_world.







(** ** Reading a history against the topic *)

(** The messages that the publish calls of a history have put on the
    topic: a call that succeeded has published its Message under its
    Subject. *)
Definition published (calls : list (Dict * TaskResult)) : list Message :=
  omap (fun pr =>
          match pr.2, dict_lookup "Message" pr.1, dict_lookup "Subject" pr.1 with
          | TaskOk _, Some (JStr m), Some (JStr s) =>
              Some {| msg_subject := s; msg_text := m |}
          | _, _, _ => None
          end) calls.

(** ** Reading the reply of the model *)

(** The lines of agent1 that turn the reply into a text:
    [interpretation['results'][0].get('outputText', '')] when the reply
    is a dict with the key [results], [str(interpretation)] otherwise. *)
Definition interpretation_text `{PyJson} (interpretation : Json) : Py Json :=
  match interpretation with
  | JObj d =>
      match dict_lookup "results" d with
      | Some rs =>
          r0 ← py_index0 rs;
          py_get r0 "outputText" (JStr "")
      | None => mret (JStr (py_str interpretation))
      end
  | _ => mret (JStr (py_str interpretation))
  end.

(** What agent [i] makes of the body of the model's reply:
    [json.loads], then the lines above for agent1 and [output_text] for
    the others. *)
Definition read_reply `{PyJson} (i : nat) (body : string) : Py Json :=
  result ← py_json_loads body;
  if (i =? 1)%nat then interpretation_text result else output_text result.

(** The number of reads of the table each agent makes before it calls
    the model. *)
Definition reads_before_model : list nat := [0; 1; 2; 2; 2; 3]%nat.

(** ** Further readings of handler code *)

(** [m] raises on every world. *)
Definition never_returns {A} (m : Py A) : Prop :=
  forall w a w', m w <> (Val a, w').

(** When [m] raises, nothing stored has changed. *)
Definition fails_clean {A} (m : Py A) : Prop :=
  forall w t e w', m w = (Exc t e, w') -> same_stores w w'.

(** [m] never raises. *)
Definition never_raises {A} (m : Py A) : Prop :=
  forall w t e w', m w <> (Exc t e, w').

(** The campaign id of an event, as the handlers read it. *)
Definition event_campaign_id (event : Event) : Json :=
  dict_get "campaign_id" JNull event.

(** The field under which each agent returns its text. *)
Definition result_fields : list string :=
  ["extracted"; "interpretation"; "plan"; "content"; "strategy"; "evaluation"].

(** The prefix of the error line each agent logs. *)
Definition error_prefixes : list string :=
  ["Error in Agent0 extraction: "; "Error in Agent1 interpretation: ";
   "Error in Agent2 planning: "; "Error in Agent3 content generation: ";
   "Error in Agent4 channel strategy: "; "Error in Agent5 evaluation: "].

(** ** A brief that names its audience *)

(** The double quote, for texts that hold JSON. *)
Definition dquote : string := String (Ascii.ascii_of_nat 34) EmptyString.

(** [json.dumps({"target_audience": "Gen-Z"})] *)
Definition audience_brief_text : string :=
  "{" +:+ dquote +:+ "target_audience" +:+ dquote +:+ ": "
  +:+ dquote +:+ "Gen-Z" +:+ dquote +:+ "}".

(** [json.dumps({"target_audience": None})] *)
Definition null_audience_text : string :=
  "{" +:+ dquote +:+ "target_audience" +:+ dquote +:+ ": null}".

(** [json_fragment] with those two texts added to what [json.loads]
    reads; [json.dumps] and [str] are still used on the empty object
    only. *)
Definition json_briefs : PyJson := {|
  json_loads s :=
    if String.eqb s audience_brief_text
    then Some (JObj [("target_audience", JStr "Gen-Z")])
    else if String.eqb s null_audience_text
    then Some (JObj [("target_audience", JNull)])
    else @json_loads json_fragment s;
  json_dumps := @json_dumps json_fragment;
  py_repr := @py_repr json_fragment
|}.

(** The record of the extractor is in the table and the table answers;
    Kendra, asked next, does not. *)
Definition kendra_down : World :=
  {| table := [{| item_campaign_id := "CAMPAIGN123";
                  item_step := "input_extracted";
                  item_data := audience_brief_text |}];
     objects := []; topic := []; logs := [];
     script := [Ok "{}"; Err "ResourceNotFoundException" "Index not found"] |}.

(** The record of the extractor gives no audience: the key is there,
    its value is null. *)
Definition audience_unknown : World :=
  {| table := [{| item_campaign_id := "CAMPAIGN123";
                  item_step := "input_extracted";
                  item_data := null_audience_text |}];
     objects := []; topic := []; logs := [];
     script := [Ok "{}"; Ok "{}"] |}.

(** What a step has done when the model's reply read as [reply]: with a
    text, the handler has returned it and put it in the table under
    [(c, step)]; with a value that is no text, boto3 has refused the
    put; with an exception, the handler has raised it; and in the last
    two cases the table is as it was. *)
Definition step_outcome (c step field : string) (reply : Res Json)
  (run : Res Json * World) (w : World) : Prop :=
  match reply with
  | Val (JStr d) =>
      run.1 = Val (JObj [("campaign_id", JStr c); (field, JStr d)]) /\
      table run.2 = table_put {| item_campaign_id := c; item_step := step;
                                 item_data := d |} (table w)
  | Val _ =>
      (exists e, run.1 = Exc "ParamValidationError" e) /\
      table run.2 = table w
  | Exc t e => run.1 = Exc t e /\ table run.2 = table w
  end.

(** * Properties *)

(** ** State names and the lookup of states *)

Lemma string_app_inv_tail (s1 s2 t : string) :
  s1 +:+ t = s2 +:+ t -> s1 = s2.
Proof.
  assert (Hlen : forall a b : string,
             String.length (a +:+ b) = (String.length a + String.length b)%nat).
  { induction a as [|x a IH]; intros b; simpl; [done | by rewrite IH]. }
  revert s2. induction s1 as [|a s1 IH]; intros [|b s2] Heq.
  - done.
  - apply (f_equal String.length) in Heq.
    change (String b s2 +:+ t) with (String b (s2 +:+ t)) in Heq.
    cbn [String.length] in Heq. rewrite !Hlen in Heq. simpl in Heq. lia.
  - apply (f_equal String.length) in Heq.
    change (String a s1 +:+ t) with (String a (s1 +:+ t)) in Heq.
    cbn [String.length] in Heq. rewrite !Hlen in Heq. simpl in Heq. lia.
  - simpl in Heq. injection Heq as -> Heq. f_equal. by apply IH.
Qed.

Lemma state_name_inj i j : state_name i = state_name j -> i = j.
Proof.
  unfold state_name. intros Heq. simpl in Heq.
  injection Heq as Heq.
  apply (string_app_inv_tail (pretty i) (pretty j) "Step") in Heq.
  by apply (inj pretty) in Heq.
Qed.

Lemma state_name_not_notify i :
  state_name i <> "NotifySuccess" /\ state_name i <> "FailureNotify".
Proof. split; discriminate. Qed.

Lemma lookup_agent_fold n (l : list nat) (m : gmap string State) i :
  foldl (fun m i => <[state_name i := agent_state n i]> m) m l !! state_name i
  = if decide (i ∈ l) then Some (agent_state n i) else m !! state_name i.
Proof.
  revert m. induction l as [|j l IH]; intros m; simpl.
  - done.
  - rewrite IH. destruct (decide (i ∈ l)) as [Hin|Hin].
    + rewrite decide_True; [done | by apply elem_of_cons; right].
    + destruct (decide (i = j)) as [->|Hne].
      * rewrite lookup_insert_eq.
        rewrite decide_True; [done | by apply elem_of_cons; left].
      * rewrite lookup_insert_ne
          by (intros Heq; apply state_name_inj in Heq; done).
        rewrite decide_False; [done |].
        intros [?|?]%elem_of_cons; done.
Qed.

Lemma lookup_agent_state tx n i :
  (i < n)%nat -> states_of tx n !! state_name i = Some (agent_state n i).
Proof.
  intros Hlt. unfold states_of.
  destruct (state_name_not_notify i) as [H1 H2].
  rewrite lookup_insert_ne by done. rewrite lookup_insert_ne by done.
  rewrite lookup_agent_fold. rewrite decide_True; [done|].
  apply list_elem_of_In, in_seq. lia.
Qed.

Lemma lookup_notify_success tx n :
  states_of tx n !! "NotifySuccess" = Some (notify_success_state tx).
Proof. unfold states_of. rewrite lookup_insert_ne by done. by rewrite lookup_insert_eq. Qed.

Lemma lookup_failure_notify tx n :
  states_of tx n !! "FailureNotify" = Some (failure_notify_state tx).
Proof. unfold states_of. by rewrite lookup_insert_eq. Qed.

(** ** The interpreter on the machine of the notebook *)

Section Engine.
Variable lambdas : list Handler.

Lemma find_retrier_agent e :
  find_retrier [agent_retry] e 0 =
  if transient e then Some (0%nat, agent_retry) else None.
Proof. unfold transient. cbn [find_retrier]. by destruct (error_matches _ _). Qed.

Lemma run_task_agent n i p budget made w :
  run_task lambdas (agent_state n i) p budget [made] w =
  match invoke_lambda lambdas i p w with
  | (TaskOk out, w1) => (TaskOk out, [Called (LambdaFunction i) p (TaskOk out)], w1)
  | (TaskErr e c, w1) =>
      let this := Called (LambdaFunction i) p (TaskErr e c) in
      match budget with
      | S budget' =>
          if transient e && (made <? max_attempts agent_retry)%nat then
            let '(r', evs, w2) :=
              run_task lambdas (agent_state n i) p budget' [S made] w1 in
            (r', this :: Waited (retry_delay agent_retry made) :: evs, w2)
          else (TaskErr e c, [this], w1)
      | O => (TaskErr e c, [this], w1)
      end
  end.
Proof.
  destruct budget as [|budget]; cbn [run_task agent_state resource retry call_resource];
    destruct (invoke_lambda lambdas i p w) as [[out|e c] w1]; try done;
    rewrite find_retrier_agent; destruct (transient e); try done.
Qed.

Lemma run_task_attempts n i p budget made w r evs w' :
  (budget + made = max_attempts agent_retry)%nat ->
  run_task lambdas (agent_state n i) p budget [made] w = (r, evs, w') ->
  Attempts i p made evs r.
Proof.
  revert made w r evs w'.
  induction budget as [|budget IH]; intros made w r evs w' Hsum Hrun;
    rewrite run_task_agent in Hrun;
    destruct (invoke_lambda lambdas i p w) as [[out|e c] w1].
  - injection Hrun as <- <- <-. by constructor.
  - injection Hrun as <- <- <-. constructor. intros _. exact Hsum.
  - injection Hrun as <- <- <-. by constructor.
  - destruct (transient e) eqn:Htr; cbn [andb] in Hrun.
    + destruct (made <? max_attempts agent_retry)%nat eqn:Hlt.
      * destruct (run_task _ _ _ _ _ _) as [[r' evs'] w2] eqn:Hrec.
        injection Hrun as <- <- <-.
        apply attempts_retry; [done | by apply Nat.ltb_lt in Hlt |].
        eapply IH; [|exact Hrec]. lia.
      * apply Nat.ltb_ge in Hlt. lia.
    + injection Hrun as <- <- <-. constructor.
      cbn [transient_failure]. by rewrite Htr.
Qed.

Lemma find_catcher_agent e : find_catcher [agent_catch] e = Some agent_catch.
Proof. reflexivity. Qed.

Lemma eval_agent_parameters n i input :
  eval_parameters (parameters (agent_state n i)) input =
  match input with
  | JObj d =>
      match dict_lookup "campaign_id" d with
      | Some c => Some [("campaign_id", c)]
      | None => None
      end
  | _ => None
  end.
Proof.
  destruct input as [| | | | |d]; try reflexivity.
  cbn. by destruct (dict_lookup "campaign_id" d).
Qed.

Lemma exec_agent tx n i f input w :
  (i < n)%nat ->
  exec lambdas (states_of tx n) (S f) (state_name i) input w =
  after [Entered (state_name i)]
    match input with
    | JObj d =>
        match dict_lookup "campaign_id" d with
        | Some c =>
            let '(r, evs, w1) :=
              run_task lambdas (agent_state n i) [("campaign_id", c)]
                       (max_attempts agent_retry) [0%nat] w in
            after evs
              match r with
              | TaskOk out =>
                  exec lambdas (states_of tx n) f
                    (if (S i <? n)%nat then state_name (S i)
                     else "NotifySuccess") out w1
              | TaskErr e c' =>
                  exec lambdas (states_of tx n) f "FailureNotify"
                    (JObj (dict_set "error" (error_output e c') d)) w1
              end
        | None => stopped (FAILED "States.Runtime" "Invalid path") w
        end
    | _ => stopped (FAILED "States.Runtime" "Invalid path") w
    end.
Proof.
  intros Hlt. cbn [exec]. rewrite lookup_agent_state by done.
  rewrite eval_agent_parameters.
  destruct input as [| | | | |d]; try reflexivity.
  destruct (dict_lookup "campaign_id" d) as [c|]; [|reflexivity].
  unfold run_task_state.
  change (retry_budget (agent_state n i)) with (max_attempts agent_retry).
  change (replicate (length (retry (agent_state n i))) 0%nat) with [0%nat].
  destruct (run_task _ _ _ _ _ _) as [[r evs] w1].
  destruct r as [out|e c']; [reflexivity|].
  change (catch (agent_state n i)) with [agent_catch].
  rewrite find_catcher_agent. reflexivity.
Qed.

Lemma exec_notify tx n f name st input w :
  states_of tx n !! name = Some st ->
  resource st = SnsPublish -> retry st = [] -> catch st = [] ->
  transition st = End ->
  let ex := exec lambdas (states_of tx n) (S f) name input w in
  NotifyRun name (status ex) (history ex).
Proof.
  intros Hst Hres Hretry Hcatch Hend. cbn [exec]. rewrite Hst.
  destruct (eval_parameters (parameters st) input) as [payload|];
    [|apply notify_invalid].
  unfold run_task_state, retry_budget. rewrite Hretry.
  cbn [foldr length replicate run_task]. rewrite Hres.
  cbn [call_resource].
  destruct (sdk_sns_publish payload w) as [[out|e c] w1].
  - rewrite Hend. apply notify_published.
  - rewrite Hretry, Hcatch. apply notify_failed.
Qed.

Lemma exec_notify_success tx n f input w :
  let ex := exec lambdas (states_of tx n) (S f) "NotifySuccess" input w in
  NotifyRun "NotifySuccess" (status ex) (history ex).
Proof. by eapply exec_notify; [apply lookup_notify_success|..]. Qed.

Lemma exec_failure_notify tx n f input w :
  let ex := exec lambdas (states_of tx n) (S f) "FailureNotify" input w in
  NotifyRun "FailureNotify" (status ex) (history ex).
Proof. by eapply exec_notify; [apply lookup_failure_notify|..]. Qed.

Lemma exec_outline tx n k :
  forall i f input w,
    n = (i + S k)%nat -> (S k <= f)%nat ->
    let ex := exec lambdas (states_of tx n) (S f) (state_name i) input w in
    PipelineRun n i (status ex) (history ex).
Proof.
  induction k as [|k IH]; intros i f input w Hn Hf;
    (rewrite exec_agent by lia);
    (destruct input as [| | | | |d]; try apply run_invalid);
    (destruct (dict_lookup "campaign_id" d) as [c|]; [|apply run_invalid]);
    (destruct (run_task _ _ _ _ _ _) as [[r evs] w1] eqn:Hrun);
    apply run_task_attempts in Hrun; try done;
    destruct f as [|f]; try lia;
    destruct r as [out|e c']; cbn [after status history app].
  - replace (S i <? n)%nat with false by (symmetry; apply Nat.ltb_ge; lia).
    eapply run_last; [lia | exact Hrun | apply exec_notify_success].
  - eapply run_caught; [exact Hrun | apply exec_failure_notify].
  - replace (S i <? n)%nat with true by (symmetry; apply Nat.ltb_lt; lia).
    eapply run_next; [lia | exact Hrun | apply IH; lia].
  - eapply run_caught; [exact Hrun | apply exec_failure_notify].
Qed.

End Engine.

(** ** What the outline says about a history *)

Lemma attempts_entered i p m evs r :
  Attempts i p m evs r -> entered evs = [].
Proof. induction 1; cbn; done. Qed.

Lemma attempts_notify_calls i p m evs r :
  Attempts i p m evs r -> notify_calls evs = [].
Proof. induction 1; cbn; done. Qed.

Lemma attempts_invoked i p m evs r :
  Attempts i p m evs r -> Forall (fun j => j = i) (invoked evs).
Proof.
  induction 1 as [made r Hr|made e c evs r Htr Hlt Hatt IH]; cbn.
  - by repeat constructor.
  - by constructor.
Qed.

Lemma attempts_completed i p m evs r :
  Attempts i p m evs r -> completed evs = if is_ok r then [i] else [].
Proof.
  induction 1 as [made r Hr|made e c evs r Htr Hlt Hatt IH]; cbn.
  - by destruct r.
  - done.
Qed.

(** Every failure but the last one of a Task is transient. *)
Lemma attempts_failures i p m evs r :
  Attempts i p m evs r ->
  exists tr,
    Forall (fun f => f.1 = i /\ transient f.2 = true) tr /\
    failures evs = tr ++ match r with
                         | TaskOk _ => []
                         | TaskErr e _ => [(i, e)]
                         end.
Proof.
  induction 1 as [made r Hr|made e c evs r Htr Hlt Hatt (tr & Hall & Heq)].
  - exists []. split; [constructor|]. by destruct r.
  - exists ((i, e) :: tr). split; [by constructor|].
    cbn. fold (failures evs). by rewrite Heq.
Qed.

Lemma attempts_lambda_calls_last i p m evs r :
  Attempts i p m evs r -> last (lambda_calls evs) = Some (i, r).
Proof.
  induction 1 as [made r Hr|made e c evs r Htr Hlt Hatt IH]; cbn; [done|].
  fold (lambda_calls evs).
  destruct (lambda_calls evs) as [|x l]; [done|]. exact IH.
Qed.

(** A Task all of whose attempts fail transiently uses every retry. *)
Lemma attempts_exhausted i p m evs r :
  Attempts i p m evs r ->
  Forall (fun c => transient_failure c.2 = true) (lambda_calls evs) ->
  invoked evs = replicate (S (max_attempts agent_retry - m)) i /\
  waits evs = retry_delay agent_retry <$> seq m (max_attempts agent_retry - m).
Proof.
  induction 1 as [made r Hr|made e c evs r Htr Hlt Hatt IH]; cbn; intros Hall.
  - apply Forall_cons_1 in Hall as [Hlast _]. rewrite (Hr Hlast).
    done.
  - fold (lambda_calls evs) in Hall. fold (invoked evs). fold (waits evs).
    apply Forall_cons_1 in Hall as [_ Hall].
    destruct (IH Hall) as [-> ->].
    change (max_attempts agent_retry) with 3%nat in *.
    replace (3 - made)%nat with (S (3 - S made)) by lia.
    done.
Qed.

Lemma notify_run_entered name s h : NotifyRun name s h -> entered h = [name].
Proof. by destruct 1. Qed.

Lemma notify_run_lambda_calls name s h : NotifyRun name s h -> lambda_calls h = [].
Proof. by destruct 1. Qed.

Lemma notify_run_invoked name s h : NotifyRun name s h -> invoked h = [].
Proof. by destruct 1. Qed.

Lemma notify_run_completed name s h : NotifyRun name s h -> completed h = [].
Proof. by destruct 1. Qed.

Lemma notify_run_failures name s h : NotifyRun name s h -> failures h = [].
Proof. by destruct 1. Qed.

Lemma notify_run_waits name s h : NotifyRun name s h -> waits h = [].
Proof. by destruct 1. Qed.

(** One publish at most, and the status is its result. *)
Lemma notify_run_calls name s h :
  NotifyRun name s h ->
  match s with
  | SUCCEEDED out => exists p, notify_calls h = [(p, TaskOk out)]
  | FAILED e c =>
      notify_calls h = [] \/ exists p, notify_calls h = [(p, TaskErr e c)]
  | RUNNING => False
  end.
Proof. destruct 1; cbn; eauto. Qed.

Lemma invoked_lambda_calls h : invoked h = (lambda_calls h).*1.
Proof.
  induction h as [|ev h IH]; [done|].
  destruct ev as [s|[j|] p r|q]; cbn; try done.
  fold (invoked h). fold (lambda_calls h). by rewrite IH.
Qed.

Lemma failures_lambda_calls h i e :
  (i, e) ∈ failures h <-> exists c, (i, TaskErr e c) ∈ lambda_calls h.
Proof.
  unfold failures, lambda_calls. rewrite list_elem_of_omap. split.
  - intros (ev & Hin & Hev).
    destruct ev as [s|[j|] p [out|e' c]|q]; try done.
    injection Hev as -> ->. exists c. apply list_elem_of_omap.
    by exists (Called (LambdaFunction i) p (TaskErr e c)).
  - intros (c & (ev & Hin & Hev)%list_elem_of_omap).
    destruct ev as [s|[j|] p r|q]; try done.
    injection Hev as -> ->. by exists (Called (LambdaFunction i) p (TaskErr e c)).
Qed.

Lemma obs_cons_entered s h : entered (Entered s :: h) = s :: entered h.
Proof. done. Qed.

Lemma pipeline_notify_calls n i s h :
  PipelineRun n i s h ->
  match s with
  | SUCCEEDED out => exists p, notify_calls h = [(p, TaskOk out)]
  | FAILED e c =>
      notify_calls h = [] \/ exists p, notify_calls h = [(p, TaskErr e c)]
  | RUNNING => False
  end.
Proof.
  induction 1 as [i|i p evs e c s h Hatt Hn|i p evs out s h Hi Hatt Hn
                  |i p evs out s h Hi Hatt Hrun IH].
  - by left.
  - unfold notify_calls in *. cbn. rewrite omap_app.
    fold (notify_calls evs). rewrite (attempts_notify_calls _ _ _ _ _ Hatt).
    by apply notify_run_calls in Hn.
  - unfold notify_calls in *. cbn. rewrite omap_app.
    fold (notify_calls evs). rewrite (attempts_notify_calls _ _ _ _ _ Hatt).
    by apply notify_run_calls in Hn.
  - unfold notify_calls in *. cbn. rewrite omap_app.
    fold (notify_calls evs). rewrite (attempts_notify_calls _ _ _ _ _ Hatt).
    exact IH.
Qed.

(** The states entered are consecutive agent states, then at most one
    notification state. *)
Lemma pipeline_entered n i s h :
  PipelineRun n i s h ->
  exists k tl,
    entered h = (state_name <$> seq i (S k)) ++ tl /\
    (tl = [] \/ tl = ["NotifySuccess"] \/ tl = ["FailureNotify"]).
Proof.
  induction 1 as [i|i p evs e c s h Hatt Hn|i p evs out s h Hi Hatt Hn
                  |i p evs out s h Hi Hatt Hrun (k & tl & Heq & Htl)].
  - exists 0%nat, []. split; [done | by left].
  - exists 0%nat, ["FailureNotify"]. split; [|by right; right].
    rewrite obs_cons_entered. unfold entered. rewrite omap_app.
    fold (entered evs). fold (entered h).
    rewrite (attempts_entered _ _ _ _ _ Hatt), (notify_run_entered _ _ _ Hn).
    done.
  - exists 0%nat, ["NotifySuccess"]. split; [|by right; left].
    rewrite obs_cons_entered. unfold entered. rewrite omap_app.
    fold (entered evs). fold (entered h).
    rewrite (attempts_entered _ _ _ _ _ Hatt), (notify_run_entered _ _ _ Hn).
    done.
  - exists (S k), tl. split; [|done].
    rewrite obs_cons_entered. unfold entered. rewrite omap_app.
    fold (entered evs). fold (entered h).
    rewrite (attempts_entered _ _ _ _ _ Hatt), Heq. done.
Qed.

Lemma not_notify_in_agents name i k :
  name = "NotifySuccess" \/ name = "FailureNotify" ->
  name ∉ state_name <$> seq i k.
Proof.
  intros Hname (j & Heq & _)%list_elem_of_fmap.
  destruct (state_name_not_notify j). destruct Hname; congruence.
Qed.

Lemma start_execution_empty tx input w :
  start_execution [] tx input w
  = stopped (FAILED "States.Runtime" "No such state") w.
Proof.
  unfold start_execution, workflow_of, states_of. cbn [length States StartAt].
  cbn [Nat.add exec foldl seq].
  rewrite lookup_insert_ne by done. rewrite lookup_insert_ne by done.
  by rewrite lookup_empty.
Qed.

Lemma start_execution_outline (lambdas : list Handler) tx input w :
  lambdas <> [] ->
  let ex := start_execution lambdas tx input w in
  PipelineRun (length lambdas) 0 (status ex) (history ex).
Proof.
  intros Hne. unfold start_execution. cbn [workflow_of States StartAt].
  destruct lambdas as [|h0 rest]; [done|]. cbn [length].
  replace (S (length rest) + 1)%nat with (S (S (length rest))) by lia.
  apply (exec_outline (h0 :: rest) tx (S (length rest)) (length rest)
                      0%nat (S (length rest)) input w); lia.
Qed.

Lemma constant_sorted (i : nat) l :
  Forall (fun j => j = i) l -> StronglySorted le l.
Proof.
  induction 1 as [|j l -> Hall IH]; constructor; [done|].
  eapply Forall_impl; [exact Hall|]. intros j ->. done.
Qed.

(** A successful pipeline, from agent [i] on. *)
Lemma pipeline_success n i s h :
  PipelineRun n i s h ->
  "NotifySuccess" ∈ entered h ->
  completed h = seq i (n - i) /\
  StronglySorted le (invoked h) /\
  Forall (fun j => (i <= j)%nat) (invoked h) /\
  Forall (fun f => transient f.2 = true) (failures h).
Proof.
  induction 1 as [i|i p evs e c s h Hatt Hn|i p evs out s h Hi Hatt Hn
                  |i p evs out s h Hi Hatt Hrun IH]; intros Hin.
  - cbn in Hin. apply list_elem_of_singleton in Hin.
    by destruct (state_name_not_notify i).
  - rewrite obs_cons_entered in Hin. unfold entered in Hin.
    rewrite omap_app in Hin. fold (entered evs) in Hin. fold (entered h) in Hin.
    rewrite (attempts_entered _ _ _ _ _ Hatt), (notify_run_entered _ _ _ Hn) in Hin.
    apply elem_of_cons in Hin as [Hin|Hin].
    + by destruct (state_name_not_notify i).
    + by apply list_elem_of_singleton in Hin.
  - pose proof (attempts_completed _ _ _ _ _ Hatt) as Hc.
    pose proof (attempts_invoked _ _ _ _ _ Hatt) as Hi'.
    destruct (attempts_failures _ _ _ _ _ Hatt) as (tr & Htr & Hf).
    unfold completed, invoked, failures in *. cbn. rewrite !omap_app.
    fold (completed h) (invoked h) (failures h).
    rewrite (notify_run_completed _ _ _ Hn), (notify_run_invoked _ _ _ Hn),
      (notify_run_failures _ _ _ Hn), !app_nil_r.
    rewrite Hc, Hf, app_nil_r. cbn [is_ok].
    replace (n - i)%nat with 1%nat by lia.
    repeat split; [by eapply constant_sorted | |].
    + eapply Forall_impl; [exact Hi'|]. intros j ->. done.
    + eapply Forall_impl; [exact Htr|]. by intros f [_ ?].
  - assert (Hin' : "NotifySuccess" ∈ entered h).
    { rewrite obs_cons_entered in Hin. unfold entered in Hin.
      rewrite omap_app in Hin. fold (entered evs) in Hin.
      rewrite (attempts_entered _ _ _ _ _ Hatt) in Hin.
      apply elem_of_cons in Hin as [Hin|Hin]; [|done].
      by destruct (state_name_not_notify i). }
    destruct (IH Hin') as (IHc & IHs & IHge & IHf).
    pose proof (attempts_completed _ _ _ _ _ Hatt) as Hc.
    pose proof (attempts_invoked _ _ _ _ _ Hatt) as Hi'.
    destruct (attempts_failures _ _ _ _ _ Hatt) as (tr & Htr & Hf).
    unfold completed, invoked, failures in *. cbn. rewrite !omap_app.
    rewrite Hc, Hf, IHc, app_nil_r. cbn [is_ok].
    replace (n - i)%nat with (S (n - S i)) by lia.
    repeat split.
    + apply StronglySorted_app_2; [| by eapply constant_sorted | done].
      intros x1 x2 Hx1 Hx2.
      rewrite Forall_forall in Hi'. rewrite Forall_forall in IHge.
      rewrite (Hi' _ Hx1). specialize (IHge _ Hx2). lia.
    + apply Forall_app. split.
      * eapply Forall_impl; [exact Hi'|]. intros j ->. done.
      * eapply Forall_impl; [exact IHge|]. intros j ?. cbn in *. lia.
    + apply Forall_app. split; [|done].
      eapply Forall_impl; [exact Htr|]. by intros f [_ ?].
Qed.


(** ** Claims about the engine *)

(** C2.  In every execution that reaches NotifySuccess the agents
    return once each, in the order 0 .. n-1; the invocations never go
    back to an earlier agent; and every invocation that failed did so
    with a transient error, so an agent is invoked again only as the
    retry of its own transient failure. *)
Theorem C2_success_runs_agents_in_order (lambdas : list Handler) tx input w :
  let ex := start_execution lambdas tx input w in
  "NotifySuccess" ∈ entered (history ex) ->
  completed (history ex) = seq 0 (length lambdas) /\
  StronglySorted le (invoked (history ex)) /\
  Forall (fun f => transient f.2 = true) (failures (history ex)).
Proof.
  intros ex Hin. subst ex.
  destruct (decide (lambdas = [])) as [->|Hne].
  { rewrite start_execution_empty in Hin. cbn in Hin.
    by apply elem_of_nil in Hin. }
  pose proof (start_execution_outline lambdas tx input w Hne) as Hrun.
  destruct (pipeline_success _ _ _ _ Hrun Hin) as (Hc & Hs & _ & Hf).
  rewrite Nat.sub_0_r in Hc. done.
Qed.

Lemma C2_witness :
  completed (history retried_execution) = seq 0 (length downstream_agents) /\
  StronglySorted le (invoked (history retried_execution)) /\
  Forall (fun f => transient f.2 = true) (failures (history retried_execution)).
Proof.
  apply (C2_success_runs_agents_in_order downstream_agents notebook_texts
           test_input
           (set_script [Err "Lambda.SdkClientException" "Connection reset"]
                       empty_world)).
  vm_compute. do 5 right. left.
Defined.

(** C3, as amended.  An agent step all of whose attempts fail with a
    transient error is attempted four times, the first attempt and the
    three retries that MaxAttempts = 3 allows, with pauses of 2, 4 and 8
    seconds (IntervalSeconds * BackoffRate ^ retries already made), and
    the execution then enters FailureNotify. *)
Theorem C3_transient_step_attempted_four_times
  (lambdas : list Handler) tx i f input w :
  (i < length lambdas)%nat ->
  let ex := exec lambdas (states_of tx (length lambdas)) (S (S f))
                 (state_name i) input w in
  lambda_calls (history ex) <> [] ->
  Forall (fun c => transient_failure c.2 = true) (lambda_calls (history ex)) ->
  invoked (history ex) = [i; i; i; i] /\
  waits (history ex) = [2; 4; 8]%Q /\
  entered (history ex) = [state_name i; "FailureNotify"].
Proof.
  intros Hi ex. subst ex. rewrite exec_agent by done.
  destruct input as [| | | | |d]; try done.
  destruct (dict_lookup "campaign_id" d) as [c|]; [|done].
  destruct (run_task _ _ _ _ _ _) as [[r evs] w1] eqn:Hrun.
  apply run_task_attempts in Hrun; [|done].
  cbn [after history app].
  intros _ Hall.
  change (lambda_calls (Entered (state_name i) :: ?h)) with (lambda_calls h) in Hall.
  unfold lambda_calls in Hall. rewrite omap_app in Hall.
  fold (lambda_calls evs) in Hall.
  apply Forall_app in Hall as [Hevs _].
  destruct r as [out|e c'].
  { pose proof (attempts_lambda_calls_last _ _ _ _ _ Hrun) as Hlast.
    apply last_Some in Hlast as [l' Hl']. rewrite Hl' in Hevs.
    apply Forall_app in Hevs as [_ Hbad]. apply Forall_cons_1 in Hbad as [Hbad _].
    done. }
  destruct (attempts_exhausted _ _ _ _ _ Hrun Hevs) as [Hinv Hw].
  pose proof (exec_failure_notify lambdas tx (length lambdas) f
                (JObj (dict_set "error" (error_output e c') d)) w1) as Hn.
  cbv zeta in Hn.
  rewrite obs_cons_entered.
  change (invoked (Entered (state_name i) :: ?h)) with (invoked h).
  change (waits (Entered (state_name i) :: ?h)) with (waits h).
  unfold invoked, waits, entered in *. rewrite !omap_app.
  fold (invoked evs) (waits evs) (entered evs) in *.
  rewrite Hinv, Hw, (attempts_entered _ _ _ _ _ Hrun).
  fold (invoked (history (exec lambdas (states_of tx (length lambdas)) (S f)
          "FailureNotify" (JObj (dict_set "error" (error_output e c') d)) w1))).
  fold (waits (history (exec lambdas (states_of tx (length lambdas)) (S f)
          "FailureNotify" (JObj (dict_set "error" (error_output e c') d)) w1))).
  fold (entered (history (exec lambdas (states_of tx (length lambdas)) (S f)
          "FailureNotify" (JObj (dict_set "error" (error_output e c') d)) w1))).
  rewrite (notify_run_invoked _ _ _ Hn), (notify_run_waits _ _ _ Hn),
    (notify_run_entered _ _ _ Hn).
  done.
Qed.

Lemma C3_witness :
  invoked (history outage_execution) = [0; 0; 0; 0]%nat /\
  waits (history outage_execution) = [2; 4; 8]%Q /\
  entered (history outage_execution) = [state_name 0; "FailureNotify"].
Proof.
  apply (C3_transient_step_attempted_four_times
           (@agent_codes json_fragment) notebook_texts 0 5 test_input
           (set_script lambda_outage empty_world)).
  - vm_compute. lia.
  - vm_compute. discriminate.
  - vm_compute. repeat constructor.
Defined.

(** C3 as stated fails: with the Lambda service down throughout, Agent0
    is invoked four times, not three, before FailureNotify. *)
Lemma C3_four_attempts_not_three :
  failures (history outage_execution) =
    replicate 4 (0%nat, "Lambda.ServiceException") /\
  entered (history outage_execution) = ["Agent0Step"; "FailureNotify"].
Proof. vm_compute. done. Qed.

(** C7, as amended.  The notification states have neither Retry nor
    Catch: when the publish of NotifySuccess or FailureNotify fails, the
    execution ends FAILED with the error of that publish, whatever the
    agents did before. *)
Theorem C7_failed_publish_fails_execution
  (lambdas : list Handler) tx input w p e c :
  let ex := start_execution lambdas tx input w in
  (p, TaskErr e c) ∈ notify_calls (history ex) ->
  status ex = FAILED e c.
Proof.
  intros ex Hin. subst ex.
  destruct (decide (lambdas = [])) as [->|Hne].
  { rewrite start_execution_empty in Hin. cbn in Hin.
    by apply elem_of_nil in Hin. }
  pose proof (start_execution_outline lambdas tx input w Hne) as Hrun.
  apply pipeline_notify_calls in Hrun.
  destruct (status _) as [out|e' c'|]; [| |done].
  - destruct Hrun as [p' Hp]. rewrite Hp in Hin.
    by apply list_elem_of_singleton in Hin.
  - destruct Hrun as [Hp|[p' Hp]]; rewrite Hp in Hin.
    + by apply elem_of_nil in Hin.
    + apply list_elem_of_singleton in Hin. by injection Hin as _ -> ->.
Qed.

Lemma C7_witness :
  status unnotified_execution
  = FAILED "Sns.AuthorizationErrorException" "Not authorized to publish".
Proof.
  apply (C7_failed_publish_fails_execution downstream_agents notebook_texts
           test_input (set_script publish_refused empty_world)
           [("TopicArn", JStr topic_arn);
            ("Message", JStr "Campaign CAMPAIGN123 completed.");
            ("Subject", JStr "Campaign Success")]).
  vm_compute. left.
Defined.

(** C7 as stated fails: the five agents all return, the publish of
    NotifySuccess is refused, and the execution ends FAILED. *)
Lemma C7_unnotified_success_ends_failed :
  completed (history unnotified_execution) = [0; 1; 2; 3; 4]%nat /\
  status unnotified_execution
  = FAILED "Sns.AuthorizationErrorException" "Not authorized to publish".
Proof. vm_compute. done. Qed.

(** ** Following the world through handler code *)

Global Instance same_stores_frame : Frame same_stores.
Proof.
  split; unfold same_stores.
  - done.
  - intros w1 w2 w3 (-> & -> & ->) (-> & -> & ->). done.
  - done.
  - done.
Qed.

Lemma others_idemp c s t : others c s (others c s t) = others c s t.
Proof.
  unfold others. induction t as [|x t IH]; [done|]. cbn.
  destruct (negb (has_key c s x)) eqn:Hx; cbn; rewrite ?Hx, IH; done.
Qed.

Global Instance confined_frame c s : Frame (confined c s).
Proof.
  split; unfold confined.
  - done.
  - intros w1 w2 w3 (H1 & H2 & H3) (H1' & H2' & H3').
    split; [congruence | split; auto].
  - done.
  - done.
Qed.

Section Preserves.
Context (R : World -> World -> Prop) `{!Frame R}.

Lemma preserves_ret {A} (a : A) : preserves R (mret a).
Proof. intros w. apply frame_refl. Qed.

Lemma preserves_raise {A} t e : preserves R (@raise A t e).
Proof. intros w. apply frame_refl. Qed.

Lemma preserves_bind {A B} (m : Py A) (f : A -> Py B) :
  preserves R m -> (forall a, preserves R (f a)) -> preserves R (m ≫= f).
Proof.
  intros Hm Hf w. specialize (Hm w). unfold mbind, Py_bind.
  destruct (m w) as [[a|t e] w1]; cbn in *; [|done].
  eapply frame_trans; [exact Hm | apply Hf].
Qed.

Lemma preserves_fmap {A B} (g : A -> B) (m : Py A) :
  preserves R m -> preserves R (g <$> m).
Proof.
  intros Hm w. specialize (Hm w). unfold fmap, Py_fmap.
  by destruct (m w) as [[a|t e] w1].
Qed.

Lemma preserves_try {A} (m : Py A) h :
  preserves R m -> (forall t e, preserves R (h t e)) ->
  preserves R (try_except m h).
Proof.
  intros Hm Hh w. specialize (Hm w). unfold try_except.
  destruct (m w) as [[a|t e] w1]; cbn in *; [done|].
  eapply frame_trans; [exact Hm | apply Hh].
Qed.

Lemma preserves_next_reply : preserves R next_reply.
Proof.
  intros w. unfold next_reply.
  destruct (script w) as [|r rs]; cbn; [apply frame_refl | apply frame_script].
Qed.

Lemma preserves_aws_call : preserves R aws_call.
Proof.
  apply preserves_bind; [apply preserves_next_reply|].
  intros [b|t e]; [apply preserves_ret | apply preserves_raise].
Qed.

Lemma preserves_param_str v : preserves R (param_str v).
Proof. destruct v; first [apply preserves_ret | apply preserves_raise]. Qed.

Lemma preserves_log l : preserves R (log l).
Proof. intros w. apply frame_logs. Qed.

Lemma preserves_get_world : preserves R get_world.
Proof. intros w. apply frame_refl. Qed.

Lemma preserves_get_item c s : preserves R (dynamodb_get_item c s).
Proof.
  apply preserves_bind; [apply preserves_param_str|]. intros c'.
  apply preserves_bind; [apply preserves_aws_call|]. intros _.
  apply preserves_bind; [apply preserves_get_world|]. intros w'.
  apply preserves_ret.
Qed.

Lemma preserves_py_get v k d : preserves R (py_get v k d).
Proof. destruct v; first [apply preserves_ret | apply preserves_raise]. Qed.

Lemma preserves_py_lower v : preserves R (py_lower v).
Proof. destruct v; first [apply preserves_ret | apply preserves_raise]. Qed.

Lemma preserves_py_in k v : preserves R (py_in k v).
Proof. destruct v; first [apply preserves_ret | apply preserves_raise]. Qed.

Lemma preserves_py_index0 v : preserves R (py_index0 v).
Proof.
  destruct v as [| | |[|a s]|[|x l]|d];
    first [apply preserves_ret | apply preserves_raise].
Qed.

Lemma preserves_py_set_display v : preserves R (py_set_display v).
Proof. destruct v; first [apply preserves_ret | apply preserves_raise]. Qed.

Lemma preserves_get_or v k1 k2 : preserves R (get_or v k1 k2).
Proof.
  apply preserves_bind; [apply preserves_py_get|]. intros a.
  destruct (truthy a); [apply preserves_ret | apply preserves_py_get].
Qed.

Lemma preserves_kendra_query : preserves R kendra_query.
Proof.
  apply preserves_bind; [apply preserves_aws_call|]. intros _.
  apply preserves_ret.
Qed.

Context `{PyJson}.

Lemma preserves_json_loads s : preserves R (py_json_loads s).
Proof.
  unfold py_json_loads.
  destruct (json_loads s); [apply preserves_ret | apply preserves_raise].
Qed.

Lemma preserves_bedrock : preserves R bedrock_invoke_and_load.
Proof.
  apply preserves_bind; [apply preserves_aws_call|]. intros b.
  apply preserves_json_loads.
Qed.

Lemma preserves_output_text v : preserves R (output_text v).
Proof.
  apply preserves_bind; [apply preserves_py_in|]. intros [|].
  - apply preserves_bind; [apply preserves_py_get|]. intros rs.
    apply preserves_bind; [apply preserves_py_index0|]. intros r0.
    apply preserves_py_get.
  - apply preserves_ret.
Qed.

Lemma preserves_load_brief_data resp : preserves R (load_brief_data resp).
Proof.
  destruct resp; [apply preserves_json_loads | apply preserves_ret].
Qed.

End Preserves.

(** *** The table under PutItem *)

Lemma has_key_true c s x :
  has_key c s x = true <-> item_campaign_id x = c /\ item_step x = s.
Proof.
  unfold has_key. rewrite andb_true_iff, !String.eqb_eq. done.
Qed.

Lemma table_put_others c s d t :
  others c s
    (table_put {| item_campaign_id := c; item_step := s; item_data := d |} t)
  = others c s t.
Proof.
  unfold table_put. cbn [item_campaign_id item_step].
  fold (others c s t). unfold others at 1. rewrite List.filter_app.
  fold (others c s (others c s t)). rewrite others_idemp. cbn.
  replace (has_key c s _) with true; [by rewrite app_nil_r|].
  symmetry. by apply has_key_true.
Qed.

Lemma count_others_same c s t : table_count c s (others c s t) = 0%nat.
Proof.
  unfold table_count, others. induction t as [|x t IH]; [done|]. cbn.
  destruct (has_key c s x) eqn:Hx; cbn; rewrite ?Hx; done.
Qed.

Lemma count_others_other c s c' s' t :
  (c', s') <> (c, s) ->
  table_count c' s' (others c s t) = table_count c' s' t.
Proof.
  intros Hne. unfold table_count, others.
  induction t as [|x t IH]; [done|]. cbn.
  destruct (has_key c s x) eqn:Hx; cbn.
  - destruct (has_key c' s' x) eqn:Hx'; [|done].
    apply has_key_true in Hx as [<- <-]. apply has_key_true in Hx' as [<- <-].
    done.
  - destruct (has_key c' s' x); cbn; by rewrite IH.
Qed.

Lemma table_put_count c s d t :
  table_count c s
    (table_put {| item_campaign_id := c; item_step := s; item_data := d |} t)
  = 1%nat.
Proof.
  unfold table_put. cbn [item_campaign_id item_step]. fold (others c s t).
  unfold table_count. rewrite List.filter_app, length_app.
  fold (table_count c s (others c s t)). rewrite count_others_same. cbn.
  replace (has_key c s _) with true; [done|].
  symmetry. by apply has_key_true.
Qed.

Lemma table_put_count_other c s d c' s' t :
  (c', s') <> (c, s) ->
  table_count c' s'
    (table_put {| item_campaign_id := c; item_step := s; item_data := d |} t)
  = table_count c' s' t.
Proof.
  intros Hne. unfold table_put. cbn [item_campaign_id item_step].
  fold (others c s t).
  unfold table_count. rewrite List.filter_app, length_app.
  fold (table_count c' s' (others c s t)).
  rewrite count_others_other by done. cbn.
  replace (has_key c' s' _) with false.
  { cbn. unfold table_count. lia. }
  symmetry. apply not_true_iff_false. intros [? ?]%has_key_true.
  cbn in *. congruence.
Qed.

Lemma table_put_unique c s d t :
  keys_unique t ->
  keys_unique
    (table_put {| item_campaign_id := c; item_step := s; item_data := d |} t).
Proof.
  intros Hu c' s'. destruct (decide ((c', s') = (c, s))) as [[= -> ->]|Hne].
  - by rewrite table_put_count.
  - rewrite table_put_count_other by done. apply Hu.
Qed.

Lemma table_put_get c s d t :
  table_get c s
    (table_put {| item_campaign_id := c; item_step := s; item_data := d |} t)
  = Some {| item_campaign_id := c; item_step := s; item_data := d |}.
Proof.
  unfold table_get, table_put. cbn [item_campaign_id item_step].
  fold (others c s t).
  assert (Hnone : forall l, List.find (has_key c s) (others c s l ++
            [{| item_campaign_id := c; item_step := s; item_data := d |}])
          = Some {| item_campaign_id := c; item_step := s; item_data := d |}).
  { induction l as [|x l IH]; cbn.
    - replace (has_key c s _) with true; [done|].
      symmetry. by apply has_key_true.
    - destruct (has_key c s x) eqn:Hx; cbn; rewrite ?Hx; done. }
  apply Hnone.
Qed.

Lemma same_table_confined c s w w' : table w' = table w -> confined c s w w'.
Proof. intros Heq. unfold confined. rewrite Heq. done. Qed.

Lemma put_confined c s d w :
  confined c s w
    (set_table
       (table_put {| item_campaign_id := c; item_step := s; item_data := d |}
                  (table w)) w).
Proof.
  unfold confined. cbn [table set_table]. split; [|split].
  - apply table_put_others.
  - apply table_put_unique.
  - intros _. by rewrite table_put_count.
Qed.

Lemma preserves_put_item c s data :
  preserves (confined c s) (dynamodb_put_item (JStr c) s data).
Proof.
  unfold dynamodb_put_item.
  change (param_str (JStr c) ≫= ?f) with (f c).
  apply preserves_bind; [apply _ | apply preserves_param_str; apply _ |].
  intros d.
  apply preserves_bind; [apply _ | apply preserves_aws_call; apply _ |].
  intros _ w. apply put_confined.
Qed.

Lemma preserves_modify_stores c s f :
  (forall w, table (f w) = table w) -> preserves (confined c s) (modify f).
Proof. intros Hf w. apply same_table_confined, Hf. Qed.

Lemma preserves_s3_put c s b k body :
  preserves (confined c s) (s3_put_object b k body).
Proof.
  unfold s3_put_object.
  apply preserves_bind; [apply _ | apply preserves_param_str; apply _ |].
  intros d.
  apply preserves_bind; [apply _ | apply preserves_aws_call; apply _ |].
  intros _. by apply preserves_modify_stores.
Qed.

Lemma preserves_sns_publish c s m subj :
  preserves (confined c s) (sns_publish m subj).
Proof.
  unfold sns_publish.
  apply preserves_bind; [apply _ | apply preserves_aws_call; apply _ |].
  intros mid.
  apply preserves_bind; [apply _ | by apply preserves_modify_stores |].
  intros _. apply preserves_ret, _.
Qed.

(** *** Code that stores its record before it returns *)

Lemma stores_raise {A} c s t e : stores c s (@raise A t e).
Proof. intros w a. done. Qed.

Lemma stores_bind_r {A B} c s (m : Py A) (f : A -> Py B) :
  (forall a, stores c s (f a)) -> stores c s (m ≫= f).
Proof.
  intros Hf w b. unfold mbind, Py_bind.
  destruct (m w) as [[a|t e] w1]; [apply Hf | done].
Qed.

Lemma stores_bind_l {A B} c s (m : Py A) (f : A -> Py B) :
  stores c s m -> (forall a, preserves (confined c s) (f a)) ->
  stores c s (m ≫= f).
Proof.
  intros Hm Hf w b. specialize (Hm w). unfold mbind, Py_bind.
  destruct (m w) as [[a|t e] w1]; [|done].
  intros _. destruct (Hf a w1) as (_ & _ & Hkeep). apply Hkeep.
  by apply (Hm a).
Qed.

Lemma stores_try {A} c s (m : Py A) h :
  stores c s m -> (forall t e, stores c s (h t e)) ->
  stores c s (try_except m h).
Proof.
  intros Hm Hh w a. specialize (Hm w). unfold try_except.
  destruct (m w) as [[a'|t e] w1]; [apply Hm | apply Hh].
Qed.

Lemma stores_put_item c s data : stores c s (dynamodb_put_item (JStr c) s data).
Proof.
  intros w a. unfold dynamodb_put_item.
  change (param_str (JStr c) ≫= ?f) with (f c).
  unfold mbind, Py_bind.
  destruct (param_str data w) as [[d|t e] w1]; [|done].
  destruct (aws_call w1) as [[b|t e] w2]; [|done].
  intros _. unfold modify. cbn [snd set_table table].
  by rewrite table_put_count.
Qed.

(** *** The handlers and the table *)

Ltac frame_step :=
  lazymatch goal with
  | |- Frame _ => apply _
  | |- preserves _ (mbind _ _) => apply preserves_bind; [| |intros ?]
  | |- preserves _ (try_except _ _) => apply preserves_try; [| |intros ? ?]
  | |- preserves _ (fmap _ _) => apply preserves_fmap
  | |- preserves _ (if ?b then _ else _) => destruct b
  | |- preserves _ (match ?x with _ => _ end) => destruct x
  | |- preserves _ _ =>
      first
        [ apply preserves_ret | apply preserves_raise | apply preserves_log
        | apply preserves_get_item | apply preserves_put_item
        | apply preserves_s3_put | apply preserves_sns_publish
        | apply preserves_bedrock | apply preserves_output_text
        | apply preserves_load_brief_data | apply preserves_get_or
        | apply preserves_py_get | apply preserves_py_lower
        | apply preserves_py_index0 | apply preserves_py_set_display
        | apply preserves_kendra_query | apply preserves_json_loads
        | apply preserves_aws_call ]
  end.

Ltac frame := repeat frame_step.

Section Handlers.
Context `{PyJson}.

(** Agent0 raises at its first set display, whatever the world. *)
Lemma agent0_raises c w :
  agent0_lambda_handler (campaign_event c) w
  = (Exc "TypeError" "unhashable type: 'dict'",
     set_logs (logs w ++ ["Error in Agent0 extraction: {e}"]) w).
Proof. reflexivity. Qed.

Lemma agent0_confined c s :
  preserves (confined c s) (agent0_lambda_handler (campaign_event c)).
Proof. intros w. rewrite agent0_raises. apply frame_logs. Qed.

Lemma agent0_confined_same c :
  preserves same_stores (agent0_lambda_handler (campaign_event c)).
Proof. intros w. rewrite agent0_raises. apply frame_logs. Qed.

Lemma agent0_stores c s : stores c s (agent0_lambda_handler (campaign_event c)).
Proof. intros w a. by rewrite agent0_raises. Qed.

Lemma agent1_confined c :
  preserves (confined c "business_context")
            (agent1_lambda_handler (campaign_event c)).
Proof.
  unfold agent1_lambda_handler. cbv zeta.
  change (dict_get "campaign_id" JNull (campaign_event c)) with (JStr c).
  frame.
Qed.

Lemma agent2_confined c :
  preserves (confined c "campaign_plan")
            (agent2_lambda_handler (campaign_event c)).
Proof.
  unfold agent2_lambda_handler. cbv zeta.
  change (dict_get "campaign_id" JNull (campaign_event c)) with (JStr c).
  frame.
Qed.

Lemma agent3_generate_quiet R `{!Frame R} c : preserves R (agent3_generate c).
Proof. unfold agent3_generate. cbv zeta. frame. Qed.

Lemma agent3_confined c :
  preserves (confined c "content_samples")
            (agent3_lambda_handler (campaign_event c)).
Proof.
  unfold agent3_lambda_handler. cbv zeta.
  change (dict_get "campaign_id" JNull (campaign_event c)) with (JStr c).
  apply preserves_try; [apply _ | | intros; frame].
  apply preserves_bind; [apply _ | apply agent3_generate_quiet, _ |].
  intros content. frame.
Qed.

Lemma agent4_confined c :
  preserves (confined c "channel_strategy")
            (agent4_lambda_handler (campaign_event c)).
Proof.
  unfold agent4_lambda_handler. cbv zeta.
  change (dict_get "campaign_id" JNull (campaign_event c)) with (JStr c).
  frame.
Qed.

Lemma agent5_evaluate_quiet R `{!Frame R} c : preserves R (agent5_evaluate c).
Proof. unfold agent5_evaluate. frame. Qed.

Lemma agent5_confined c :
  preserves (confined c "evaluation")
            (agent5_lambda_handler (campaign_event c)).
Proof.
  unfold agent5_lambda_handler. cbv zeta.
  change (dict_get "campaign_id" JNull (campaign_event c)) with (JStr c).
  apply preserves_try; [apply _ | | intros; frame].
  apply preserves_bind; [apply _ | apply agent5_evaluate_quiet, _ |].
  intros content. frame.
Qed.

End Handlers.

Ltac stores_step :=
  lazymatch goal with
  | |- stores _ _ (try_except _ _) => apply stores_try; [|intros ? ?]
  | |- stores _ _ (mbind _ (dynamodb_put_item _ _ _)) =>
      apply stores_bind_l; [apply stores_put_item | intros ?; frame]
  | |- stores _ _ (mbind _ _) => apply stores_bind_r; intros ?
  | |- stores _ _ (raise _ _) => apply stores_raise
  end.

Section HandlersStore.
Context `{PyJson}.

Lemma agent1_stores c :
  stores c "business_context" (agent1_lambda_handler (campaign_event c)).
Proof.
  unfold agent1_lambda_handler. cbv zeta.
  change (dict_get "campaign_id" JNull (campaign_event c)) with (JStr c).
  repeat stores_step.
Qed.

Lemma agent2_stores c :
  stores c "campaign_plan" (agent2_lambda_handler (campaign_event c)).
Proof.
  unfold agent2_lambda_handler. cbv zeta.
  change (dict_get "campaign_id" JNull (campaign_event c)) with (JStr c).
  repeat stores_step.
Qed.

Lemma agent3_stores c :
  stores c "content_samples" (agent3_lambda_handler (campaign_event c)).
Proof.
  unfold agent3_lambda_handler. cbv zeta.
  change (dict_get "campaign_id" JNull (campaign_event c)) with (JStr c).
  repeat stores_step.
Qed.

Lemma agent4_stores c :
  stores c "channel_strategy" (agent4_lambda_handler (campaign_event c)).
Proof.
  unfold agent4_lambda_handler. cbv zeta.
  change (dict_get "campaign_id" JNull (campaign_event c)) with (JStr c).
  repeat stores_step.
Qed.

Lemma agent5_stores c :
  stores c "evaluation" (agent5_lambda_handler (campaign_event c)).
Proof.
  unfold agent5_lambda_handler. cbv zeta.
  change (dict_get "campaign_id" JNull (campaign_event c)) with (JStr c).
  repeat stores_step.
Qed.

(** Every deployed agent writes under its own step name and the
    campaign id of its event, and nowhere else. *)
Lemma agent_codes_confined i h step c :
  agent_codes !! i = Some h -> step_names !! i = Some step ->
  preserves (confined c step) (h (campaign_event c)) /\
  stores c step (h (campaign_event c)).
Proof.
  intros Hh Hs.
  destruct i as [|[|[|[|[|[|i]]]]]]; try discriminate;
    injection Hh as <-; injection Hs as <-;
    [split; [apply agent0_confined | apply agent0_stores]
    |split; [apply agent1_confined | apply agent1_stores]
    |split; [apply agent2_confined | apply agent2_stores]
    |split; [apply agent3_confined | apply agent3_stores]
    |split; [apply agent4_confined | apply agent4_stores]
    |split; [apply agent5_confined | apply agent5_stores]].
Qed.

End HandlersStore.

(** *** From one invocation to a Task with its retries *)

Section TaskFrame.
Context (lambdas : list Handler) (i : nat) (h : Handler) (p : Event).
Hypothesis Hh : lambdas !! i = Some h.

Lemma invoke_lambda_preserves R `{!Frame R} :
  preserves R (h p) -> forall w, R w (invoke_lambda lambdas i p w).2.
Proof.
  intros Hp w. unfold invoke_lambda. rewrite Hh. unfold run_handler.
  pose proof (preserves_next_reply R w) as Hr.
  destruct (next_reply w) as [[[b|t e]|t e] w1]; cbn in *; try done.
  specialize (Hp w1). destruct (h p w1) as [[out|t e] w2]; cbn in *;
    by eapply frame_trans.
Qed.

Lemma invoke_lambda_stores c s :
  stores c s (h p) ->
  forall w out,
    (invoke_lambda lambdas i p w).1 = TaskOk out ->
    (1 <= table_count c s (table (invoke_lambda lambdas i p w).2))%nat.
Proof.
  intros Hs w out. unfold invoke_lambda. rewrite Hh. unfold run_handler.
  destruct (next_reply w) as [[[b|t e]|t e] w1]; cbn; try done.
  specialize (Hs w1). destruct (h p w1) as [[out'|t e] w2]; cbn in *; [|done].
  intros _. by apply (Hs out').
Qed.

Lemma run_task_preserves R `{!Frame R} n :
  preserves R (h p) ->
  forall budget made w,
    R w (run_task lambdas (agent_state n i) p budget [made] w).2.
Proof.
  intros Hp. induction budget as [|budget IH]; intros made w;
    rewrite run_task_agent;
    pose proof (invoke_lambda_preserves R Hp w) as Hinv;
    destruct (invoke_lambda lambdas i p w) as [[out|e c] w1];
    cbn [fst snd] in *; try exact Hinv.
  destruct (transient e && (made <? max_attempts agent_retry)%nat);
    [|exact Hinv].
  specialize (IH (S made) w1).
  destruct (run_task _ _ _ _ _ _) as [[r' evs] w2]. cbn [fst snd] in *.
  by eapply frame_trans.
Qed.

Lemma run_task_stores c s n :
  stores c s (h p) ->
  forall budget made w out,
    (run_task lambdas (agent_state n i) p budget [made] w).1.1 = TaskOk out ->
    (1 <= table_count c s
            (table (run_task lambdas (agent_state n i) p budget [made] w).2))%nat.
Proof.
  intros Hs. induction budget as [|budget IH]; intros made w out;
    rewrite run_task_agent;
    pose proof (invoke_lambda_stores c s Hs w) as Hinv;
    destruct (invoke_lambda lambdas i p w) as [[out'|e c'] w1];
    cbn [fst snd] in *; try done; try (intros _; by eapply Hinv).
  destruct (transient e && (made <? max_attempts agent_retry)%nat);
    [|done].
  specialize (IH (S made) w1 out).
  destruct (run_task _ _ _ _ _ _) as [[r' evs] w2]. cbn [fst snd] in *.
  exact IH.
Qed.

End TaskFrame.

(** ** Claims about the step records *)

(** C5.  Whatever the number of attempts, a Task of agent [i] on the
    entity [c] leaves every item under another key as it was, leaves at
    most one item under [(c, step_i)], and leaves exactly one when the
    Task ends with a success. *)
Theorem C5_retries_keep_one_record `{PyJson} i step c w :
  step_names !! i = Some step ->
  keys_unique (table w) ->
  let res := run_task_state agent_codes (agent_state 6 i) (campaign_event c) w in
  others c step (table res.2) = others c step (table w) /\
  (table_count c step (table res.2) <= 1)%nat /\
  (if is_ok res.1.1 then table_count c step (table res.2) = 1%nat else True).
Proof.
  intros Hs Hu res. subst res.
  assert (Hlen : (i < length agent_codes)%nat).
  { apply lookup_lt_Some in Hs. exact Hs. }
  destruct (lookup_lt_is_Some_2 agent_codes i Hlen) as [h Hh].
  destruct (agent_codes_confined i h step c Hh Hs) as [Hconf Hst].
  unfold run_task_state.
  change (retry_budget (agent_state 6 i)) with 3%nat.
  change (replicate (length (retry (agent_state 6 i))) 0%nat) with [0%nat].
  pose proof (run_task_preserves agent_codes i h (campaign_event c) Hh
                (confined c step) 6 Hconf 3 0 w) as (Ho & Hk & _).
  pose proof (run_task_stores agent_codes i h (campaign_event c) Hh
                c step 6 Hst 3 0 w) as Hone.
  split; [exact Ho|]. split; [by apply Hk|].
  destruct (run_task _ _ _ _ _ _) as [[[out|e c'] evs] w']; cbn in *; [|done].
  specialize (Hone out eq_refl). specialize (Hk Hu c step). lia.
Qed.

Lemma C5_witness :
  others "CAMPAIGN123" "business_context" (table retried_task.2)
  = others "CAMPAIGN123" "business_context" [] /\
  (table_count "CAMPAIGN123" "business_context" (table retried_task.2) <= 1)%nat /\
  (if is_ok retried_task.1.1
   then table_count "CAMPAIGN123" "business_context" (table retried_task.2)
        = 1%nat
   else True).
Proof.
  apply (@C5_retries_keep_one_record json_fragment 1 "business_context"
           "CAMPAIGN123"
           (set_script [Err "Lambda.ServiceException" "Service unavailable"]
                       empty_world)).
  - reflexivity.
  - intros c s. cbn. lia.
Defined.

Lemma put_item_returns c s data w w' :
  dynamodb_put_item (JStr c) s data w = (Val tt, w') ->
  exists d,
    data = JStr d /\
    table w' = table_put
                 {| item_campaign_id := c; item_step := s; item_data := d |}
                 (table w) /\
    objects w' = objects w /\ topic w' = topic w.
Proof.
  unfold dynamodb_put_item.
  change (param_str (JStr c) ≫= ?f) with (f c).
  unfold mbind, Py_bind.
  destruct data as [| | |d| |]; try discriminate.
  change (param_str (JStr d) w) with (Val d, w).
  cbn beta iota.
  destruct (aws_call w) as [[b|t e] w1] eqn:Hcall; [|discriminate].
  intros [= <-]. exists d. 
  assert (Hw1 : table w1 = table w /\ objects w1 = objects w /\ topic w1 = topic w).
  { pose proof (preserves_aws_call same_stores w) as Hp.
    rewrite Hcall in Hp. exact Hp. }
  destruct Hw1 as (Ht & Ho & Htp).
  cbn [table objects topic set_table]. rewrite Ht. done.
Qed.

Lemma s3_put_raises b k body w t e w' :
  s3_put_object b k body w = (Exc t e, w') -> same_stores w w'.
Proof.
  unfold s3_put_object, mbind, Py_bind.
  pose proof (preserves_param_str same_stores body w) as Hp.
  destruct (param_str body w) as [[d|t1 e1] w1]; cbn [snd] in Hp;
    [|by intros [= _ _ <-]].
  pose proof (preserves_aws_call same_stores w1) as Hc.
  destruct (aws_call w1) as [[x|t2 e2] w2]; cbn [snd] in Hc;
    [discriminate|]. intros [= _ _ <-].
  by eapply frame_trans.
Qed.

(** C10.  The content generator writes its record before the asset:
    when its [put_item] has succeeded and the [put_object] that follows
    raises, the handler raises that same exception and the world it
    leaves holds the content_samples record just written, and no new
    asset. *)
Theorem C10_record_outlives_failed_asset_write
  `{PyJson} c w content w1 w2 t e w3 :
  agent3_generate (JStr c) w = (Val content, w1) ->
  dynamodb_put_item (JStr c) "content_samples" content w1 = (Val tt, w2) ->
  s3_put_object ASSETS_BUCKET (c +:+ "_content.txt") content w2
    = (Exc t e, w3) ->
  exists w4 d,
    agent3_lambda_handler (campaign_event c) w = (Exc t e, w4) /\
    content = JStr d /\
    table_get c "content_samples" (table w4)
      = Some {| item_campaign_id := c; item_step := "content_samples";
                item_data := d |} /\
    objects w4 = objects w.
Proof.
  intros Hgen Hput Hs3.
  pose proof (agent3_generate_quiet same_stores (JStr c) w) as (_ & Ho1 & _).
  rewrite Hgen in Ho1. cbn [snd] in Ho1.
  destruct (put_item_returns _ _ _ _ _ Hput) as (d & -> & Ht & Ho & _).
  destruct (s3_put_raises _ _ _ _ _ _ _ Hs3) as (Ht3 & Ho3 & _).
  exists (set_logs (logs w3 ++ ["Error in Agent3 content generation: " +:+ e]) w3), d.
  split; [|split; [done|split]].
  - unfold agent3_lambda_handler. cbv zeta.
    change (dict_get "campaign_id" JNull (campaign_event c)) with (JStr c).
    unfold try_except, mbind, Py_bind. rewrite Hgen. cbn beta iota.
    rewrite Hput. cbn beta iota.
    change (py_str (JStr c)) with c. rewrite Hs3. reflexivity.
  - cbn [table set_logs]. rewrite Ht3, Ht. apply table_put_get.
  - cbn [objects set_logs]. congruence.
Qed.

Lemma C10_witness :
  exists w4 d,
    @agent3_lambda_handler json_fragment (campaign_event "CAMPAIGN123")
      assets_denied
    = (Exc "AccessDenied" "Access Denied", w4) /\
    JStr "{}" = JStr d /\
    table_get "CAMPAIGN123" "content_samples" (table w4)
      = Some {| item_campaign_id := "CAMPAIGN123";
                item_step := "content_samples"; item_data := d |} /\
    objects w4 = objects assets_denied.
Proof.
  eapply (@C10_record_outlives_failed_asset_write json_fragment "CAMPAIGN123"
            assets_denied (JStr "{}")); vm_compute; reflexivity.
Defined.

(** ** The failure notification and the test execution *)

Lemma string_app_nil_r (s : string) : s +:+ "" = s.
Proof.
  induction s as [|a s IH]; [done|].
  change (String a s +:+ "") with (String a (s +:+ "")). by rewrite IH.
Qed.

Lemma dict_lookup_set_eq k v d : dict_lookup k (dict_set k v d) = Some v.
Proof.
  induction d as [|[k' v'] d IH]; cbn.
  - by rewrite String.eqb_refl.
  - destruct (String.eqb k k') eqn:Hk; cbn; rewrite ?String.eqb_refl, ?Hk; done.
Qed.

Lemma dict_lookup_set_ne k k' v d :
  k <> k' -> dict_lookup k (dict_set k' v d) = dict_lookup k d.
Proof.
  intros Hne. apply String.eqb_neq in Hne.
  induction d as [|[k'' v''] d IH]; cbn.
  - by rewrite Hne.
  - destruct (String.eqb k' k'') eqn:Hk; cbn.
    + apply String.eqb_eq in Hk as <-. by rewrite Hne.
    + destruct (String.eqb k k''); done.
Qed.

(** What the publish of a notification state does to the world. *)
Lemma sdk_publish_effect arn m subj w :
  let payload := [("TopicArn", JStr arn); ("Message", JStr m);
                  ("Subject", JStr subj)] in
  let res := sdk_sns_publish payload w in
  table res.2 = table w /\ objects res.2 = objects w /\
  topic res.2 =
    topic w ++ (if is_ok res.1
                then [{| msg_subject := subj; msg_text := m |}] else []).
Proof.
  intros payload res. subst payload res. unfold sdk_sns_publish.
  change (dict_lookup "Message" _) with (Some (JStr m)).
  change (dict_lookup "Subject" _) with (Some (JStr subj)).
  cbn beta iota. unfold sns_publish, mbind, Py_bind.
  pose proof (preserves_aws_call same_stores w) as Hp.
  destruct (aws_call w) as [[mid|t e] w1]; cbn [fst snd] in *;
    destruct Hp as (Ht & Ho & Htp).
  - cbn. rewrite Ht, Ho, Htp. done.
  - cbn. rewrite Ht, Ho, Htp, app_nil_r. done.
Qed.

(** The run of FailureNotify after agent [i] failed with [(e, ca)] on an
    input that holds the campaign id [c]. *)
Lemma exec_failure_notify_run lambdas tx n f d c e ca w msg :
  dict_lookup "campaign_id" d = Some (JStr c) ->
  states_format (failure_template tx) [c; e] = Some msg ->
  let payload := [("TopicArn", JStr topic_arn); ("Message", JStr msg);
                  ("Subject", JStr (failure_subject tx))] in
  let res := sdk_sns_publish payload w in
  exec lambdas (states_of tx n) (S f) "FailureNotify"
       (JObj (dict_set "error" (error_output e ca) d)) w
  = {| status := match res.1 with
                 | TaskOk out => SUCCEEDED out
                 | TaskErr e' c' => FAILED e' c'
                 end;
       history := [Entered "FailureNotify"; Called SnsPublish payload res.1];
       final := res.2 |}.
Proof.
  intros Hc Hfmt payload res. subst payload res.
  cbn [exec]. rewrite lookup_failure_notify.
  assert (Hparams :
    eval_parameters (parameters (failure_notify_state tx))
      (JObj (dict_set "error" (error_output e ca) d))
    = Some [("TopicArn", JStr topic_arn); ("Message", JStr msg);
            ("Subject", JStr (failure_subject tx))]).
  { unfold eval_parameters, failure_notify_state. cbn [parameters mapM fst snd eval_param].
    cbn [path_lookup mbind option_bind].
    rewrite (dict_lookup_set_ne "campaign_id" "error") by discriminate.
    rewrite Hc.
    rewrite dict_lookup_set_eq. cbn. rewrite Hfmt. done. }
  rewrite Hparams. unfold run_task_state.
  cbn [failure_notify_state retry retry_budget foldr length replicate
       run_task resource call_resource catch transition].
  destruct (sdk_sns_publish _ w) as [[out|e' c'] w1]; reflexivity.
Qed.

Lemma attempts_payloads i p m evs r :
  Attempts i p m evs r -> Forall (fun q => q = p) (lambda_payloads evs).
Proof. induction 1; cbn; repeat constructor; done. Qed.

Lemma run_task_never_ok lambdas n i p :
  (forall w, is_ok (invoke_lambda lambdas i p w).1 = false) ->
  forall budget made w,
    is_ok (run_task lambdas (agent_state n i) p budget [made] w).1.1 = false.
Proof.
  intros Hinv. induction budget as [|budget IH]; intros made w;
    rewrite run_task_agent; specialize (Hinv w);
    destruct (invoke_lambda lambdas i p w) as [[out|e c] w1];
    cbn [fst snd is_ok] in *; try done.
  destruct (transient e && (made <? max_attempts agent_retry)%nat); [|done].
  specialize (IH (S made) w1).
  by destruct (run_task _ _ _ _ _ _) as [[r' evs] w2].
Qed.

Section TestExecution.
Context `{PyJson}.

Lemma invoke_agent0_fails c w :
  is_ok (invoke_lambda agent_codes 0 (campaign_event c) w).1 = false.
Proof.
  unfold invoke_lambda. cbn [agent_codes lookup list_lookup].
  unfold run_handler.
  destruct (next_reply w) as [[[b|t e]|t e] w1]; done.
Qed.

(** The test execution of section 2 on the six deployed agents, over a
    machine whose failure template formats to [fmsg]. *)
Lemma extractor_always_fails tx fmsg c b k w :
  (forall e, states_format (failure_template tx) [c; e] = Some (fmsg e)) ->
  let ex := start_execution agent_codes tx (start_input c b k) w in
  Forall (fun p => p = campaign_event c) (lambda_payloads (history ex)) /\
  Forall (fun j => j = 0%nat) (invoked (history ex)) /\
  completed (history ex) = [] /\
  table (final ex) = table w /\
  (topic (final ex) = topic w \/
   exists e,
     topic (final ex)
     = topic w ++ [{| msg_subject := failure_subject tx;
                      msg_text := fmsg e |}]).
Proof.
  intros Hfmt ex. subst ex. unfold start_execution.
  cbn [workflow_of States StartAt agent_codes length Nat.add].
  change "Agent0Step" with (state_name 0).
  rewrite exec_agent by lia. unfold start_input.
  change (dict_lookup "campaign_id" _) with (Some (JStr c)).
  cbn beta iota.
  pose proof (run_task_never_ok agent_codes 6 0 (campaign_event c)
                (invoke_agent0_fails c) (max_attempts agent_retry) 0 w) as Hfail.
  pose proof (run_task_preserves agent_codes 0 agent0_lambda_handler
                (campaign_event c) eq_refl same_stores 6
                (fun w0 => agent0_confined_same c w0)
                (max_attempts agent_retry) 0 w) as Hsame.
  change [("campaign_id", JStr c)] with (campaign_event c).
  destruct (run_task _ _ _ _ _ _) as [[r evs] w1] eqn:Hrun.
  apply run_task_attempts in Hrun; [|done].
  cbn [fst snd] in *. destruct r as [out|e ca]; [done|].
  erewrite exec_failure_notify_run; [|reflexivity|apply Hfmt].
  pose proof (sdk_publish_effect topic_arn (fmsg e) (failure_subject tx) w1)
    as Hpub. cbv zeta in Hpub.
  destruct (sdk_sns_publish _ w1) as [r' w2]. cbn [fst snd] in *.
  destruct Hpub as (Ht & _ & Htp). destruct Hsame as (Ht1 & _ & Htp1).
  cbn [after history final app].
  unfold lambda_payloads, invoked, completed. cbn [omap list_omap].
  rewrite !omap_app. cbn [omap list_omap app].
  fold (lambda_payloads evs) (invoked evs) (completed evs).
  rewrite !app_nil_r.
  split; [by eapply attempts_payloads|].
  split; [by eapply attempts_invoked|].
  split; [by rewrite (attempts_completed _ _ _ _ _ Hrun)|].
  split; [congruence|].
  rewrite Htp, Htp1. destruct (is_ok r').
  - right. by exists e.
  - left. by rewrite app_nil_r.
Qed.

End TestExecution.

(** ** Handlers run with every service answering *)

Lemma bind_val {A B} (m : Py A) (f : A -> Py B) w a w' :
  m w = (Val a, w') -> (m ≫= f) w = f a w'.
Proof. intros Hm. unfold mbind, Py_bind. by rewrite Hm. Qed.

Lemma fmap_val {A B} (g : A -> B) (m : Py A) w a w' :
  m w = (Val a, w') -> (g <$> m) w = (Val (g a), w').
Proof. intros Hm. unfold fmap, Py_fmap. by rewrite Hm. Qed.

Lemma aws_call_answered w : script w = [] -> aws_call w = (Val "{}", w).
Proof.
  intros Hs. unfold aws_call, mbind, Py_bind, next_reply. by rewrite Hs.
Qed.

Lemma put_item_answered c s d w :
  script w = [] ->
  dynamodb_put_item (JStr c) s (JStr d) w
  = (Val tt,
     set_table
       (table_put {| item_campaign_id := c; item_step := s; item_data := d |}
                  (table w)) w).
Proof.
  intros Hs. unfold dynamodb_put_item.
  change (param_str (JStr c) ≫= ?f) with (f c). cbn beta.
  change (param_str (JStr d) ≫= ?f) with (f d). cbn beta.
  by rewrite (bind_val _ _ _ _ _ (aws_call_answered w Hs)).
Qed.

Section Answered.
Context `{PyJson}.
Hypothesis json_loads_empty : json_loads "{}" = Some (JObj []).

Lemma bedrock_empty w :
  script w = [] -> bedrock_invoke_and_load w = (Val (JObj []), w).
Proof.
  intros Hs. unfold bedrock_invoke_and_load.
  rewrite (bind_val _ _ _ _ _ (aws_call_answered w Hs)).
  unfold py_json_loads. by rewrite json_loads_empty.
Qed.

End Answered.

(** ** The test execution *)

(** C9, evaluated on the start input of section 2 for every campaign id,
    bucket, key and world, on the machine of the notebook and on that of
    Readme.md.  Every invocation carries the campaign id alone; it is
    Agent0 that is invoked, and it never returns, because its first set
    display raises TypeError; so no later agent runs, the table is left
    as it was, with no record under UNKNOWN, and the one message that
    can be published is FailureNotify's, under the submitted id. *)
Theorem C9_extractor_raises_before_UNKNOWN_is_used `{PyJson} c b k w :
  let nb := start_execution agent_codes notebook_texts (start_input c b k) w in
  let rd := start_execution agent_codes readme_texts (start_input c b k) w in
  (Forall (fun p => p = campaign_event c) (lambda_payloads (history nb)) /\
   Forall (fun j => j = 0%nat) (invoked (history nb)) /\
   completed (history nb) = [] /\
   table (final nb) = table w /\
   (topic (final nb) = topic w \/
    exists e,
      topic (final nb)
      = topic w ++ [{| msg_subject := "Campaign Failed";
                       msg_text := "Campaign " +:+ c +:+ " failed: " +:+ e |}]))
  /\
  (Forall (fun p => p = campaign_event c) (lambda_payloads (history rd)) /\
   Forall (fun j => j = 0%nat) (invoked (history rd)) /\
   completed (history rd) = [] /\
   table (final rd) = table w /\
   (topic (final rd) = topic w \/
    exists e,
      topic (final rd)
      = topic w ++ [{| msg_subject := "Campaign Plan Failed";
                       msg_text :=
                         "Campaign " +:+ c +:+ " FAILED. Error: " +:+ e |}])).
Proof.
  intros nb rd. subst nb rd. split.
  - pose proof (extractor_always_fails notebook_texts
                  (fun e => "Campaign " +:+ c +:+ " failed: " +:+ e) c b k w)
      as Hrun.
    cbv zeta beta in Hrun. apply Hrun.
    intros e. rewrite <- (string_app_nil_r e) at 2. reflexivity.
  - pose proof (extractor_always_fails readme_texts
                  (fun e => "Campaign " +:+ c +:+ " FAILED. Error: " +:+ e)
                  c b k w) as Hrun.
    cbv zeta beta in Hrun. apply Hrun.
    intros e. rewrite <- (string_app_nil_r e) at 2. reflexivity.
Qed.

(** ** Raising computations and answered replies *)

Lemma bind_exc {A B} (m : Py A) (f : A -> Py B) w t e w' :
  m w = (Exc t e, w') -> (m ≫= f) w = (Exc t e, w').
Proof. intros Hm. unfold mbind, Py_bind. by rewrite Hm. Qed.



(** * Further properties of the handlers and of the machine *)

(** ** Taking a run of handler code apart *)

Lemma bind_inv {A B} (m : Py A) (f : A -> Py B) w r w' :
  (m ≫= f) w = (r, w') ->
  (exists t e, m w = (Exc t e, w') /\ r = Exc t e) \/
  (exists a w1, m w = (Val a, w1) /\ f a w1 = (r, w')).
Proof.
  unfold mbind, Py_bind. destruct (m w) as [[a|t e] w1]; intros Heq.
  - right. by exists a, w1.
  - left. injection Heq as <- <-. by exists t, e.
Qed.

Lemma bind_val_inv {A B} (m : Py A) (f : A -> Py B) w b w' :
  (m ≫= f) w = (Val b, w') ->
  exists a w1, m w = (Val a, w1) /\ f a w1 = (Val b, w').
Proof.
  intros [(t & e & _ & [=])|Hval]%bind_inv. exact Hval.
Qed.

Lemma try_inv {A} (m : Py A) h w r w' :
  try_except m h w = (r, w') ->
  (exists a, m w = (Val a, w') /\ r = Val a) \/
  (exists t e w1, m w = (Exc t e, w1) /\ h t e w1 = (r, w')).
Proof.
  unfold try_except. destruct (m w) as [[a|t e] w1]; intros Heq.
  - left. injection Heq as <- <-. by exists a.
  - right. by exists t, e, w1.
Qed.

(** The [except] clause of every handler but the evaluator's: log the
    line, raise again. *)
Lemma log_and_raise {A} line t e w r w' :
  (log line ≫= fun _ => @raise A t e) w = (r, w') ->
  r = Exc t e /\ w' = set_logs (logs w ++ [line]) w.
Proof. intros [= <- <-]. done. Qed.

Lemma never_returns_raise {A} t e : never_returns (@raise A t e).
Proof. intros w a w'. discriminate. Qed.

Lemma never_returns_bind_l {A B} (m : Py A) (f : A -> Py B) :
  never_returns m -> never_returns (m ≫= f).
Proof.
  intros Hm w b w' (a & w1 & Hval & _)%bind_val_inv. by apply Hm in Hval.
Qed.

Lemma never_returns_bind_r {A B} (m : Py A) (f : A -> Py B) :
  (forall a, never_returns (f a)) -> never_returns (m ≫= f).
Proof.
  intros Hf w b w' (a & w1 & _ & Hval)%bind_val_inv. by apply Hf in Hval.
Qed.

Lemma never_returns_try {A} (m : Py A) h :
  never_returns m -> (forall t e, never_returns (h t e)) ->
  never_returns (try_except m h).
Proof.
  intros Hm Hh w a w' [(a' & Hval & _)|(t & e & w1 & _ & Hval)]%try_inv.
  - by apply Hm in Hval.
  - by apply Hh in Hval.
Qed.

Lemma preserves_s3_get R `{!Frame R} b k : preserves R (s3_get_object b k).
Proof.
  unfold s3_get_object.
  apply preserves_bind;
    [apply _
    | destruct b; first [apply preserves_ret, _ | apply preserves_raise, _] |].
  intros b'.
  apply preserves_bind; [apply _ | apply preserves_param_str, _ |]. intros k'.
  apply preserves_bind; [apply _ | apply preserves_aws_call, _ |]. intros _.
  apply preserves_bind; [apply _ | apply preserves_get_world, _ |]. intros w'.
  destruct (s3_find b' k' (objects w'));
    [apply preserves_ret, _ | apply preserves_raise, _].
Qed.

Section Extractor.
Context `{PyJson}.

(** The lines of Agent0 up to its first set display. *)
Lemma agent0_body_raises event :
  let bucket := dict_get "brief_bucket" JNull event in
  let key := dict_get "brief_key" JNull event in
  agent0_lambda_handler event =
  try_except
    (brief ← (if truthy bucket && truthy key then
                brief_text ← s3_get_object bucket key;
                if strip_startswith_brace brief_text
                then py_json_loads brief_text
                else mret (JObj [("raw_text", JStr brief_text)])
              else mret (dict_get "brief" (JObj []) event));
     campaign_id ← py_get brief "campaign_id" (JStr "UNKNOWN");
     raise "TypeError" "unhashable type: 'dict'")
    (fun etype emsg =>
       log "Error in Agent0 extraction: {e}";;
       raise etype emsg).
Proof. reflexivity. Qed.

Lemma extractor_raises event w :
  exists t e w',
    agent0_lambda_handler event w = (Exc t e, w') /\
    same_stores w w' /\
    last (logs w') = Some "Error in Agent0 extraction: {e}".
Proof.
  rewrite agent0_body_raises. cbv zeta.
  match goal with
  | |- context [try_except ?m ?h] => set (body := m); set (handler := h)
  end.
  assert (Hquiet : preserves same_stores body).
  { subst body.
    apply preserves_bind; [apply _ | | intros brief].
    - destruct (truthy _ && truthy _); [|apply preserves_ret, _].
      apply preserves_bind; [apply _ | apply preserves_s3_get, _ |].
      intros text. destruct (strip_startswith_brace text);
        [apply preserves_json_loads, _ | apply preserves_ret, _].
    - apply preserves_bind; [apply _ | apply preserves_py_get, _ |].
      intros cid. apply preserves_raise, _. }
  assert (Hnever : never_returns body).
  { subst body. apply never_returns_bind_r. intros brief.
    apply never_returns_bind_r. intros cid. apply never_returns_raise. }
  specialize (Hquiet w). unfold try_except.
  destruct (body w) as [[a|t e] w1] eqn:Hbody.
  - by apply Hnever in Hbody.
  - exists t, e, (set_logs (logs w1 ++ ["Error in Agent0 extraction: {e}"]) w1).
    split; [reflexivity|]. split.
    + cbn [snd] in Hquiet. destruct Hquiet as (Ht & Ho & Htp). done.
    + cbn [logs set_logs]. apply last_snoc.
Qed.

End Extractor.

(** X1.  Agent0 returns on no event at all: whether the brief comes
    from S3, from the event or from nowhere, the handler raises; it
    leaves the table, the buckets and the topic as they were, and the
    line it logs is the literal text of its f-string, without the
    error. *)
Theorem X1_extractor_never_returns `{PyJson} event w :
  exists t e w',
    agent0_lambda_handler event w = (Exc t e, w') /\
    same_stores w w' /\
    last (logs w') = Some "Error in Agent0 extraction: {e}".
Proof. apply extractor_raises. Qed.

(** ** The deployed workflow *)

Lemma sdk_publish_keeps payload w :
  table (sdk_sns_publish payload w).2 = table w /\
  objects (sdk_sns_publish payload w).2 = objects w.
Proof.
  unfold sdk_sns_publish.
  destruct (dict_lookup "Message" payload) as [[| | |m| |]|]; try done.
  destruct (dict_lookup "Subject" payload) as [[| | |s| |]|]; try done.
  unfold sns_publish, mbind, Py_bind.
  pose proof (preserves_aws_call same_stores w) as (Ht & Ho & _).
  destruct (aws_call w) as [[mid|t e] w1]; cbn [fst snd] in *; done.
Qed.

(** A notification state leaves the table and the buckets alone. *)
Lemma exec_notify_keeps lambdas tx n f name st input w :
  states_of tx n !! name = Some st ->
  resource st = SnsPublish -> retry st = [] -> catch st = [] ->
  transition st = End ->
  let ex := exec lambdas (states_of tx n) (S f) name input w in
  table (final ex) = table w /\ objects (final ex) = objects w.
Proof.
  intros Hst Hres Hretry Hcatch Hend. cbn [exec]. rewrite Hst.
  destruct (eval_parameters (parameters st) input) as [payload|]; [|done].
  unfold run_task_state, retry_budget. rewrite Hretry.
  cbn [foldr length replicate run_task]. rewrite Hres.
  cbn [call_resource].
  pose proof (sdk_publish_keeps payload w) as Hkeep.
  destruct (sdk_sns_publish payload w) as [[out|e c] w1]; cbn [snd] in Hkeep.
  - by rewrite Hend.
  - by rewrite Hretry, Hcatch.
Qed.

Lemma exec_failure_notify_keeps lambdas tx n f input w :
  let ex := exec lambdas (states_of tx n) (S f) "FailureNotify" input w in
  table (final ex) = table w /\ objects (final ex) = objects w.
Proof. by eapply exec_notify_keeps; [apply lookup_failure_notify|..]. Qed.

Lemma exec_notify_success_keeps lambdas tx n f input w :
  let ex := exec lambdas (states_of tx n) (S f) "NotifySuccess" input w in
  table (final ex) = table w /\ objects (final ex) = objects w.
Proof. by eapply exec_notify_keeps; [apply lookup_notify_success|..]. Qed.

Section Deployed.
Context `{PyJson}.

Lemma invoke_extractor_fails p w :
  is_ok (invoke_lambda agent_codes 0 p w).1 = false /\
  same_stores w (invoke_lambda agent_codes 0 p w).2.
Proof.
  unfold invoke_lambda. cbn [agent_codes lookup list_lookup].
  unfold run_handler.
  pose proof (preserves_next_reply same_stores w) as Hr.
  destruct (next_reply w) as [[[b|t e]|t e] w1]; cbn [snd] in Hr; try done.
  destruct (extractor_raises p w1) as (t & e & w2 & -> & Hs & _).
  split; [done|]. by eapply frame_trans.
Qed.

Lemma run_task_extractor n p budget made w :
  is_ok (run_task agent_codes (agent_state n 0) p budget [made] w).1.1 = false /\
  same_stores w (run_task agent_codes (agent_state n 0) p budget [made] w).2.
Proof.
  revert made w. induction budget as [|budget IH]; intros made w;
    rewrite run_task_agent;
    destruct (invoke_extractor_fails p w) as [Hfail Hsame];
    destruct (invoke_lambda agent_codes 0 p w) as [[out|e c] w1];
    cbn [fst snd is_ok] in *; try done.
  destruct (transient e && (made <? max_attempts agent_retry)%nat); [|done].
  destruct (IH (S made) w1) as [IHf IHs].
  destruct (run_task _ _ _ _ _ _) as [[r' evs] w2]. cbn [fst snd] in *.
  split; [done|]. by eapply frame_trans.
Qed.

End Deployed.

(** X2.  No execution of the six deployed agents reaches
    NotifySuccess, whatever its input and whatever the services answer:
    Agent0 is the only agent ever invoked, it never returns, and the
    table and the buckets end as they began. *)
Theorem X2_deployed_workflow_never_succeeds `{PyJson} tx input w :
  let ex := start_execution agent_codes tx input w in
  ("NotifySuccess" ∉ entered (history ex)) /\
  completed (history ex) = [] /\
  Forall (fun j => j = 0%nat) (invoked (history ex)) /\
  table (final ex) = table w /\
  objects (final ex) = objects w.
Proof.
  intros ex. subst ex. unfold start_execution.
  cbn [workflow_of States StartAt agent_codes length Nat.add].
  change "Agent0Step" with (state_name 0).
  rewrite exec_agent by lia.
  assert (Hstop : forall s w0,
            let ex := after [Entered (state_name 0)] (stopped s w0) in
          ("NotifySuccess" ∉ entered (history ex)) /\
            completed (history ex) = [] /\
            Forall (fun j => j = 0%nat) (invoked (history ex)) /\
            table (final ex) = table w0 /\ objects (final ex) = objects w0).
  { intros s w0. cbn. repeat split; try done.
    intros Hin%list_elem_of_singleton. discriminate. }
  destruct input as [| | | | |d]; try apply Hstop.
  destruct (dict_lookup "campaign_id" d) as [c|]; [|apply Hstop].
  destruct (run_task_extractor 6 [("campaign_id", c)]
              (max_attempts agent_retry) 0 w) as [Hfail Hsame].
  destruct (run_task _ _ _ _ _ _) as [[r evs] w1] eqn:Hrun.
  apply run_task_attempts in Hrun; [|done].
  cbn [fst snd] in *. destruct r as [out|e ca]; [done|].
  pose proof (exec_failure_notify agent_codes tx 6 5
                (JObj (dict_set "error" (error_output e ca) d)) w1) as Hn.
  pose proof (exec_failure_notify_keeps agent_codes tx 6 5
                (JObj (dict_set "error" (error_output e ca) d)) w1) as Hk.
  cbv zeta in Hn, Hk. destruct Hk as [Hkt Hko].
  destruct Hsame as (Ht & Ho & _).
  cbn [after history final app].
  rewrite obs_cons_entered.
  change (completed (Entered (state_name 0) :: ?h)) with (completed h).
  change (invoked (Entered (state_name 0) :: ?h)) with (invoked h).
  unfold entered, completed, invoked. rewrite !omap_app.
  fold (entered evs) (completed evs) (invoked evs).
  fold (entered (history (exec agent_codes (states_of tx 6) 6 "FailureNotify"
          (JObj (dict_set "error" (error_output e ca) d)) w1))).
  fold (completed (history (exec agent_codes (states_of tx 6) 6 "FailureNotify"
          (JObj (dict_set "error" (error_output e ca) d)) w1))).
  fold (invoked (history (exec agent_codes (states_of tx 6) 6 "FailureNotify"
          (JObj (dict_set "error" (error_output e ca) d)) w1))).
  rewrite (attempts_entered _ _ _ _ _ Hrun), (notify_run_entered _ _ _ Hn),
    (attempts_completed _ _ _ _ _ Hrun), (notify_run_completed _ _ _ Hn),
    (notify_run_invoked _ _ _ Hn), !app_nil_r.
  cbn [is_ok app].
  split; [|split; [done|split; [by eapply attempts_invoked|split; congruence]]].
  intros [Hin|Hin%list_elem_of_singleton]%elem_of_cons; discriminate.
Qed.

(** ** What a handler has done when it returns *)

Lemma param_str_inv v w s w' :
  param_str v w = (Val s, w') -> v = JStr s /\ w' = w.
Proof. destruct v; intros [=]; subst; done. Qed.

Lemma put_item_inv cid s data w w' :
  dynamodb_put_item cid s data w = (Val tt, w') ->
  exists c d,
    cid = JStr c /\ data = JStr d /\
    table w' = table_put
                 {| item_campaign_id := c; item_step := s; item_data := d |}
                 (table w) /\
    objects w' = objects w /\ topic w' = topic w /\ logs w' = logs w.
Proof.
  unfold dynamodb_put_item.
  intros (c & w1 & [-> ->]%param_str_inv & Hrest)%bind_val_inv.
  apply bind_val_inv in Hrest as (d & w2 & [-> ->]%param_str_inv & Hrest).
  apply bind_val_inv in Hrest as (b & w3 & Hcall & Hmod).
  injection Hmod as <-. exists c, d.
  assert (Hw3 : same_stores w w3 /\ logs w3 = logs w).
  { unfold aws_call, mbind, Py_bind, next_reply in Hcall.
    destruct (script w) as [|[x|t e] rs]; cbn in Hcall;
      [injection Hcall as _ <- | injection Hcall as _ <- | discriminate];
      done. }
  destruct Hw3 as ((Ht & Ho & Htp) & Hl).
  cbn [table objects topic logs set_table]. rewrite Ht. done.
Qed.

Lemma s3_put_inv b k body w w' :
  s3_put_object b k body w = (Val tt, w') ->
  exists d,
    body = JStr d /\ table w' = table w /\ topic w' = topic w /\
    objects w' = s3_store {| obj_bucket := b; obj_key := k; obj_body := d |}
                          (objects w).
Proof.
  unfold s3_put_object.
  intros (d & w1 & [-> ->]%param_str_inv & Hrest)%bind_val_inv.
  apply bind_val_inv in Hrest as (x & w3 & Hcall & Hmod).
  injection Hmod as <-. exists d.
  pose proof (preserves_aws_call same_stores w) as Hp.
  rewrite Hcall in Hp. cbn [snd] in Hp. destruct Hp as (Ht & Ho & Htp).
  cbn [table objects topic set_objects]. rewrite Ho. done.
Qed.

Lemma sns_publish_inv m subj w mid w' :
  sns_publish m subj w = (Val mid, w') ->
  table w' = table w /\ objects w' = objects w /\
  topic w' = topic w ++ [{| msg_subject := subj; msg_text := m |}].
Proof.
  unfold sns_publish.
  intros (x & w1 & Hcall & Hrest)%bind_val_inv.
  apply bind_val_inv in Hrest as ([] & w2 & Hmod & [= <- <-]).
  injection Hmod as <-.
  pose proof (preserves_aws_call same_stores w) as Hp.
  rewrite Hcall in Hp. cbn [snd] in Hp. destruct Hp as (Ht & Ho & Htp).
  cbn [table objects topic set_topic]. rewrite Htp. done.
Qed.

Lemma s3_store_find b k d os :
  s3_find b k (s3_store {| obj_bucket := b; obj_key := k; obj_body := d |} os)
  = Some {| obj_bucket := b; obj_key := k; obj_body := d |}.
Proof.
  unfold s3_find, s3_store. cbn [obj_bucket obj_key].
  induction os as [|o os IH]; cbn.
  - by rewrite !String.eqb_refl.
  - destruct (String.eqb (obj_bucket o) b && String.eqb (obj_key o) k) eqn:Ho;
      cbn; rewrite ?Ho; done.
Qed.

Lemma str_take_chars n s :
  utf8_chars (str_take n s) = Nat.min n (utf8_chars s).
Proof.
  revert n. induction s as [|a s IH]; intros n; cbn; [by destruct n|].
  destruct (utf8_continuation a) eqn:Ha; cbn; rewrite ?Ha.
  - apply IH.
  - destruct n as [|n]; cbn; rewrite ?Ha; [done|]. by rewrite IH.
Qed.

Lemma str_take_all n s : (utf8_chars s <= n)%nat -> str_take n s = s.
Proof.
  revert n. induction s as [|a s IH]; intros n; cbn; [done|].
  destruct (utf8_continuation a); intros Hle.
  - by rewrite IH.
  - destruct n as [|n]; [lia|]. rewrite IH; [done | lia].
Qed.

Lemma str_take_prefix n s : exists rest, s = str_take n s +:+ rest.
Proof.
  revert n. induction s as [|a s IH]; intros n; cbn; [by exists ""|].
  destruct (utf8_continuation a).
  - destruct (IH n) as [rest Hrest]. exists rest.
    exact (f_equal (String a) Hrest).
  - destruct n as [|n]; [by exists (String a s)|].
    destruct (IH n) as [rest Hrest]. exists rest.
    exact (f_equal (String a) Hrest).
Qed.

(** Takes a returning run of a handler apart, one bound call after the
    other, down to the value returned. *)
Ltac returned Hrun :=
  apply try_inv in Hrun
    as [(? & Hrun & [= <-])
       |(? & ? & ? & _ & Hrun)];
  [ repeat (apply bind_val_inv in Hrun as (? & ? & ? & Hrun))
  | repeat (apply bind_val_inv in Hrun as (? & ? & _ & Hrun));
    discriminate Hrun ].

Section Returned.
Context `{PyJson}.

Ltac put_returned :=
  match goal with
  | Hp : dynamodb_put_item _ _ _ _ = (Val ?u, _) |- _ =>
      let Hc := fresh "Hc" in
      destruct u;
      destruct (put_item_inv _ _ _ _ _ Hp) as (? & ? & Hc & -> & ? & ? & ? & ?);
      unfold event_campaign_id; rewrite Hc in *
  end.

Lemma agent1_returned event w out w' :
  agent1_lambda_handler event w = (Val out, w') ->
  exists c d,
    event_campaign_id event = JStr c /\
    out = JObj [("campaign_id", JStr c); ("interpretation", JStr d)] /\
    table_get c "business_context" (table w')
    = Some {| item_campaign_id := c; item_step := "business_context";
              item_data := d |}.
Proof.
  intros Hrun. unfold agent1_lambda_handler in Hrun. cbv zeta in Hrun.
  returned Hrun. put_returned. injection Hrun as <- <-.
  eexists _, _. split; [reflexivity|]. split; [reflexivity|].
  match goal with Ht : table _ = table_put _ _ |- _ => rewrite Ht end.
  apply table_put_get.
Qed.

Lemma agent2_returned event w out w' :
  agent2_lambda_handler event w = (Val out, w') ->
  exists c d,
    event_campaign_id event = JStr c /\
    out = JObj [("campaign_id", JStr c); ("plan", JStr d)] /\
    table_get c "campaign_plan" (table w')
    = Some {| item_campaign_id := c; item_step := "campaign_plan";
              item_data := d |}.
Proof.
  intros Hrun. unfold agent2_lambda_handler in Hrun. cbv zeta in Hrun.
  returned Hrun. put_returned. injection Hrun as <- <-.
  eexists _, _. split; [reflexivity|]. split; [reflexivity|].
  match goal with Ht : table _ = table_put _ _ |- _ => rewrite Ht end.
  apply table_put_get.
Qed.

Lemma agent3_returned event w out w' :
  agent3_lambda_handler event w = (Val out, w') ->
  exists c d,
    event_campaign_id event = JStr c /\
    out = JObj [("campaign_id", JStr c); ("content", JStr d)] /\
    table_get c "content_samples" (table w')
    = Some {| item_campaign_id := c; item_step := "content_samples";
              item_data := d |} /\
    objects w'
    = s3_store {| obj_bucket := ASSETS_BUCKET; obj_key := c +:+ "_content.txt";
                  obj_body := d |} (objects w).
Proof.
  intros Hrun. unfold agent3_lambda_handler in Hrun. cbv zeta in Hrun.
  returned Hrun.
  match goal with
  | Hg : agent3_generate ?cid w = (Val _, _) |- _ =>
      pose proof (agent3_generate_quiet same_stores cid w) as (_ & Hog & _);
      rewrite Hg in Hog; cbn [snd] in Hog
  end.
  put_returned.
  match goal with
  | Hs : s3_put_object _ _ _ _ = (Val ?u, _) |- _ =>
      destruct u;
      destruct (s3_put_inv _ _ _ _ _ Hs) as (? & [= <-] & Hts & _ & Hos)
  end.
  injection Hrun as <- <-.
  eexists _, _. split; [reflexivity|]. split; [reflexivity|]. split.
  - rewrite Hts.
    match goal with Ht : table _ = table_put _ _ |- _ => rewrite Ht end.
    apply table_put_get.
  - rewrite Hos. cbn [py_str]. congruence.
Qed.

Lemma agent4_returned event w out w' :
  agent4_lambda_handler event w = (Val out, w') ->
  exists c d,
    event_campaign_id event = JStr c /\
    out = JObj [("campaign_id", JStr c); ("strategy", JStr d)] /\
    table_get c "channel_strategy" (table w')
    = Some {| item_campaign_id := c; item_step := "channel_strategy";
              item_data := d |}.
Proof.
  intros Hrun. unfold agent4_lambda_handler in Hrun. cbv zeta in Hrun.
  returned Hrun. put_returned. injection Hrun as <- <-.
  eexists _, _. split; [reflexivity|]. split; [reflexivity|].
  match goal with Ht : table _ = table_put _ _ |- _ => rewrite Ht end.
  apply table_put_get.
Qed.

Lemma agent5_returned event w out w' :
  agent5_lambda_handler event w = (Val out, w') ->
  exists c d,
    event_campaign_id event = JStr c /\
    out = JObj [("campaign_id", JStr c); ("evaluation", JStr d)] /\
    table_get c "evaluation" (table w')
    = Some {| item_campaign_id := c; item_step := "evaluation";
              item_data := d |} /\
    topic w'
    = topic w ++ [{| msg_subject := "Campaign Plan Complete";
                     msg_text := "Campaign " +:+ c
                                 +:+ " planning complete. Summary: "
                                 +:+ str_take 200 d +:+ "..." |}].
Proof.
  intros Hrun. unfold agent5_lambda_handler in Hrun. cbv zeta in Hrun.
  returned Hrun.
  match goal with
  | Hg : agent5_evaluate ?cid w = (Val _, _) |- _ =>
      pose proof (agent5_evaluate_quiet same_stores cid w) as (_ & _ & Htg);
      rewrite Hg in Htg; cbn [snd] in Htg
  end.
  put_returned.
  match goal with
  | Hs : sns_publish _ _ _ = (Val _, _) |- _ =>
      destruct (sns_publish_inv _ _ _ _ _ Hs) as (Hts & _ & Htp)
  end.
  injection Hrun as <- <-.
  eexists _, _. split; [reflexivity|]. split; [reflexivity|]. split.
  - rewrite Hts.
    match goal with Ht : table _ = table_put _ _ |- _ => rewrite Ht end.
    apply table_put_get.
  - rewrite Htp. cbn [py_str]. congruence.
Qed.

End Returned.

(** X3.  Whatever the event and the world, when the handler of agent
    [i] returns, the campaign id of the event is a string [c], the value
    returned is the object with that id and one text under the agent's
    result field, and the table then holds that same text under
    [(c, step_i)]: a handler never returns a result it has not stored.
    (For the extractor the statement holds because it never returns.) *)
Theorem X3_returned_result_is_stored `{PyJson} i h step field event w out w' :
  agent_codes !! i = Some h ->
  step_names !! i = Some step ->
  result_fields !! i = Some field ->
  h event w = (Val out, w') ->
  exists c d,
    event_campaign_id event = JStr c /\
    out = JObj [("campaign_id", JStr c); (field, JStr d)] /\
    table_get c step (table w')
    = Some {| item_campaign_id := c; item_step := step; item_data := d |}.
Proof.
  intros Hh Hs Hf Hrun.
  destruct i as [|[|[|[|[|[|i]]]]]]; try discriminate;
    injection Hh as <-; injection Hs as <-; injection Hf as <-.
  - destruct (extractor_raises event w) as (t & e & w1 & Hexc & _).
    rewrite Hexc in Hrun. discriminate.
  - exact (agent1_returned event w out w' Hrun).
  - exact (agent2_returned event w out w' Hrun).
  - destruct (agent3_returned event w out w' Hrun) as (c & d & ? & ? & ? & _).
    by exists c, d.
  - exact (agent4_returned event w out w' Hrun).
  - destruct (agent5_returned event w out w' Hrun) as (c & d & ? & ? & ? & _).
    by exists c, d.
Qed.

Lemma X3_witness :
  let run := @agent2_lambda_handler json_fragment
               (campaign_event "CAMPAIGN123") empty_world in
  exists c d,
    event_campaign_id (campaign_event "CAMPAIGN123") = JStr c /\
    JObj [("campaign_id", JStr "CAMPAIGN123"); ("plan", JStr "{}")]
    = JObj [("campaign_id", JStr c); ("plan", JStr d)] /\
    table_get c "campaign_plan" (table run.2)
    = Some {| item_campaign_id := c; item_step := "campaign_plan";
              item_data := d |}.
Proof.
  intros run.
  apply (@X3_returned_result_is_stored json_fragment 2
           (@agent2_lambda_handler json_fragment) "campaign_plan" "plan"
           (campaign_event "CAMPAIGN123") empty_world);
    vm_compute; reflexivity.
Defined.

(** X4.  When the content generator returns, the asset
    [{campaign_id}_content.txt] of the assets bucket and the
    content_samples record hold the same text, the one returned; no
    other object of S3 has changed. *)
Theorem X4_asset_matches_record `{PyJson} event w out w' :
  agent3_lambda_handler event w = (Val out, w') ->
  exists c d,
    out = JObj [("campaign_id", JStr c); ("content", JStr d)] /\
    item_data <$> table_get c "content_samples" (table w') = Some d /\
    obj_body <$> s3_find ASSETS_BUCKET (c +:+ "_content.txt") (objects w')
    = Some d /\
    objects w'
    = s3_store {| obj_bucket := ASSETS_BUCKET; obj_key := c +:+ "_content.txt";
                  obj_body := d |} (objects w).
Proof.
  intros Hrun.
  destruct (agent3_returned event w out w' Hrun) as (c & d & _ & -> & Ht & Ho).
  exists c, d. split; [done|]. split; [by rewrite Ht|]. split; [|done].
  rewrite Ho.
  by rewrite s3_store_find.
Qed.

Lemma X4_witness :
  let run := @agent3_lambda_handler json_fragment
               (campaign_event "CAMPAIGN123") empty_world in
  exists c d,
    JObj [("campaign_id", JStr "CAMPAIGN123"); ("content", JStr "{}")]
    = JObj [("campaign_id", JStr c); ("content", JStr d)] /\
    item_data <$> table_get c "content_samples" (table run.2) = Some d /\
    obj_body <$> s3_find ASSETS_BUCKET (c +:+ "_content.txt") (objects run.2)
    = Some d /\
    objects run.2
    = s3_store {| obj_bucket := ASSETS_BUCKET; obj_key := c +:+ "_content.txt";
                  obj_body := d |} (objects empty_world).
Proof.
  intros run.
  apply (@X4_asset_matches_record json_fragment (campaign_event "CAMPAIGN123")
           empty_world).
  vm_compute. reflexivity.
Defined.

(** X5.  When the evaluator returns it has published exactly one
    message, the last of the topic, whose subject is
    "Campaign Plan Complete" and whose text quotes the beginning of the
    evaluation it stored and returned: its first 200 characters, or all
    of it when it has no more. *)
Theorem X5_evaluator_publishes_summary `{PyJson} event w out w' :
  agent5_lambda_handler event w = (Val out, w') ->
  exists c d summary rest,
    out = JObj [("campaign_id", JStr c); ("evaluation", JStr d)] /\
    topic w'
    = topic w ++ [{| msg_subject := "Campaign Plan Complete";
                     msg_text := "Campaign " +:+ c
                                 +:+ " planning complete. Summary: "
                                 +:+ summary +:+ "..." |}] /\
    d = summary +:+ rest /\
    utf8_chars summary = Nat.min 200 (utf8_chars d) /\
    ((utf8_chars d <= 200)%nat -> summary = d).
Proof.
  intros Hrun.
  destruct (agent5_returned event w out w' Hrun) as (c & d & _ & -> & _ & Htp).
  destruct (str_take_prefix 200 d) as [rest Hrest].
  exists c, d, (str_take 200 d), rest. split; [done|]. split; [done|].
  split; [done|]. split.
  - apply str_take_chars.
  - apply str_take_all.
Qed.

Lemma X5_witness :
  let run := @agent5_lambda_handler json_fragment
               (campaign_event "CAMPAIGN123") empty_world in
  exists c d summary rest,
    JObj [("campaign_id", JStr "CAMPAIGN123"); ("evaluation", JStr "{}")]
    = JObj [("campaign_id", JStr c); ("evaluation", JStr d)] /\
    topic run.2
    = topic empty_world
      ++ [{| msg_subject := "Campaign Plan Complete";
             msg_text := "Campaign " +:+ c
                         +:+ " planning complete. Summary: "
                         +:+ summary +:+ "..." |}] /\
    d = summary +:+ rest /\
    utf8_chars summary = Nat.min 200 (utf8_chars d) /\
    ((utf8_chars d <= 200)%nat -> summary = d).
Proof.
  intros run.
  apply (@X5_evaluator_publishes_summary json_fragment
           (campaign_event "CAMPAIGN123") empty_world).
  vm_compute. reflexivity.
Defined.

(** ** Handlers that raise *)

Lemma preserves_run {A} R (m : Py A) w r w' :
  preserves R m -> m w = (r, w') -> R w w'.
Proof. intros Hm Hrun. specialize (Hm w). by rewrite Hrun in Hm. Qed.

Lemma fails_clean_quiet {A} (m : Py A) :
  preserves same_stores m -> fails_clean m.
Proof. intros Hm w t e w' Hrun. by eapply preserves_run. Qed.

Lemma fails_clean_bind {A B} (m : Py A) (f : A -> Py B) :
  preserves same_stores m -> (forall a, fails_clean (f a)) ->
  fails_clean (m ≫= f).
Proof.
  intros Hm Hf w t e w' [(t' & e' & Hrun & _)|(a & w1 & Hrun & Hrest)]%bind_inv.
  - by eapply preserves_run.
  - eapply frame_trans; [by eapply preserves_run | by eapply Hf].
Qed.

Lemma fails_clean_try {A} (m : Py A) h :
  fails_clean m -> (forall t e, preserves same_stores (h t e)) ->
  fails_clean (try_except m h).
Proof.
  intros Hm Hh w t e w' [(a & _ & [=])|(t' & e' & w1 & Hrun & Hrest)]%try_inv.
  eapply frame_trans; [by eapply Hm | by eapply preserves_run].
Qed.

Lemma aws_call_run w r w' :
  aws_call w = (r, w') -> same_stores w w' /\ logs w' = logs w.
Proof.
  unfold aws_call, next_reply, mbind, Py_bind.
  destruct (script w) as [|[b|t e] rs]; intros [= <- <-]; done.
Qed.

Lemma param_str_raised v w t e w' :
  param_str v w = (Exc t e, w') ->
  (forall c, v <> JStr c) /\ w' = w /\ t = "ParamValidationError".
Proof. destruct v; intros [= <- <- <-]; done. Qed.

Lemma put_item_raised cid s data w t e w' :
  dynamodb_put_item cid s data w = (Exc t e, w') ->
  same_stores w w' /\ logs w' = logs w.
Proof.
  unfold dynamodb_put_item.
  intros [(? & ? & Hc & _)|(c & w1 & Hc & Hrest)]%bind_inv.
  { by apply param_str_raised in Hc as (_ & -> & _). }
  apply param_str_inv in Hc as [-> ->].
  apply bind_inv in Hrest as [(? & ? & Hd & _)|(d & w2 & Hd & Hrest)].
  { by apply param_str_raised in Hd as (_ & -> & _). }
  apply param_str_inv in Hd as [-> ->].
  apply bind_inv in Hrest as [(? & ? & Hcall & _)|(b & w3 & _ & [=])].
  by apply aws_call_run in Hcall.
Qed.

Lemma sns_publish_raised m subj w t e w' :
  sns_publish m subj w = (Exc t e, w') ->
  same_stores w w' /\ logs w' = logs w.
Proof.
  unfold sns_publish.
  intros [(? & ? & Hcall & _)|(b & w1 & _ & Hrest)]%bind_inv.
  - by apply aws_call_run in Hcall.
  - apply bind_inv in Hrest as [(? & ? & [=] & _)|(? & ? & _ & [=])].
Qed.

Lemma sns_publish_logs m subj w mid w' :
  sns_publish m subj w = (Val mid, w') -> logs w' = logs w.
Proof.
  unfold sns_publish.
  intros (x & w1 & Hcall & Hrest)%bind_val_inv.
  apply bind_val_inv in Hrest as ([] & w2 & Hmod & [= <- <-]).
  injection Hmod as <-. apply aws_call_run in Hcall as [_ Hl].
  cbn [logs set_topic]. done.
Qed.

(** The write to the table as the last thing a handler does. *)
Lemma fails_clean_put_ret {A} cid s data (a : A) :
  fails_clean (dynamodb_put_item cid s data ≫= fun _ => mret a).
Proof.
  intros w t e w' [(? & ? & Hput & _)|(? & ? & _ & [=])]%bind_inv.
  by apply put_item_raised in Hput as [Hs _].
Qed.

Ltac clean_step :=
  first [ apply fails_clean_put_ret
        | apply fails_clean_bind; [solve [frame] | intros ?] ].

Section Raising.
Context `{PyJson}.

Lemma agent1_fails_clean event : fails_clean (agent1_lambda_handler event).
Proof.
  unfold agent1_lambda_handler. cbv zeta.
  apply fails_clean_try; [|intros; frame]. repeat clean_step.
Qed.

Lemma agent2_fails_clean event : fails_clean (agent2_lambda_handler event).
Proof.
  unfold agent2_lambda_handler. cbv zeta.
  apply fails_clean_try; [|intros; frame]. repeat clean_step.
Qed.

Lemma agent4_fails_clean event : fails_clean (agent4_lambda_handler event).
Proof.
  unfold agent4_lambda_handler. cbv zeta.
  apply fails_clean_try; [|intros; frame]. repeat clean_step.
Qed.

End Raising.

(** X6.  The extractor, the interpreter, the planner and the channel
    strategist write to the table as their last action: when one of them
    raises, on whatever event and world, the table, the S3 objects and
    the topic are exactly as they were before the invocation. *)
Theorem X6_failed_step_writes_nothing `{PyJson} i h event w t e w' :
  (i = 0 \/ i = 1 \/ i = 2 \/ i = 4)%nat ->
  agent_codes !! i = Some h ->
  h event w = (Exc t e, w') ->
  table w' = table w /\ objects w' = objects w /\ topic w' = topic w.
Proof.
  intros Hi Hh Hrun.
  destruct Hi as [->|[->|[->| ->]]]; injection Hh as <-.
  - destruct (extractor_raises event w) as (t1 & e1 & w1 & Hexc & Hs & _).
    rewrite Hexc in Hrun. by injection Hrun as _ _ <-.
  - exact (agent1_fails_clean event w t e w' Hrun).
  - exact (agent2_fails_clean event w t e w' Hrun).
  - exact (agent4_fails_clean event w t e w' Hrun).
Qed.

Lemma X6_witness :
  let w := set_script
             [Ok "{}"; Err "ThrottlingException" "Too many requests"]
             empty_world in
  let run := @agent1_lambda_handler json_fragment
               (campaign_event "CAMPAIGN123") w in
  table run.2 = table w /\ objects run.2 = objects w /\ topic run.2 = topic w.
Proof.
  intros w run.
  apply (@X6_failed_step_writes_nothing json_fragment 1
           (@agent1_lambda_handler json_fragment)
           (campaign_event "CAMPAIGN123") w
           "ThrottlingException" "Too many requests").
  - right. left. reflexivity.
  - reflexivity.
  - vm_compute. reflexivity.
Defined.

(** The [except] clause of the handlers 1 to 4, seen from outside. *)
Lemma try_log_raised {A} (m : Py A) (line : string -> string) w t e w' :
  try_except m (fun t e => log (line e);; raise t e) w = (Exc t e, w') ->
  exists w1, m w = (Exc t e, w1) /\ w' = set_logs (logs w1 ++ [line e]) w1.
Proof.
  intros [(a & _ & [=])|(t' & e' & w1 & Hrun & Hh)]%try_inv.
  apply log_and_raise in Hh as [[= <- <-] ->]. by exists w1.
Qed.

(** X7.  When the content generator raises, no asset has been written
    and nothing has been published; the table is as it was, or it has
    gained the content_samples record of the event's campaign, which is
    the case of a write to S3 that failed after the record was put. *)
Theorem X7_failed_content_step_leaves_no_asset `{PyJson} event w t e w' :
  agent3_lambda_handler event w = (Exc t e, w') ->
  objects w' = objects w /\ topic w' = topic w /\
  (table w' = table w \/
   exists c d,
     event_campaign_id event = JStr c /\
     table w' = table_put {| item_campaign_id := c;
                             item_step := "content_samples";
                             item_data := d |} (table w)).
Proof.
  unfold agent3_lambda_handler. cbv zeta.
  intros (w1 & Hbody & ->)%(try_log_raised _
    (fun e => "Error in Agent3 content generation: " +:+ e)).
  cbn [table objects topic set_logs].
  apply bind_inv in Hbody as [(? & ? & Hgen & _)|(content & w2 & Hgen & Hrest)].
  { apply (preserves_run same_stores) in Hgen as (Ht & Ho & Htp);
      [|apply agent3_generate_quiet, _]. auto. }
  apply (preserves_run same_stores) in Hgen as (Ht & Ho & Htp);
    [|apply agent3_generate_quiet, _].
  apply bind_inv in Hrest as [(? & ? & Hput & _)|([] & w3 & Hput & Hrest)].
  { apply put_item_raised in Hput as [(Ht' & Ho' & Htp') _].
    split; [congruence|]. split; [congruence|]. left. congruence. }
  apply put_item_inv in Hput as (c & d & Hc & -> & Ht' & Ho' & Htp' & _).
  apply bind_inv in Hrest as [(? & ? & Hs3 & _)|(? & ? & _ & [=])].
  apply s3_put_raises in Hs3 as (Ht3 & Ho3 & Htp3).
  split; [congruence|]. split; [congruence|]. right. exists c, d.
  split; [exact Hc|]. congruence.
Qed.

Lemma X7_witness :
  let run := @agent3_lambda_handler json_fragment
               (campaign_event "CAMPAIGN123") assets_denied in
  objects run.2 = objects assets_denied /\
  topic run.2 = topic assets_denied /\
  (table run.2 = table assets_denied \/
   exists c d,
     event_campaign_id (campaign_event "CAMPAIGN123") = JStr c /\
     table run.2 = table_put {| item_campaign_id := c;
                                item_step := "content_samples";
                                item_data := d |} (table assets_denied)).
Proof.
  intros run.
  apply (@X7_failed_content_step_leaves_no_asset json_fragment
           (campaign_event "CAMPAIGN123") assets_denied
           "AccessDenied" "Access Denied").
  vm_compute. reflexivity.
Defined.

(** What a raising run of the evaluator has done: its body raised
    [(t0, e0)], the handler logged [e0] and tried to publish the failure
    notice; the notice went out and [(t0, e0)] is raised again, or the
    publish raised and its exception is the one that leaves the
    handler. *)
Lemma evaluator_raised `{PyJson} event w t e w' :
  agent5_lambda_handler event w = (Exc t e, w') ->
  let cid := event_campaign_id event in
  let body :=
    evaluation ← agent5_evaluate cid;
    dynamodb_put_item cid "evaluation" evaluation;;
    sns_publish
      ("Campaign " +:+ py_str cid +:+ " planning complete. Summary: "
       +:+ str_take 200 (py_str evaluation) +:+ "...")
      "Campaign Plan Complete";;
    mret (JObj [("campaign_id", cid); ("evaluation", evaluation)]) in
  exists t0 e0 w1,
    body w = (Exc t0 e0, w1) /\
    objects w1 = objects w /\ topic w1 = topic w /\
    (table w1 = table w \/
     exists c d,
       cid = JStr c /\
       table w1 = table_put {| item_campaign_id := c; item_step := "evaluation";
                               item_data := d |} (table w)) /\
    let text := "Campaign " +:+ py_str cid +:+ " failed at evaluation step: "
                +:+ e0 in
    let w2 := set_logs (logs w1 ++ ["Error in Agent5 evaluation: " +:+ e0]) w1 in
    ((exists mid,
        sns_publish text "Campaign Plan Failed" w2 = (Val mid, w') /\
        t = t0 /\ e = e0) \/
     sns_publish text "Campaign Plan Failed" w2 = (Exc t e, w')).
Proof.
  unfold agent5_lambda_handler, event_campaign_id. cbv zeta.
  intros [(a & _ & [=])|(t0 & e0 & w1 & Hbody & Hh)]%try_inv.
  exists t0, e0, w1. split; [exact Hbody|].
  assert (Hquiet : objects w1 = objects w /\ topic w1 = topic w /\
            (table w1 = table w \/
             exists c d,
               dict_get "campaign_id" JNull event = JStr c /\
               table w1 = table_put {| item_campaign_id := c;
                                       item_step := "evaluation";
                                       item_data := d |} (table w))).
  { apply bind_inv in Hbody
      as [(? & ? & Hev & _)|(evaluation & w2 & Hev & Hrest)].
    { apply (preserves_run same_stores) in Hev as (Ht & Ho & Htp);
        [|apply agent5_evaluate_quiet, _]. auto. }
    apply (preserves_run same_stores) in Hev as (Ht & Ho & Htp);
      [|apply agent5_evaluate_quiet, _].
    apply bind_inv in Hrest as [(? & ? & Hput & _)|([] & w3 & Hput & Hrest)].
    { apply put_item_raised in Hput as [(Ht' & Ho' & Htp') _].
      split; [congruence|]. split; [congruence|]. left. congruence. }
    apply put_item_inv in Hput as (c & d & Hc & -> & Ht' & Ho' & Htp' & _).
    apply bind_inv in Hrest as [(? & ? & Hpub & _)|(? & ? & _ & [=])].
    apply sns_publish_raised in Hpub as [(Ht3 & Ho3 & Htp3) _].
    split; [congruence|]. split; [congruence|]. right. exists c, d.
    split; [exact Hc|]. congruence. }
  destruct Hquiet as (Ho & Htp & Ht). split; [exact Ho|]. split; [exact Htp|].
  split; [exact Ht|].
  apply bind_inv in Hh as [(? & ? & [=] & _)|([] & w2 & [= <-] & Hh)].
  apply bind_inv in Hh as [(? & ? & Hpub & [= <- <-])|(mid & w3 & Hpub & Hh)].
  - by right.
  - injection Hh as <- <- <-. left. by exists mid.
Qed.

(** X8.  When the evaluator raises, its body has raised an error
    [(t0, e0)], which the handler has logged, and the handler has tried
    to publish a "Campaign Plan Failed" notice carrying [e0].  Either
    that publish went through: the notice is the one message added to
    the topic and the error raised is [(t0, e0)]; or the publish itself
    raised: the topic is as it was and the exception that leaves the
    handler is that of the publish, [(t0, e0)] surviving in the log
    only.  In both cases no "Campaign Plan Complete" message was
    published and S3 is untouched. *)
Theorem X8_failed_evaluation_is_announced `{PyJson} event w t e w' :
  agent5_lambda_handler event w = (Exc t e, w') ->
  let cid := event_campaign_id event in
  let body :=
    evaluation ← agent5_evaluate cid;
    dynamodb_put_item cid "evaluation" evaluation;;
    sns_publish
      ("Campaign " +:+ py_str cid +:+ " planning complete. Summary: "
       +:+ str_take 200 (py_str evaluation) +:+ "...")
      "Campaign Plan Complete";;
    mret (JObj [("campaign_id", cid); ("evaluation", evaluation)]) in
  exists t0 e0 w1,
    body w = (Exc t0 e0, w1) /\
    last (logs w') = Some ("Error in Agent5 evaluation: " +:+ e0) /\
    objects w' = objects w /\
    let text := "Campaign " +:+ py_str cid +:+ " failed at evaluation step: "
                +:+ e0 in
    let w2 := set_logs (logs w1 ++ ["Error in Agent5 evaluation: " +:+ e0]) w1 in
    ((exists mid,
        sns_publish text "Campaign Plan Failed" w2 = (Val mid, w') /\
        t = t0 /\ e = e0 /\
        topic w' = topic w ++ [{| msg_subject := "Campaign Plan Failed";
                                  msg_text := text |}]) \/
     (sns_publish text "Campaign Plan Failed" w2 = (Exc t e, w') /\
      topic w' = topic w)).
Proof.
  intros Hrun cid body.
  destruct (evaluator_raised event w t e w' Hrun)
    as (t0 & e0 & w1 & Hbody & Ho & Htp & _ & Hpub).
  exists t0, e0, w1. split; [exact Hbody|]. cbv zeta in Hpub |- *.
  destruct Hpub as [(mid & Hpub & -> & ->)|Hpub].
  - pose proof (sns_publish_logs _ _ _ _ _ Hpub) as Hl.
    pose proof (sns_publish_inv _ _ _ _ _ Hpub) as (_ & Ho3 & Htp3).
    cbn [objects topic logs set_logs] in Hl, Ho3, Htp3.
    rewrite Hl, last_snoc. split; [done|]. split; [congruence|].
    left. exists mid. split; [exact Hpub|]. split; [done|]. split; [done|].
    rewrite Htp3. by rewrite Htp.
  - pose proof (sns_publish_raised _ _ _ _ _ _ Hpub) as [(_ & Ho3 & Htp3) Hl].
    cbn [objects topic logs set_logs] in Hl, Ho3, Htp3.
    rewrite Hl, last_snoc. split; [done|]. split; [congruence|].
    right. split; [exact Hpub|]. congruence.
Qed.

Lemma X8_witness :
  let event := campaign_event "CAMPAIGN123" in
  let w :=
    set_script
      [Ok "{}"; Ok "{}"; Ok "{}";
       Err "ThrottlingException" "Too many requests";
       Err "AuthorizationErrorException" "Not authorized to publish"]
      empty_world in
  let w' :=
    set_logs ["Error in Agent5 evaluation: Too many requests"] empty_world in
  let cid := @event_campaign_id event in
  let body :=
    evaluation ← @agent5_evaluate json_fragment cid;
    dynamodb_put_item cid "evaluation" evaluation;;
    sns_publish
      ("Campaign " +:+ @py_str json_fragment cid
       +:+ " planning complete. Summary: "
       +:+ str_take 200 (@py_str json_fragment evaluation) +:+ "...")
      "Campaign Plan Complete";;
    mret (JObj [("campaign_id", cid); ("evaluation", evaluation)]) in
  exists t0 e0 w1,
    body w = (Exc t0 e0, w1) /\
    last (logs w') = Some ("Error in Agent5 evaluation: " +:+ e0) /\
    objects w' = objects w /\
    let text := "Campaign " +:+ @py_str json_fragment cid
                +:+ " failed at evaluation step: " +:+ e0 in
    let w2 := set_logs (logs w1 ++ ["Error in Agent5 evaluation: " +:+ e0]) w1 in
    ((exists mid,
        sns_publish text "Campaign Plan Failed" w2 = (Val mid, w') /\
        "AuthorizationErrorException" = t0 /\
        "Not authorized to publish" = e0 /\
        topic w' = topic w ++ [{| msg_subject := "Campaign Plan Failed";
                                  msg_text := text |}]) \/
     (sns_publish text "Campaign Plan Failed" w2
      = (Exc "AuthorizationErrorException" "Not authorized to publish", w') /\
      topic w' = topic w)).
Proof.
  intros event w w' cid body.
  apply (@X8_failed_evaluation_is_announced json_fragment event w
           "AuthorizationErrorException" "Not authorized to publish" w').
  vm_compute. reflexivity.
Defined.

(** X9.  The handlers 1 to 4 log the message of the exception they
    raise: whenever one of them raises [e], the last line of the log is
    its prefix followed by [e], and writing that line is the last thing
    the handler did.  (The extractor logs the literal text [{e}]
    instead, and the evaluator may raise another error than the one it
    logged.) *)
Theorem X9_raised_error_is_logged `{PyJson} i h prefix event w t e w' :
  (1 <= i <= 4)%nat ->
  agent_codes !! i = Some h ->
  error_prefixes !! i = Some prefix ->
  h event w = (Exc t e, w') ->
  exists w1, w' = set_logs (logs w1 ++ [prefix +:+ e]) w1 /\
             last (logs w') = Some (prefix +:+ e).
Proof.
  intros Hi Hh Hp Hrun.
  destruct i as [|[|[|[|[|i]]]]]; try lia;
    injection Hh as <-; injection Hp as <-;
    [ unfold agent1_lambda_handler in Hrun
    | unfold agent2_lambda_handler in Hrun
    | unfold agent3_lambda_handler in Hrun
    | unfold agent4_lambda_handler in Hrun ];
    cbv zeta in Hrun;
    match type of Hrun with
    | try_except _ (fun _ emsg => log (?p +:+ emsg);; _) _ = _ =>
        apply (try_log_raised _ (fun e => p +:+ e)) in Hrun as (w1 & _ & ->)
    end;
    exists w1; (split; [done|]); cbn [logs set_logs]; apply last_snoc.
Qed.

Lemma X9_witness :
  let w := set_script
             [Ok "{}"; Err "ThrottlingException" "Too many requests"]
             empty_world in
  let run := @agent1_lambda_handler json_fragment
               (campaign_event "CAMPAIGN123") w in
  exists w1,
    run.2 = set_logs (logs w1 ++ ["Error in Agent1 interpretation: "
                                  +:+ "Too many requests"]) w1 /\
    last (logs run.2)
    = Some ("Error in Agent1 interpretation: " +:+ "Too many requests").
Proof.
  intros w run.
  apply (@X9_raised_error_is_logged json_fragment 1
           (@agent1_lambda_handler json_fragment)
           "Error in Agent1 interpretation: "
           (campaign_event "CAMPAIGN123") w "ThrottlingException").
  - lia.
  - reflexivity.
  - reflexivity.
  - vm_compute. reflexivity.
Defined.

(** X10.  A campaign id that is not a string never reaches a service:
    each of the handlers 1 to 4 raises ParamValidationError at its first
    read of the table, before any call is sent, and leaves the world as
    it was but for the error line in the log. *)
Theorem X10_non_string_id_is_refused `{PyJson} i h prefix event w :
  (1 <= i <= 4)%nat ->
  agent_codes !! i = Some h ->
  error_prefixes !! i = Some prefix ->
  (forall c, event_campaign_id event <> JStr c) ->
  exists msg,
    h event w = (Exc "ParamValidationError" msg,
                 set_logs (logs w ++ [prefix +:+ msg]) w).
Proof.
  intros Hi Hh Hp Hid. exists "Parameter validation failed".
  unfold event_campaign_id in Hid.
  destruct i as [|[|[|[|[|i]]]]]; try lia;
    injection Hh as <-; injection Hp as <-;
    [ unfold agent1_lambda_handler
    | unfold agent2_lambda_handler
    | unfold agent3_lambda_handler, agent3_generate
    | unfold agent4_lambda_handler ];
    cbv zeta;
    destruct (dict_get "campaign_id" JNull event) as [| | |c| |];
    first [ by destruct (Hid c) | reflexivity ].
Qed.

Lemma X10_witness :
  exists msg,
    @agent2_lambda_handler json_fragment [("campaign_id", JNum 123)] empty_world
    = (Exc "ParamValidationError" msg,
       set_logs (logs empty_world ++ ["Error in Agent2 planning: " +:+ msg])
                empty_world).
Proof.
  apply (@X10_non_string_id_is_refused json_fragment 2
           (@agent2_lambda_handler json_fragment)
           "Error in Agent2 planning: " [("campaign_id", JNum 123)]
           empty_world).
  - lia.
  - reflexivity.
  - reflexivity.
  - intros c. vm_compute. discriminate.
Defined.

(** ** The interpreter and Kendra *)

Lemma get_item_run c s b rs w :
  script w = Ok b :: rs ->
  dynamodb_get_item (JStr c) s w
  = (Val (table_get c s (table w)), set_script rs w).
Proof.
  intros Hs.
  unfold dynamodb_get_item, aws_call, next_reply, get_world, param_str,
    mbind, Py_bind, mret, Py_ret.
  cbn beta iota. rewrite Hs. reflexivity.
Qed.

Lemma get_or_obj d k1 k2 w :
  get_or (JObj d) k1 k2 w
  = (Val (if truthy (dict_get k1 (JStr "") d) then dict_get k1 (JStr "") d
          else dict_get k2 (JStr "") d), w).
Proof.
  unfold get_or, py_get, mbind, Py_bind, mret, Py_ret.
  by destruct (truthy (dict_get k1 (JStr "") d)).
Qed.

(** X11.  A failure of Kendra does not fail the interpreter.  With the
    extractor's record naming an audience, the read of the table
    answered and the Kendra query refused with any error, the handler
    logs "Kendra query failed: ..." as its only line, goes on to the
    model and returns, its record stored. *)
Theorem X11_kendra_failure_is_not_fatal `{PyJson} c it d b kt ke w :
  table_get c "input_extracted" (table w) = Some it ->
  json_loads (item_data it) = Some (JObj d) ->
  truthy (dict_get "target_audience" (JStr "") d)
  || truthy (dict_get "target_segment" (JStr "") d) = true ->
  script w = [Ok b; Err kt ke] ->
  json_loads "{}" = Some (JObj []) ->
  exists out w',
    agent1_lambda_handler (campaign_event c) w = (Val out, w') /\
    logs w' = logs w ++ ["Kendra query failed: " +:+ ke] /\
    table_get c "business_context" (table w')
    = Some {| item_campaign_id := c; item_step := "business_context";
              item_data := py_repr (JObj []) |}.
Proof.
  intros Hget Hload Haud Hs Hjson.
  set (w1 := set_script [Err kt ke] w).
  set (w2 := set_logs (logs w ++ ["Kendra query failed: " +:+ ke])
                      (set_script [] w)).
  set (a := if truthy (dict_get "target_audience" (JStr "") d)
            then dict_get "target_audience" (JStr "") d
            else dict_get "target_segment" (JStr "") d).
  assert (Ha : truthy a = true).
  { subst a. destruct (truthy (dict_get "target_audience" (JStr "") d)) eqn:E;
      [exact E | exact Haud]. }
  eexists _, (set_table _ w2).
  split; [|split; [reflexivity | apply table_put_get]].
  unfold agent1_lambda_handler, try_except at 1. cbv zeta.
  change (dict_get "campaign_id" JNull (campaign_event c)) with (JStr c).
  rewrite (bind_val _ _ w (Some it) w1)
    by (rewrite (get_item_run c _ b [Err kt ke] w Hs); by rewrite Hget).
  cbn beta.
  rewrite (bind_val _ _ w1 (JObj d) w1)
    by (unfold load_brief_data, py_json_loads; by rewrite Hload).
  cbn beta.
  rewrite (bind_val _ _ w1 a w1) by apply get_or_obj.
  cbn beta. rewrite Ha.
  rewrite (bind_val _ _ w1 tt w2) by reflexivity.
  cbn beta.
  rewrite (bind_val _ _ w2 (JObj []) w2) by (by apply bedrock_empty).
  cbn beta iota. change (dict_lookup "results" []) with (@None Json).
  cbn beta iota.
  rewrite (bind_val _ _ w2 (JStr (py_repr (JObj []))) w2) by reflexivity.
  cbn beta.
  rewrite (bind_val _ _ w2 tt _ (put_item_answered c _ _ w2 eq_refl)).
  reflexivity.
Qed.

Lemma X11_witness :
  exists out w',
    @agent1_lambda_handler json_briefs (campaign_event "CAMPAIGN123")
      kendra_down = (Val out, w') /\
    logs w' = logs kendra_down
              ++ ["Kendra query failed: " +:+ "Index not found"] /\
    table_get "CAMPAIGN123" "business_context" (table w')
    = Some {| item_campaign_id := "CAMPAIGN123";
              item_step := "business_context";
              item_data := @py_repr json_briefs (JObj []) |}.
Proof.
  apply (@X11_kendra_failure_is_not_fatal json_briefs "CAMPAIGN123"
           {| item_campaign_id := "CAMPAIGN123";
              item_step := "input_extracted";
              item_data := audience_brief_text |}
           [("target_audience", JStr "Gen-Z")] "{}"
           "ResourceNotFoundException" "Index not found" kendra_down);
    reflexivity.
Defined.

(** ** The machine on every input *)

Lemma start_execution_no_id (lambdas : list Handler) tx input w :
  lambdas <> [] ->
  path_lookup ["campaign_id"] input = None ->
  start_execution lambdas tx input w
  = {| status := FAILED "States.Runtime" "Invalid path";
       history := [Entered "Agent0Step"];
       final := w |}.
Proof.
  intros Hne Hmiss. unfold start_execution.
  cbn [workflow_of States StartAt].
  destruct lambdas as [|h0 rest]; [done|]. cbn [length].
  replace (S (length rest) + 1)%nat with (S (S (length rest))) by lia.
  change "Agent0Step" with (state_name 0).
  rewrite exec_agent by lia.
  destruct input as [| | | | |d]; try reflexivity.
  cbn in Hmiss. destruct (dict_lookup "campaign_id" d); [done | reflexivity].
Qed.

(** X12.  An input without a campaign_id stops the execution in its
    first state: the Parameters of Agent0Step cannot be evaluated, the
    execution fails with States.Runtime, no function is invoked, nothing
    is published and the world is untouched.  The Catch of the state
    does not apply, so FailureNotify is not entered either. *)
Theorem X12_missing_campaign_id_stops_at_once
  (lambdas : list Handler) tx input w :
  lambdas <> [] ->
  path_lookup ["campaign_id"] input = None ->
  start_execution lambdas tx input w
  = {| status := FAILED "States.Runtime" "Invalid path";
       history := [Entered "Agent0Step"];
       final := w |}.
Proof. apply start_execution_no_id. Qed.

Lemma X12_witness :
  start_execution downstream_agents readme_texts
    (JObj [("brief_bucket", JStr "ai-campaign-briefs");
           ("brief_key", JStr "sample_brief_genz.json")]) empty_world
  = {| status := FAILED "States.Runtime" "Invalid path";
       history := [Entered "Agent0Step"];
       final := empty_world |}.
Proof.
  apply (X12_missing_campaign_id_stops_at_once downstream_agents readme_texts
           (JObj [("brief_bucket", JStr "ai-campaign-briefs");
                  ("brief_key", JStr "sample_brief_genz.json")]) empty_world).
  - discriminate.
  - reflexivity.
Defined.

(** *** What a Task that succeeds has run *)

Lemma run_task_returned lambdas n i p budget made w out evs w' :
  run_task lambdas (agent_state n i) p budget [made] w = (TaskOk out, evs, w') ->
  exists h w0 w1, lambdas !! i = Some h /\ h p w0 = (Val out, w1).
Proof.
  revert made w evs. induction budget as [|budget IH]; intros made w evs;
    rewrite run_task_agent;
    destruct (invoke_lambda lambdas i p w) as [[out'|e c] w1] eqn:Hinv;
    intros Hrun.
  1,3: injection Hrun as <- _ _;
       unfold invoke_lambda in Hinv;
       destruct (lambdas !! i) as [h|]; [|discriminate];
       unfold run_handler in Hinv;
       destruct (next_reply w) as [[[b|t e]|t e] w0]; try discriminate;
       destruct (h p w0) as [[o|t e] w2] eqn:Hh; [|discriminate];
       injection Hinv as <- _; by exists h, w0, w2.
  - discriminate.
  - destruct (transient e && (made <? max_attempts agent_retry)%nat);
      [|discriminate].
    destruct (run_task _ _ _ _ _ _) as [[r' evs'] w2] eqn:Hrec.
    injection Hrun as -> _ ->. by eapply IH.
Qed.

Lemma notify_run_payloads name s h : NotifyRun name s h -> lambda_payloads h = [].
Proof. by destruct 1. Qed.

Lemma lambda_payloads_app h1 h2 :
  lambda_payloads (h1 ++ h2) = lambda_payloads h1 ++ lambda_payloads h2.
Proof. unfold lambda_payloads. apply omap_app. Qed.

Lemma completed_app h1 h2 : completed (h1 ++ h2) = completed h1 ++ completed h2.
Proof. unfold completed. apply omap_app. Qed.

Section Threading.
Variable lambdas : list Handler.

(** Every function of the pipeline returns only on a campaign id that
    is a string, and returns that id. *)
Hypothesis echo : forall h event w out w',
  h ∈ lambdas -> h event w = (Val out, w') ->
  exists c, event_campaign_id event = JStr c /\
            path_lookup ["campaign_id"] out = Some (JStr c).

Lemma exec_payloads tx n k :
  forall i f input w v,
    n = (i + S k)%nat -> (S k <= f)%nat ->
    path_lookup ["campaign_id"] input = Some v ->
    let ex := exec lambdas (states_of tx n) (S f) (state_name i) input w in
    Forall (fun p => p = [("campaign_id", v)]) (lambda_payloads (history ex)) /\
    (completed (history ex) <> [] -> exists c, v = JStr c).
Proof.
  induction k as [|k IH]; intros i f input w v Hn Hf Hv;
    (rewrite exec_agent by lia);
    (destruct input as [| | | | |d]; try discriminate);
    cbn in Hv;
    (destruct (dict_lookup "campaign_id" d) as [c|]; [|discriminate]);
    injection Hv as ->;
    (destruct (run_task _ _ _ _ _ _) as [[r evs] w1] eqn:Hrun);
    pose proof Hrun as Hatt;
    apply run_task_attempts in Hatt; try done;
    pose proof (attempts_completed _ _ _ _ _ Hatt) as Hdone;
    apply attempts_payloads in Hatt;
    destruct f as [|f]; try lia;
    cbn [after history app];
    change (lambda_payloads (Entered ?s :: ?h)) with (lambda_payloads h);
    change (completed (Entered ?s :: ?h)) with (completed h);
    rewrite lambda_payloads_app, completed_app, Forall_app;
    destruct r as [out|e c'];
    try (apply run_task_returned in Hrun as (h & w0 & w2 & Hh & Hret);
         apply (echo h) in Hret as (c0 & Hc0 & Hout);
         [|by eapply list_elem_of_lookup_2];
         change (event_campaign_id [("campaign_id", v)]) with v in Hc0;
         subst v).
  - replace (S i <? n)%nat with false by (symmetry; apply Nat.ltb_ge; lia).
    rewrite (notify_run_payloads _ _ _ (exec_notify_success lambdas tx n f out w1)).
    split; [by split | by exists c0].
  - rewrite (notify_run_payloads _ _ _
               (exec_failure_notify lambdas tx n f _ w1)),
      (notify_run_completed _ _ _ (exec_failure_notify lambdas tx n f _ w1)),
      Hdone.
    split; [by split | done].
  - replace (S i <? n)%nat with true by (symmetry; apply Nat.ltb_lt; lia).
    split; [|by exists c0].
    split; [exact Hatt|]. by apply IH; [lia | lia |].
  - rewrite (notify_run_payloads _ _ _
               (exec_failure_notify lambdas tx n f _ w1)),
      (notify_run_completed _ _ _ (exec_failure_notify lambdas tx n f _ w1)),
      Hdone.
    split; [by split | done].
Qed.

End Threading.

Lemma agent_codes_echo `{PyJson} h event w out w' :
  h ∈ agent_codes -> h event w = (Val out, w') ->
  exists c, event_campaign_id event = JStr c /\
            path_lookup ["campaign_id"] out = Some (JStr c).
Proof.
  intros (i & Hi)%list_elem_of_lookup_1 Hrun.
  destruct i as [|[|[|[|[|[|i]]]]]]; try discriminate; injection Hi as <-.
  - destruct (extractor_raises event w) as (t & e & w1 & Hexc & _).
    rewrite Hexc in Hrun. discriminate.
  - destruct (agent1_returned event w out w' Hrun) as (c & d & Hc & -> & _).
    by exists c.
  - destruct (agent2_returned event w out w' Hrun) as (c & d & Hc & -> & _).
    by exists c.
  - destruct (agent3_returned event w out w' Hrun) as (c & d & Hc & -> & _).
    by exists c.
  - destruct (agent4_returned event w out w' Hrun) as (c & d & Hc & -> & _).
    by exists c.
  - destruct (agent5_returned event w out w' Hrun) as (c & d & Hc & -> & _).
    by exists c.
Qed.

(** X13.  In a pipeline built from the six handlers, in any order and
    number, every invocation of every agent carries the one key
    campaign_id with the value the execution was started with: no other
    field of the input (brief_bucket and brief_key among them) ever
    reaches an agent, and each agent hands the id on unchanged.  If any
    agent has returned, that id is a string. *)
Theorem X13_agents_get_the_start_campaign_id
  `{PyJson} (lambdas : list Handler) tx input w :
  lambdas ⊆ agent_codes ->
  let ex := start_execution lambdas tx input w in
  Forall (fun p => exists v, path_lookup ["campaign_id"] input = Some v /\
                             p = [("campaign_id", v)])
         (lambda_payloads (history ex)) /\
  (completed (history ex) <> [] ->
   exists c, path_lookup ["campaign_id"] input = Some (JStr c)).
Proof.
  intros Hsub ex. subst ex.
  destruct lambdas as [|h0 rest].
  { rewrite start_execution_empty. cbn. split; [constructor | done]. }
  destruct (path_lookup ["campaign_id"] input) as [v|] eqn:Hv.
  - unfold start_execution. cbn [workflow_of States StartAt length].
    replace (S (length rest) + 1)%nat with (S (S (length rest))) by lia.
    change "Agent0Step" with (state_name 0).
    destruct (exec_payloads (h0 :: rest)
                (fun h event w out w' Hin => agent_codes_echo h event w out w'
                                               (Hsub h Hin))
                tx (S (length rest)) (length rest) 0 (S (length rest))
                input w v eq_refl (le_n _) Hv) as [Hall Hstr].
    split.
    + eapply Forall_impl; [exact Hall|]. intros p ->. by exists v.
    + intros (c & ->)%Hstr. by exists c.
  - rewrite start_execution_no_id by done. cbn. split; [constructor | done].
Qed.

Lemma X13_witness :
  let ex := start_execution downstream_agents notebook_texts test_input
                            empty_world in
  Forall (fun p => exists v, path_lookup ["campaign_id"] test_input = Some v /\
                             p = [("campaign_id", v)])
         (lambda_payloads (history ex)) /\
  (completed (history ex) <> [] ->
   exists c, path_lookup ["campaign_id"] test_input = Some (JStr c)).
Proof.
  apply (@X13_agents_get_the_start_campaign_id json_fragment downstream_agents
           notebook_texts test_input empty_world).
  intros h Hin. right. exact Hin.
Defined.

(** *** How often an agent can run *)

Lemma invoked_app h1 h2 : invoked (h1 ++ h2) = invoked h1 ++ invoked h2.
Proof. unfold invoked. apply omap_app. Qed.

Lemma waits_app h1 h2 : waits (h1 ++ h2) = waits h1 ++ waits h2.
Proof. unfold waits. apply omap_app. Qed.

Lemma attempts_bound i p m evs r :
  Attempts i p m evs r ->
  (m <= max_attempts agent_retry)%nat ->
  (length (invoked evs) + m <= S (max_attempts agent_retry))%nat /\
  Forall (fun q => q ∈ [2; 4; 8]%Q) (waits evs).
Proof.
  induction 1 as [made r Hr|made e c evs r Htr Hlt Hatt IH]; cbn; intros Hm.
  - split; [lia | constructor].
  - fold (invoked evs). fold (waits evs).
    change (max_attempts agent_retry) with 3%nat in *.
    destruct IH as [Hlen Hw]; [lia|]. split; [lia|].
    constructor; [|exact Hw].
    destruct made as [|[|[|made]]]; [| | |lia]; vm_compute.
    + left.
    + right. left.
    + do 2 right. left.
Qed.

Lemma pipeline_bound n i s h :
  PipelineRun n i s h ->
  forall j,
    (count_occ Nat.eq_dec (invoked h) j <= S (max_attempts agent_retry))%nat /\
    ((j < i)%nat -> count_occ Nat.eq_dec (invoked h) j = 0%nat) /\
    Forall (fun q => q ∈ [2; 4; 8]%Q) (waits h).
Proof.
  assert (Hcount : forall a l b,
             Forall (fun k => k = a) l ->
             (count_occ Nat.eq_dec l b <= length l)%nat /\
             (b <> a -> count_occ Nat.eq_dec l b = 0%nat)).
  { intros a l b Hall. split; [apply count_occ_bound|].
    intros Hne. apply count_occ_not_In. intros Hin.
    apply list_elem_of_In in Hin.
    rewrite Forall_forall in Hall. by apply Hall in Hin. }
  induction 1 as [i|i p evs e c s h Hatt Hn|i p evs out s h Hi Hatt Hn
                  |i p evs out s h Hi Hatt Hrun IH]; intros j.
  - cbn. split; [lia|]. split; [done | constructor].
  - change (invoked (Entered ?s :: ?h)) with (invoked h).
    change (waits (Entered ?s :: ?h)) with (waits h).
    rewrite invoked_app, waits_app, (notify_run_invoked _ _ _ Hn),
      (notify_run_waits _ _ _ Hn), !app_nil_r.
    destruct (attempts_bound _ _ _ _ _ Hatt) as [Hlen Hw]; [lia|].
    destruct (Hcount i (invoked evs) j (attempts_invoked _ _ _ _ _ Hatt))
      as [Hle Hz].
    split; [lia|]. split; [|done]. intros Hlt. apply Hz. lia.
  - change (invoked (Entered ?s :: ?h)) with (invoked h).
    change (waits (Entered ?s :: ?h)) with (waits h).
    rewrite invoked_app, waits_app, (notify_run_invoked _ _ _ Hn),
      (notify_run_waits _ _ _ Hn), !app_nil_r.
    destruct (attempts_bound _ _ _ _ _ Hatt) as [Hlen Hw]; [lia|].
    destruct (Hcount i (invoked evs) j (attempts_invoked _ _ _ _ _ Hatt))
      as [Hle Hz].
    split; [lia|]. split; [|done]. intros Hlt. apply Hz. lia.
  - change (invoked (Entered ?s :: ?h)) with (invoked h).
    change (waits (Entered ?s :: ?h)) with (waits h).
    rewrite invoked_app, waits_app, count_occ_app.
    destruct (attempts_bound _ _ _ _ _ Hatt) as [Hlen Hw]; [lia|].
    destruct (Hcount i (invoked evs) j (attempts_invoked _ _ _ _ _ Hatt))
      as [Hle Hz].
    destruct (IH j) as (IHle & IHz & IHw).
    split; [|split].
    + destruct (decide (j = i)) as [->|Hne].
      * rewrite IHz by lia. lia.
      * rewrite Hz by done. lia.
    + intros Hlt. rewrite Hz by lia. rewrite IHz by lia. done.
    + by apply Forall_app.
Qed.

(** X14.  Whatever the functions, the input and the answers of the
    services, no agent is invoked more than four times in an execution
    (one attempt and the three retries of MaxAttempts), and every pause
    between attempts lasts 2, 4 or 8 seconds. *)
Theorem X14_no_agent_runs_more_than_four_times
  (lambdas : list Handler) tx input w j :
  let ex := start_execution lambdas tx input w in
  (count_occ Nat.eq_dec (invoked (history ex)) j <= 4)%nat /\
  Forall (fun q => q ∈ [2; 4; 8]%Q) (waits (history ex)).
Proof.
  intros ex. subst ex.
  destruct (decide (lambdas = [])) as [->|Hne].
  { rewrite start_execution_empty. cbn. split; [lia | constructor]. }
  pose proof (start_execution_outline lambdas tx input w Hne) as Hrun.
  cbv zeta in Hrun.
  destruct (pipeline_bound _ _ _ _ Hrun j) as (Hle & _ & Hw).
  split; [exact Hle | exact Hw].
Qed.

(** *** The definition is closed *)

Lemma lookup_agent_fold_inv n (l : list nat) (m : gmap string State) name st :
  foldl (fun m i => <[state_name i := agent_state n i]> m) m l !! name = Some st ->
  (exists i, i ∈ l /\ name = state_name i /\ st = agent_state n i) \/
  m !! name = Some st.
Proof.
  revert m. induction l as [|j l IH]; intros m; simpl; [by right|].
  intros [(i & Hin & Hname & Hst)|Hm]%IH.
  - left. exists i. split; [by right | done].
  - apply lookup_insert_Some in Hm as [[<- <-]|[_ Hm]]; [|by right].
    left. exists j. split; [by left | done].
Qed.

Lemma states_of_lookup_inv tx n name st :
  states_of tx n !! name = Some st ->
  (name = "FailureNotify" /\ st = failure_notify_state tx) \/
  (name = "NotifySuccess" /\ st = notify_success_state tx) \/
  (exists i, (i < n)%nat /\ name = state_name i /\ st = agent_state n i).
Proof.
  unfold states_of.
  intros [[<- <-]|[_ Hst]]%lookup_insert_Some; [by left|].
  apply lookup_insert_Some in Hst as [[<- <-]|[_ Hst]]; [by right; left|].
  apply lookup_agent_fold_inv in Hst as [(i & Hin & -> & ->)|Hst].
  - right. right. exists i. split; [|done].
    apply list_elem_of_In, in_seq in Hin. lia.
  - by rewrite lookup_empty in Hst.
Qed.

(** X15.  The definition built by the loop is closed, for any number of
    agents: a state of the machine is FailureNotify, NotifySuccess or
    one of Agent0Step .. Agent{n-1}Step, the Next of every state and the
    Next of each of its catchers name a state of the machine, and only
    the two notification states end the execution. *)
Theorem X15_every_transition_has_a_target tx n name st :
  states_of tx n !! name = Some st ->
  match transition st with
  | Next nx => is_Some (states_of tx n !! nx) /\ resource st <> SnsPublish
  | End => resource st = SnsPublish
  end /\
  Forall (fun c => is_Some (states_of tx n !! catch_next c)) (catch st).
Proof.
  intros [[-> ->]|[[-> ->]|(i & Hi & -> & ->)]]%states_of_lookup_inv.
  - split; [reflexivity | constructor].
  - split; [reflexivity | constructor].
  - cbn [agent_state transition catch resource]. split; [split; [|done]|].
    + destruct (S i <? n)%nat eqn:Hlt.
      * apply Nat.ltb_lt in Hlt. rewrite lookup_agent_state by done. eauto.
      * rewrite lookup_notify_success. eauto.
    + repeat constructor. cbn [agent_catch catch_next].
      rewrite lookup_failure_notify. eauto.
Qed.

Lemma X15_witness :
  match transition (agent_state 6 5) with
  | Next nx => is_Some (states_of readme_texts 6 !! nx)
               /\ resource (agent_state 6 5) <> SnsPublish
  | End => resource (agent_state 6 5) = SnsPublish
  end /\
  Forall (fun c => is_Some (states_of readme_texts 6 !! catch_next c))
         (catch (agent_state 6 5)).
Proof.
  apply (X15_every_transition_has_a_target readme_texts 6 "Agent5Step"
           (agent_state 6 5)).
  apply (lookup_agent_state readme_texts 6 5). lia.
Defined.

(** ** The audience of the brief *)

(** X17.  The content generator lowers the audience without looking at
    it: when the extractor's record holds a target_audience that is not
    a string (null, a number, a list), the handler raises AttributeError
    after its two reads of the table, before the model is called, and
    stores nothing.  (The planner lowers the audience only when it is
    truthy, the interpreter and the strategist never do.) *)
Theorem X17_audience_must_be_a_string `{PyJson} c it d a b1 b2 rest w :
  table_get c "input_extracted" (table w) = Some it ->
  json_loads (item_data it) = Some (JObj d) ->
  dict_lookup "target_audience" d = Some a ->
  (forall s, a <> JStr s) ->
  script w = Ok b1 :: Ok b2 :: rest ->
  exists msg,
    agent3_lambda_handler (campaign_event c) w
    = (Exc "AttributeError" msg,
       set_logs (logs w ++ ["Error in Agent3 content generation: " +:+ msg])
                (set_script rest w)).
Proof.
  intros Hget Hload Ha Hstr Hs.
  exists "object has no attribute 'lower'".
  set (w1 := set_script (Ok b2 :: rest) w).
  set (w2 := set_script rest w).
  assert (Hgen : agent3_generate (JStr c) w
                 = (Exc "AttributeError" "object has no attribute 'lower'", w2)).
  { unfold agent3_generate. cbv zeta.
    rewrite (bind_val _ _ w _ w1 (get_item_run c _ b1 _ w Hs)). cbn beta.
    rewrite (bind_val _ _ w1 _ w2 (get_item_run c _ b2 rest w1 eq_refl)).
    cbn beta. change (table w1) with (table w). rewrite Hget.
    rewrite (bind_val _ _ w2 (JObj d) w2)
      by (unfold load_brief_data, py_json_loads; by rewrite Hload).
    cbn beta.
    rewrite (bind_val _ _ w2 a w2)
      by (unfold py_get, dict_get; by rewrite Ha).
    cbn beta. apply bind_exc.
    destruct a as [| | |s| |]; try reflexivity. by destruct (Hstr s). }
  unfold agent3_lambda_handler, try_except. cbv zeta.
  change (dict_get "campaign_id" JNull (campaign_event c)) with (JStr c).
  by rewrite (bind_exc _ _ _ _ _ _ Hgen).
Qed.

Lemma X17_witness :
  exists msg,
    @agent3_lambda_handler json_briefs (campaign_event "CAMPAIGN123")
      audience_unknown
    = (Exc "AttributeError" msg,
       set_logs (logs audience_unknown
                 ++ ["Error in Agent3 content generation: " +:+ msg])
                (set_script [] audience_unknown)).
Proof.
  apply (@X17_audience_must_be_a_string json_briefs "CAMPAIGN123"
           {| item_campaign_id := "CAMPAIGN123";
              item_step := "input_extracted";
              item_data := null_audience_text |}
           [("target_audience", JNull)] JNull "{}" "{}" [] audience_unknown);
    try reflexivity.
  intros s. discriminate.
Defined.

(** ** The status of an execution and its notifier call *)

Lemma notify_run_status name s h :
  NotifyRun name s h ->
  match s with
  | SUCCEEDED out => exists p, notify_calls h = [(p, TaskOk out)]
  | FAILED e c =>
      (notify_calls h = [] /\ e = "States.Runtime" /\ c = "Invalid path") \/
      exists p, notify_calls h = [(p, TaskErr e c)]
  | RUNNING => False
  end.
Proof. destruct 1; cbn; eauto. Qed.

Lemma notify_calls_app h1 h2 :
  notify_calls (h1 ++ h2) = notify_calls h1 ++ notify_calls h2.
Proof. unfold notify_calls. apply omap_app. Qed.

(** The status of an execution is the outcome of its one publish; an
    execution without a publish has been stopped by States.Runtime. *)
Lemma pipeline_status n i s h :
  PipelineRun n i s h ->
  match s with
  | SUCCEEDED out => exists p, notify_calls h = [(p, TaskOk out)]
  | FAILED e c =>
      (notify_calls h = [] /\ e = "States.Runtime" /\ c = "Invalid path") \/
      exists p, notify_calls h = [(p, TaskErr e c)]
  | RUNNING => False
  end.
Proof.
  induction 1 as [i|i p evs e c s h Hatt Hn|i p evs out s h Hi Hatt Hn
                  |i p evs out s h Hi Hatt Hrun IH];
    [by left|..];
    change (notify_calls (Entered ?s0 :: ?h0)) with (notify_calls h0);
    rewrite notify_calls_app, (attempts_notify_calls _ _ _ _ _ Hatt), app_nil_l;
    [by apply notify_run_status in Hn..|exact IH].
Qed.




(** ** The notifier calls of an execution *)

(** FailureNotify on an input whose campaign id cannot be put into the
    notice: its Parameters fail, no publish is made. *)
Lemma exec_failure_notify_invalid lambdas tx n f d v e ca w :
  dict_lookup "campaign_id" d = Some v ->
  format_arg v = None ->
  exec lambdas (states_of tx n) (S f) "FailureNotify"
       (JObj (dict_set "error" (error_output e ca) d)) w
  = {| status := FAILED "States.Runtime" "Invalid path";
       history := [Entered "FailureNotify"];
       final := w |}.
Proof.
  intros Hv Hfmt. cbn [exec]. rewrite lookup_failure_notify.
  assert (Hparams :
    eval_parameters (parameters (failure_notify_state tx))
      (JObj (dict_set "error" (error_output e ca) d)) = None).
  { unfold eval_parameters, failure_notify_state.
    cbn [parameters mapM fst snd eval_param].
    cbn [path_lookup mbind option_bind].
    rewrite (dict_lookup_set_ne "campaign_id" "error") by discriminate.
    rewrite Hv. cbn. rewrite Hfmt. done. }
  by rewrite Hparams.
Qed.

(** ... and on an input whose campaign id can. *)
Lemma exec_failure_notify_formatted lambdas tx n f d v s e ca w msg :
  dict_lookup "campaign_id" d = Some v ->
  format_arg v = Some s ->
  states_format (failure_template tx) [s; e] = Some msg ->
  let payload := [("TopicArn", JStr topic_arn); ("Message", JStr msg);
                  ("Subject", JStr (failure_subject tx))] in
  let res := sdk_sns_publish payload w in
  exec lambdas (states_of tx n) (S f) "FailureNotify"
       (JObj (dict_set "error" (error_output e ca) d)) w
  = {| status := match res.1 with
                 | TaskOk out => SUCCEEDED out
                 | TaskErr e' c' => FAILED e' c'
                 end;
       history := [Entered "FailureNotify"; Called SnsPublish payload res.1];
       final := res.2 |}.
Proof.
  intros Hv Hs Hfmt payload res. subst payload res.
  cbn [exec]. rewrite lookup_failure_notify.
  assert (Hparams :
    eval_parameters (parameters (failure_notify_state tx))
      (JObj (dict_set "error" (error_output e ca) d))
    = Some [("TopicArn", JStr topic_arn); ("Message", JStr msg);
            ("Subject", JStr (failure_subject tx))]).
  { unfold eval_parameters, failure_notify_state.
    cbn [parameters mapM fst snd eval_param].
    cbn [path_lookup mbind option_bind].
    rewrite (dict_lookup_set_ne "campaign_id" "error") by discriminate.
    rewrite Hv. rewrite dict_lookup_set_eq. cbn. rewrite Hs. cbn.
    rewrite Hfmt. done. }
  rewrite Hparams. unfold run_task_state.
  cbn [failure_notify_state retry retry_budget foldr length replicate
       run_task resource call_resource catch transition].
  destruct (sdk_sns_publish _ w) as [[out|e' c'] w1]; reflexivity.
Qed.

Lemma failure_templates tx s e :
  tx = notebook_texts \/ tx = readme_texts ->
  exists sep,
    states_format (failure_template tx) [s; e]
    = Some ("Campaign " +:+ s +:+ sep +:+ e).
Proof.
  intros [-> | ->].
  - exists " failed: ". rewrite <- (string_app_nil_r e) at 2. reflexivity.
  - exists " FAILED. Error: ". rewrite <- (string_app_nil_r e) at 2.
    reflexivity.
Qed.

(** On the six deployed agents every message that reaches the topic is
    that of the one publish FailureNotify makes, and that publish is
    made exactly when the input holds a campaign id that States.Format
    accepts. *)
Lemma deployed_notifier `{PyJson} tx input w :
  tx = notebook_texts \/ tx = readme_texts ->
  let dx := start_execution agent_codes tx input w in
  topic (final dx) = topic w ++ published (notify_calls (history dx)) /\
  (length (notify_calls (history dx)) = 1%nat <->
   is_Some (path_lookup ["campaign_id"] input ≫= format_arg)).
Proof.
  intros Htx dx. subst dx. unfold start_execution.
  cbn [workflow_of States StartAt agent_codes length Nat.add].
  change "Agent0Step" with (state_name 0).
  rewrite exec_agent by lia.
  assert (Hnone : forall w0 : World,
            topic w0 = topic w0 ++ published [] /\
            (length (@nil (Dict * TaskResult)) = 1%nat <-> is_Some (@None string))).
  { intros w0. split; [by rewrite app_nil_r|].
    split; [discriminate | by intros [? [=]]]. }
  destruct input as [| | | | |d]; try apply Hnone.
  cbn [path_lookup].
  destruct (dict_lookup "campaign_id" d) as [v|] eqn:Hv;
    cbn [mbind option_bind]; [|apply Hnone].
  destruct (run_task_extractor 6 [("campaign_id", v)]
              (max_attempts agent_retry) 0 w) as [Hfail Hsame].
  destruct (run_task _ _ _ _ _ _) as [[r evs] w1] eqn:Hrun.
  apply run_task_attempts in Hrun; [|done].
  cbn [fst snd] in Hfail, Hsame. destruct r as [out|e ca]; [done|].
  destruct Hsame as (_ & _ & Htp1).
  cbn [after history final app].
  change (notify_calls (Entered ?s0 :: ?h0)) with (notify_calls h0).
  rewrite notify_calls_app, (attempts_notify_calls _ _ _ _ _ Hrun), app_nil_l.
  destruct (format_arg v) as [s|] eqn:Hs.
  - destruct (failure_templates tx s e Htx) as [sep Hfmt].
    erewrite exec_failure_notify_formatted; [|exact Hv|exact Hs|exact Hfmt].
    pose proof (sdk_publish_effect topic_arn ("Campaign " +:+ s +:+ sep +:+ e)
                  (failure_subject tx) w1) as Hpub. cbv zeta in Hpub.
    destruct (sdk_sns_publish _ w1) as [r' w2]. cbn [fst snd] in *.
    destruct Hpub as (_ & _ & Htp). cbn [history final].
    split; [|by split; [eauto|]].
    rewrite Htp, Htp1. by destruct r'.
  - erewrite exec_failure_notify_invalid; [|exact Hv|exact Hs].
    cbn [history final].
    change (notify_calls [Entered "FailureNotify"])
      with (@nil (Dict * TaskResult)).
    rewrite Htp1. apply Hnone.
Qed.

(** C1.  The state machine makes its Notifier call once in an
    execution: for every list of agents, input and world, NotifySuccess
    and FailureNotify are never both entered, at most one publish is
    made, and the only executions without one are those that
    States.Runtime has stopped (a path of some Parameters not found in
    the input, or a notice that cannot be built), which no Catch can
    handle.  On the six deployed agents, under the texts of the notebook
    and of Readme.md, nothing else publishes: the messages that reach
    the topic are those of that one call, which is made whenever the
    input holds a campaign id that States.Format accepts, a string among
    them. *)
Theorem C1_exactly_one_notifier_call
  `{PyJson} (lambdas : list Handler) tx input w :
  let ex := start_execution lambdas tx input w in
  (length (notify_calls (history ex)) = 1%nat \/
   (notify_calls (history ex) = [] /\
    exists cause, status ex = FAILED "States.Runtime" cause)) /\
  ~ ("NotifySuccess" ∈ entered (history ex)
     /\ "FailureNotify" ∈ entered (history ex)) /\
  Forall (fun texts =>
            let dx := start_execution agent_codes texts input w in
            topic (final dx) = topic w ++ published (notify_calls (history dx)) /\
            (length (notify_calls (history dx)) = 1%nat <->
             is_Some (path_lookup ["campaign_id"] input ≫= format_arg)))
         [notebook_texts; readme_texts].
Proof.
  intros ex. subst ex. split; [|split].
  - destruct (decide (lambdas = [])) as [->|Hne].
    { rewrite start_execution_empty. cbn. right. eauto. }
    pose proof (start_execution_outline lambdas tx input w Hne) as Hrun.
    cbv zeta in Hrun. apply pipeline_status in Hrun.
    destruct (status _) as [out|e c|]; [| |done].
    + destruct Hrun as [p ->]. by left.
    + destruct Hrun as [(-> & -> & ->)|[p ->]]; [right; eauto | by left].
  - destruct (decide (lambdas = [])) as [->|Hne].
    { rewrite start_execution_empty. cbn. intros [[]%elem_of_nil _]. }
    pose proof (start_execution_outline lambdas tx input w Hne) as Hrun.
    cbv zeta in Hrun.
    destruct (pipeline_entered _ _ _ _ Hrun) as (k & tl & Hent & Htl).
    rewrite Hent. intros [H1 H2].
    apply elem_of_app in H1 as [H1|H1];
      [by apply not_notify_in_agents in H1; [|left]|].
    apply elem_of_app in H2 as [H2|H2];
      [by apply not_notify_in_agents in H2; [|right]|].
    destruct Htl as [->|[->| ->]].
    + by apply elem_of_nil in H1.
    + by apply list_elem_of_singleton in H2.
    + by apply list_elem_of_singleton in H1.
  - repeat constructor; apply deployed_notifier; auto.
Qed.

(** ** The evaluator's failure *)





(** ** Handlers on a script without refusals *)

Lemma next_reply_ok bodies w :
  script w = Ok <$> bodies ->
  exists w1,
    next_reply w = (Val (Ok (default "{}" (bodies !! 0%nat))), w1) /\
    script w1 = Ok <$> drop 1 bodies /\ table w1 = table w.
Proof.
  intros Hs. unfold next_reply. rewrite Hs.
  destruct bodies as [|b bs]; cbn.
  - by exists w.
  - eexists. split; [reflexivity|]. done.
Qed.

Lemma aws_call_ok bodies w :
  script w = Ok <$> bodies ->
  exists w1,
    aws_call w = (Val (default "{}" (bodies !! 0%nat)), w1) /\
    script w1 = Ok <$> drop 1 bodies /\ table w1 = table w.
Proof.
  intros (w1 & Hr & Hs & Ht)%next_reply_ok. exists w1.
  unfold aws_call. by rewrite (bind_val _ _ _ _ _ Hr).
Qed.

Lemma get_item_ok c s bodies w :
  script w = Ok <$> bodies ->
  exists w1,
    dynamodb_get_item (JStr c) s w = (Val (table_get c s (table w)), w1) /\
    script w1 = Ok <$> drop 1 bodies /\ table w1 = table w.
Proof.
  intros (w1 & Hr & Hs & Ht)%aws_call_ok. exists w1.
  unfold dynamodb_get_item.
  change (param_str (JStr c) ≫= ?f) with (f c). cbn beta.
  rewrite (bind_val _ _ _ _ _ Hr).
  unfold get_world, mbind, Py_bind. cbn beta iota. by rewrite Ht.
Qed.

Lemma put_item_ok c s d bodies w :
  script w = Ok <$> bodies ->
  exists w1,
    dynamodb_put_item (JStr c) s (JStr d) w = (Val tt, w1) /\
    script w1 = Ok <$> drop 1 bodies /\
    table w1 = table_put {| item_campaign_id := c; item_step := s;
                            item_data := d |} (table w).
Proof.
  intros (w1 & Hr & Hs & Ht)%aws_call_ok. eexists.
  unfold dynamodb_put_item.
  change (param_str (JStr c) ≫= ?f) with (f c). cbn beta.
  change (param_str (JStr d) ≫= ?f) with (f d). cbn beta.
  rewrite (bind_val _ _ _ _ _ Hr).
  split; [reflexivity|]. cbn [script table set_table]. by rewrite Ht.
Qed.

Lemma put_item_refuses_data c s v w :
  (forall d, v <> JStr d) ->
  dynamodb_put_item (JStr c) s v w
  = (Exc "ParamValidationError" "Parameter validation failed", w).
Proof. intros Hv. destruct v as [| | |d| |]; try reflexivity. by destruct (Hv d). Qed.

Lemma s3_put_ok b k d bodies w :
  script w = Ok <$> bodies ->
  exists w1,
    s3_put_object b k (JStr d) w = (Val tt, w1) /\
    script w1 = Ok <$> drop 1 bodies /\ table w1 = table w.
Proof.
  intros (w1 & Hr & Hs & Ht)%aws_call_ok. eexists.
  unfold s3_put_object.
  change (param_str (JStr d) ≫= ?f) with (f d). cbn beta.
  rewrite (bind_val _ _ _ _ _ Hr).
  split; [reflexivity|]. cbn [script table set_objects]. done.
Qed.

Lemma sns_publish_ok m subj bodies w :
  script w = Ok <$> bodies ->
  exists mid w1,
    sns_publish m subj w = (Val mid, w1) /\
    script w1 = Ok <$> drop 1 bodies /\ table w1 = table w.
Proof.
  intros (w1 & Hr & Hs & Ht)%aws_call_ok. eexists _, _.
  unfold sns_publish. rewrite (bind_val _ _ _ _ _ Hr).
  split; [reflexivity|]. cbn [script table set_topic]. done.
Qed.

Section Missing.
Context `{PyJson}.

(** Reading the reply neither looks at the world nor changes it. *)
Lemma read_reply_run i b w w' :
  read_reply i b w' = ((read_reply i b w).1, w').
Proof.
  unfold read_reply, py_json_loads, interpretation_text, output_text,
    py_in, py_get, py_index0, mbind, Py_bind, mret, Py_ret, raise.
  destruct (json_loads b) as [r|]; [|done].
  destruct (i =? 1)%nat.
  - destruct r as [| | | | |d]; try done.
    destruct (dict_lookup "results" d) as [rs|]; [|done].
    destruct rs as [| | |[|a s]|[|x l]|d0]; try done;
      cbn; match goal with |- context [match ?v with _ => _ end] =>
             destruct v end; done.
  - destruct r as [| | |s|l|d]; try done.
    + destruct (is_substring "results" s); [|done]. done.
    + destruct (existsb _ l); done.
    + destruct (bool_decide _); [|done].
      destruct (dict_get "results" (JList [JObj []]) d)
        as [| | |[|a s]|[|x l]|d0]; try done;
        cbn; match goal with |- context [match ?v with _ => _ end] =>
               destruct v end; done.
Qed.

(** The call of the model and the reading of its reply, followed by
    whatever the handler does with the text. *)
Lemma model_step {A} i (K : Json -> Py A) bodies w :
  script w = Ok <$> bodies ->
  exists w1,
    script w1 = Ok <$> drop 1 bodies /\ table w1 = table w /\
    (bedrock_invoke_and_load ≫= fun r =>
       (if (i =? 1)%nat then interpretation_text r else output_text r) ≫= K) w
    = match (read_reply i (default "{}" (bodies !! 0%nat)) w).1 with
      | Val v => K v w1
      | Exc t e => (Exc t e, w1)
      end.
Proof.
  intros (w1 & Hr & Hs & Ht)%aws_call_ok. exists w1.
  split; [exact Hs|]. split; [exact Ht|].
  pose proof (read_reply_run i (default "{}" (bodies !! 0%nat)) w w1) as Hpure.
  destruct (read_reply i _ w).1 as [v|t e]; cbn [fst] in *;
    unfold read_reply, bedrock_invoke_and_load, mbind, Py_bind in *;
    rewrite Hr;
    destruct (py_json_loads _ w1) as [[r|t' e'] w2];
    try (destruct ((if (i =? 1)%nat then interpretation_text r
                    else output_text r) w2) as [[v'|t'' e''] w3]);
    congruence.
Qed.

(** The same when the text is all the code goes on with. *)
Lemma model_read i bodies w :
  script w = Ok <$> bodies ->
  exists w1,
    script w1 = Ok <$> drop 1 bodies /\ table w1 = table w /\
    (bedrock_invoke_and_load ≫= fun r =>
       if (i =? 1)%nat then interpretation_text r else output_text r) w
    = ((read_reply i (default "{}" (bodies !! 0%nat)) w).1, w1).
Proof.
  intros (w1 & Hr & Hs & Ht)%aws_call_ok. exists w1.
  split; [exact Hs|]. split; [exact Ht|].
  rewrite <- (read_reply_run i (default "{}" (bodies !! 0%nat)) w w1).
  unfold read_reply, bedrock_invoke_and_load, mbind, Py_bind.
  rewrite Hr. by destruct (py_json_loads _ w1) as [[r|t' e'] w2].
Qed.

End Missing.

(** A text that is no string: the put raises before it calls. *)
Ltac refused w0 :=
  match goal with
  | |- context [(dynamodb_put_item ?cid ?s ?v ≫= ?f) w0] =>
      rewrite (bind_exc (dynamodb_put_item cid s v) f w0 _ _ w0 eq_refl);
      unfold log, modify, raise, mbind, Py_bind;
      cbn [fst snd table set_logs]; split; [eauto | congruence]
  end.

Section MissingRecords.
Context `{PyJson}.
Variables (c : string) (bodies : list string) (w : World).
Hypothesis missing : forall s, table_get c s (table w) = None.
Hypothesis answered : script w = Ok <$> bodies.

Lemma agent2_on_missing :
  step_outcome c "campaign_plan" "plan"
    (read_reply 2 (default "{}" (bodies !! 2%nat)) w).1
    (agent2_lambda_handler (campaign_event c) w) w.
Proof.
  destruct (get_item_ok c "business_context" bodies w answered)
    as (wa & Hg1 & Hsa & Hta).
  destruct (get_item_ok c "input_extracted" _ wa Hsa) as (wb & Hg2 & Hsb & Htb).
  rewrite missing in Hg1. rewrite Hta, missing in Hg2.
  destruct (model_step 2
              (fun plan_text =>
                 dynamodb_put_item (JStr c) "campaign_plan" plan_text;;
                 mret (JObj [("campaign_id", JStr c); ("plan", plan_text)]))
              _ wb Hsb) as (wc & Hsc & Htc & Hmodel).
  rewrite !lookup_drop in Hmodel. cbn [Nat.add] in Hmodel.
  rewrite (read_reply_run 2 _ w wb) in Hmodel. cbn [fst] in Hmodel.
  unfold agent2_lambda_handler, try_except. cbv zeta.
  change (dict_get "campaign_id" JNull (campaign_event c)) with (JStr c).
  rewrite (bind_val _ _ _ _ _ Hg1). cbn beta.
  rewrite (bind_val _ _ _ _ _ Hg2). cbn beta.
  rewrite (bind_val _ _ wb (JObj []) wb) by reflexivity. cbn beta.
  rewrite (bind_val _ _ wb (JStr "") wb) by reflexivity. cbn beta iota.
  rewrite (bind_val _ _ wb tt wb) by reflexivity. cbn beta.
  cbn [Nat.eqb] in Hmodel. rewrite Hmodel. clear Hmodel.
  destruct (read_reply 2 _ w).1 as [[| | |d| |]|t e]; cbn [step_outcome];
    try refused wc.
  - destruct (put_item_ok c "campaign_plan" d _ wc Hsc) as (wd & Hp & _ & Htd).
    rewrite (bind_val _ _ _ _ _ Hp). cbn. split; [done|]. congruence.
  - unfold log, modify, raise, mbind, Py_bind.
    cbn [fst snd table set_logs]. split; [done | congruence].
Qed.

Lemma agent1_on_missing :
  step_outcome c "business_context" "interpretation"
    (read_reply 1 (default "{}" (bodies !! 1%nat)) w).1
    (agent1_lambda_handler (campaign_event c) w) w.
Proof.
  destruct (get_item_ok c "input_extracted" bodies w answered)
    as (wa & Hg1 & Hsa & Hta).
  rewrite missing in Hg1.
  destruct (model_step 1
              (fun text =>
                 dynamodb_put_item (JStr c) "business_context" text;;
                 mret (JObj [("campaign_id", JStr c);
                             ("interpretation", text)]))
              _ wa Hsa) as (wc & Hsc & Htc & Hmodel).
  rewrite !lookup_drop in Hmodel. cbn [Nat.add] in Hmodel.
  rewrite (read_reply_run 1 _ w wa) in Hmodel. cbn [fst] in Hmodel.
  cbn [Nat.eqb] in Hmodel. unfold interpretation_text in Hmodel.
  unfold agent1_lambda_handler, try_except at 1. cbv zeta.
  change (dict_get "campaign_id" JNull (campaign_event c)) with (JStr c).
  rewrite (bind_val _ _ _ _ _ Hg1). cbn beta.
  rewrite (bind_val _ _ wa (JObj []) wa) by reflexivity. cbn beta.
  rewrite (bind_val _ _ wa (JStr "") wa) by reflexivity. cbn beta iota.
  rewrite (bind_val _ _ wa tt wa) by reflexivity. cbn beta.
  rewrite Hmodel. clear Hmodel.
  destruct (read_reply 1 _ w).1 as [[| | |d| |]|t e]; cbn [step_outcome];
    try refused wc.
  - destruct (put_item_ok c "business_context" d _ wc Hsc)
      as (wd & Hp & _ & Htd).
    rewrite (bind_val _ _ _ _ _ Hp). cbn. split; [done|]. congruence.
  - unfold log, modify, raise, mbind, Py_bind.
    cbn [fst snd table set_logs]. split; [done | congruence].
Qed.

Lemma agent3_on_missing :
  step_outcome c "content_samples" "content"
    (read_reply 3 (default "{}" (bodies !! 2%nat)) w).1
    (agent3_lambda_handler (campaign_event c) w) w.
Proof.
  destruct (get_item_ok c "campaign_plan" bodies w answered)
    as (wa & Hg1 & Hsa & Hta).
  destruct (get_item_ok c "input_extracted" _ wa Hsa) as (wb & Hg2 & Hsb & Htb).
  rewrite missing in Hg1. rewrite Hta, missing in Hg2.
  destruct (model_read 3 _ wb Hsb) as (wc & Hsc & Htc & Hmodel).
  rewrite !lookup_drop in Hmodel. cbn [Nat.add] in Hmodel.
  rewrite (read_reply_run 3 _ w wb) in Hmodel. cbn [fst] in Hmodel.
  cbn [Nat.eqb] in Hmodel.
  assert (Hgen : agent3_generate (JStr c) w
                 = ((read_reply 3 (default "{}" (bodies !! 2%nat)) w).1, wc)).
  { unfold agent3_generate. cbv zeta.
    rewrite (bind_val _ _ _ _ _ Hg1). cbn beta.
    rewrite (bind_val _ _ _ _ _ Hg2). cbn beta.
    rewrite (bind_val _ _ wb (JObj []) wb) by reflexivity. cbn beta.
    rewrite (bind_val _ _ wb (JStr "") wb) by reflexivity. cbn beta.
    rewrite (bind_val _ _ wb tt wb) by reflexivity. cbn beta.
    exact Hmodel. }
  clear Hmodel.
  unfold agent3_lambda_handler, try_except. cbv zeta.
  change (dict_get "campaign_id" JNull (campaign_event c)) with (JStr c).
  destruct (read_reply 3 _ w).1 as [[| | |d| |]|t e]; cbn [step_outcome];
    try (rewrite (bind_val _ _ _ _ _ Hgen); cbn beta; refused wc).
  - rewrite (bind_val _ _ _ _ _ Hgen). cbn beta.
    destruct (put_item_ok c "content_samples" d _ wc Hsc)
      as (wd & Hp & Hsd & Htd).
    rewrite (bind_val _ _ _ _ _ Hp). cbn beta.
    destruct (s3_put_ok ASSETS_BUCKET (py_str (JStr c) +:+ "_content.txt") d
                _ wd Hsd) as (we & Hs3 & _ & Hte).
    rewrite (bind_val _ _ _ _ _ Hs3). cbn. split; [done|]. congruence.
  - rewrite (bind_exc _ _ _ _ _ _ Hgen).
    unfold log, modify, raise, mbind, Py_bind.
    cbn [fst snd table set_logs]. split; [done | congruence].
Qed.

Lemma agent4_on_missing :
  step_outcome c "channel_strategy" "strategy"
    (read_reply 4 (default "{}" (bodies !! 2%nat)) w).1
    (agent4_lambda_handler (campaign_event c) w) w.
Proof.
  destruct (get_item_ok c "campaign_plan" bodies w answered)
    as (wa & Hg1 & Hsa & Hta).
  destruct (get_item_ok c "input_extracted" _ wa Hsa) as (wb & Hg2 & Hsb & Htb).
  rewrite missing in Hg1. rewrite Hta, missing in Hg2.
  destruct (model_step 4
              (fun strategy =>
                 dynamodb_put_item (JStr c) "channel_strategy" strategy;;
                 mret (JObj [("campaign_id", JStr c);
                             ("strategy", strategy)]))
              _ wb Hsb) as (wc & Hsc & Htc & Hmodel).
  rewrite !lookup_drop in Hmodel. cbn [Nat.add] in Hmodel.
  rewrite (read_reply_run 4 _ w wb) in Hmodel. cbn [fst] in Hmodel.
  unfold agent4_lambda_handler, try_except. cbv zeta.
  change (dict_get "campaign_id" JNull (campaign_event c)) with (JStr c).
  rewrite (bind_val _ _ _ _ _ Hg1). cbn beta.
  rewrite (bind_val _ _ _ _ _ Hg2). cbn beta.
  rewrite (bind_val _ _ wb (JObj []) wb) by reflexivity. cbn beta.
  rewrite (bind_val _ _ wb (JStr "") wb) by reflexivity. cbn beta.
  cbn [Nat.eqb] in Hmodel. rewrite Hmodel. clear Hmodel.
  destruct (read_reply 4 _ w).1 as [[| | |d| |]|t e]; cbn [step_outcome];
    try refused wc.
  - destruct (put_item_ok c "channel_strategy" d _ wc Hsc)
      as (wd & Hp & _ & Htd).
    rewrite (bind_val _ _ _ _ _ Hp). cbn. split; [done|]. congruence.
  - unfold log, modify, raise, mbind, Py_bind.
    cbn [fst snd table set_logs]. split; [done | congruence].
Qed.

(** The [except] clause of the evaluator when its publish is answered. *)
Lemma evaluator_except m t e bs w0 :
  script w0 = Ok <$> bs ->
  exists w1,
    (log ("Error in Agent5 evaluation: " +:+ e);;
     sns_publish m "Campaign Plan Failed";;
     @raise Json t e) w0 = (Exc t e, w1) /\ table w1 = table w0.
Proof.
  intros Hs.
  destruct (sns_publish_ok m "Campaign Plan Failed" bs
              (set_logs (logs w0 ++ ["Error in Agent5 evaluation: " +:+ e]) w0)
              Hs) as (mid & w1 & Hpub & _ & Ht).
  exists w1. split; [|exact Ht].
  rewrite (bind_val (log _) _ w0 tt _ eq_refl). cbn beta.
  by rewrite (bind_val _ _ _ _ _ Hpub).
Qed.

Ltac evaluator_refused Hev Hs w0 :=
  rewrite (bind_val _ _ _ _ _ Hev); cbn beta;
  match goal with
  | |- context [(dynamodb_put_item ?cid ?s ?v ≫= ?f) w0] =>
      rewrite (bind_exc (dynamodb_put_item cid s v) f w0 _ _ w0 eq_refl)
  end;
  match goal with
  | |- context [(log _ ≫= fun _ => sns_publish ?m _ ≫= _) w0] =>
      let w1 := fresh "w" in
      let Ht := fresh "Ht" in
      destruct (evaluator_except m "ParamValidationError"
                  "Parameter validation failed" _ w0 Hs) as (w1 & -> & Ht)
  end;
  cbn [fst snd]; (split; [eauto | congruence]).

Lemma agent5_on_missing :
  step_outcome c "evaluation" "evaluation"
    (read_reply 5 (default "{}" (bodies !! 3%nat)) w).1
    (agent5_lambda_handler (campaign_event c) w) w.
Proof.
  destruct (get_item_ok c "campaign_plan" bodies w answered)
    as (wa & Hg1 & Hsa & Hta).
  destruct (get_item_ok c "content_samples" _ wa Hsa) as (wb & Hg2 & Hsb & Htb).
  destruct (get_item_ok c "channel_strategy" _ wb Hsb) as (wc & Hg3 & Hsc & Htc).
  destruct (model_read 5 _ wc Hsc) as (wd & Hsd & Htd & Hmodel).
  rewrite !lookup_drop in Hmodel. cbn [Nat.add] in Hmodel.
  rewrite (read_reply_run 5 _ w wc) in Hmodel. cbn [fst] in Hmodel.
  cbn [Nat.eqb] in Hmodel.
  assert (Hev : agent5_evaluate (JStr c) w
                = ((read_reply 5 (default "{}" (bodies !! 3%nat)) w).1, wd)).
  { unfold agent5_evaluate.
    rewrite (bind_val _ _ _ _ _ (fmap_val item_text _ _ _ _ Hg1)). cbn beta.
    rewrite (bind_val _ _ _ _ _ (fmap_val item_text _ _ _ _ Hg2)). cbn beta.
    rewrite (bind_val _ _ _ _ _ (fmap_val item_text _ _ _ _ Hg3)). cbn beta.
    exact Hmodel. }
  clear Hmodel.
  unfold agent5_lambda_handler, try_except. cbv zeta.
  change (dict_get "campaign_id" JNull (campaign_event c)) with (JStr c).
  destruct (read_reply 5 _ w).1 as [[| | |d| |]|t e]; cbn [step_outcome];
    try evaluator_refused Hev Hsd wd.
  - rewrite (bind_val _ _ _ _ _ Hev). cbn beta.
    destruct (put_item_ok c "evaluation" d _ wd Hsd) as (we & Hp & Hse & Hte).
    rewrite (bind_val _ _ _ _ _ Hp). cbn beta.
    match goal with
    | |- context [(sns_publish ?m ?s ≫= _) we] =>
        destruct (sns_publish_ok m s _ we Hse) as (mid & wf & Hpub & _ & Htf)
    end.
    rewrite (bind_val _ _ _ _ _ Hpub). cbn. split; [done|]. congruence.
  - rewrite (bind_exc _ _ _ _ _ _ Hev).
    match goal with
    | |- context [(log _ ≫= fun _ => sns_publish ?m _ ≫= _) wd] =>
        destruct (evaluator_except m t e _ wd Hsd) as (wf & -> & Htf)
    end.
    cbn [fst snd]. split; [done | congruence].
Qed.

End MissingRecords.

(** C8, as amended.  A missing prior-step record is not an error for
    any of the five agents that read the table: the read yields no item
    and the handler goes on with the empty value.  With every record of
    the campaign missing and no call refused, whatever the bodies of the
    replies, the outcome of the step is decided by the reply of the
    model alone, the reply that follows the agent's reads of the table:
    when it reads as a text, the handler returns that text and has put
    it in the table under its step; when it reads as a value that is no
    text, boto3 refuses the put; when reading it raises, the handler
    raises that exception; and in the last two cases the table is as it
    was.  The campaign id is taken not empty: DynamoDB refuses a key
    attribute that is the empty string, so under the empty id the reads
    themselves are refused, whatever the table holds. *)
Theorem C8_missing_records_read_as_empty
  `{PyJson} i h step field reads c bodies w :
  (1 <= i)%nat ->
  agent_codes !! i = Some h ->
  step_names !! i = Some step ->
  result_fields !! i = Some field ->
  reads_before_model !! i = Some reads ->
  c <> "" ->
  (forall s, table_get c s (table w) = None) ->
  script w = Ok <$> bodies ->
  let run := h (campaign_event c) w in
  match (read_reply i (default "{}" (bodies !! reads)) w).1 with
  | Val (JStr d) =>
      run.1 = Val (JObj [("campaign_id", JStr c); (field, JStr d)]) /\
      table run.2 = table_put {| item_campaign_id := c; item_step := step;
                                 item_data := d |} (table w)
  | Val _ =>
      (exists e, run.1 = Exc "ParamValidationError" e) /\
      table run.2 = table w
  | Exc t e => run.1 = Exc t e /\ table run.2 = table w
  end.
Proof.
  intros Hi Hh Hstep Hf Hr _ Hmiss Hs run. subst run.
  destruct i as [|[|[|[|[|[|i]]]]]]; try lia; try discriminate;
    injection Hh as <-; injection Hstep as <-; injection Hf as <-;
    injection Hr as <-.
  - exact (agent1_on_missing c bodies w Hmiss Hs).
  - exact (agent2_on_missing c bodies w Hmiss Hs).
  - exact (agent3_on_missing c bodies w Hmiss Hs).
  - exact (agent4_on_missing c bodies w Hmiss Hs).
  - exact (agent5_on_missing c bodies w Hs).
Qed.

Lemma C8_witness :
  let w := set_script [Ok "{}"; Ok "{}"; Ok "{}"; Ok "{}"] empty_world in
  let run := @agent2_lambda_handler json_fragment
               (campaign_event "CAMPAIGN123") w in
  run.1 = Val (JObj [("campaign_id", JStr "CAMPAIGN123"); ("plan", JStr "{}")])
  /\
  table run.2
  = table_put {| item_campaign_id := "CAMPAIGN123";
                 item_step := "campaign_plan"; item_data := "{}" |} (table w).
Proof.
  intros w run.
  apply (@C8_missing_records_read_as_empty json_fragment 2
           (@agent2_lambda_handler json_fragment) "campaign_plan" "plan" 2
           "CAMPAIGN123" ["{}"; "{}"; "{}"; "{}"] w);
    [lia | reflexivity | reflexivity | reflexivity | reflexivity
    | discriminate | reflexivity | reflexivity].
Defined.

(** C8 as stated fails.  Agent2Step of the deployed machine runs its
    Task for a campaign of which the table holds nothing, neither the
    business context nor the extracted brief, every service answering:
    the Task succeeds at its first attempt, with the plan derived from
    the empty input returned and stored, and the state goes on to
    Agent3Step. *)
Lemma C8_missing_record_does_not_fail_the_step :
  let task := run_task_state (@agent_codes json_fragment) (agent_state 6 2)
                (campaign_event "CAMPAIGN123") empty_world in
  table_get "CAMPAIGN123" "business_context" (table empty_world) = None /\
  table_get "CAMPAIGN123" "input_extracted" (table empty_world) = None /\
  task.1.1
  = TaskOk (JObj [("campaign_id", JStr "CAMPAIGN123"); ("plan", JStr "{}")]) /\
  invoked task.1.2 = [2%nat] /\
  failures task.1.2 = [] /\
  table task.2
  = [{| item_campaign_id := "CAMPAIGN123"; item_step := "campaign_plan";
        item_data := "{}" |}] /\
  transition (agent_state 6 2) = Next "Agent3Step".
Proof. vm_compute. done. Qed.
